(** * TaskFlow front end: a shallow embedding of the client code

    The development follows the TypeScript sources of the single-page
    client: [services/api.ts] (token storage, [apiRequest] and the three
    API classes), [context/AuthContext.tsx], [App.tsx] (task conversion
    and the task handlers), and the components [HomePage], [StatusBadge],
    [TaskFormModal] and [AdminPage].

    Conventions of the embedding.
    - A JavaScript string is a [string]; each [ascii] stands for one
      UTF-16 code unit below 256.
    - [undefined] and [null] are [None] where the source has an optional
      or nullable value.
    - Integral JavaScript numbers (ids, HTTP statuses, array lengths) are
      [Z]; the one genuinely fractional computation (the completion rate
      of the dashboard) is carried out on IEEE-754 binary64 values, with
      the operations of [SpecFloat].  A number is printed with its
      decimal digits, which is what JavaScript prints for an integer
      below 2^53 in absolute value; where a printed id is read back, the
      statement carries that bound.
    - [apiRequest<T>] is an unchecked cast.  The API methods are given
      with the declared type and read the parsed body against it; the
      authentication provider, whose behaviour on a body of another
      shape differs from a failure, is also given on the body as it is.
    - [async] functions run to completion one after the other: a call is
      a state transformer over the browser-side world (local storage, the
      requests sent so far, the console, the alert boxes) and the server
      behind [fetch], and either returns a value or throws. *)

From Stdlib Require Import ZArith List String Ascii Bool Lia.
From Stdlib Require Floats.SpecFloat.
From Stdlib Require Import Reals Lra.
From stdpp Require Import base option list gmap strings pretty.

Set Warnings "-register-all".

Local Open Scope string_scope.
Local Open Scope Z_scope.

(** ** JavaScript values that cross the wire *)

Module Js.

(** A parsed JSON document (the result of [response.json()]).  The
    numbers the server sends are ids and counts: integers. *)
Inductive json : Type :=
| JNull
| JBool (b : bool)
| JNum (n : Z)
| JStr (s : string)
| JArr (items : list json)
| JObj (fields : list (string * json)).

(** An exception value: [new Error(msg)], a [TypeError], a [SyntaxError]. *)
Record error : Type := MkError { err_name : string; err_message : string }.

Definition Error (msg : string) : error := MkError "Error" msg.
Definition TypeError (msg : string) : error := MkError "TypeError" msg.
Definition SyntaxError (msg : string) : error := MkError "SyntaxError" msg.

(** The outcome of running a piece of code: a value, or an exception. *)
Inductive result (A : Type) : Type :=
| Ok (a : A)
| Throw (e : error).
Arguments Ok {A} a.
Arguments Throw {A} e.

(** [JSON.parse] keeps the last binding of a repeated key. *)
Definition obj_get (fields : list (string * json)) (k : string) : option json :=
  snd <$> List.find (fun kv => bool_decide (fst kv = k)) (rev fields).

(** Property read [v.k] on a parsed document.  [null.k] throws; a
    primitive or an array has no such own property, so the read gives
    [undefined]. *)
Definition get_prop (v : json) (k : string) : error + option json :=
  match v with
  | JNull =>
      inl (TypeError ("Cannot read properties of null (reading '" +:+ k +:+ "')"))
  | JObj fields => inr (obj_get fields k)
  | _ => inr None
  end.

(** Truthiness, as tested by [if (v)], [!v] and [v || w]. *)
Definition truthy (v : option json) : bool :=
  match v with
  | None | Some JNull => false
  | Some (JBool b) => b
  | Some (JNum n) => negb (Z.eqb n 0)
  | Some (JStr s) => negb (bool_decide (s = ""))
  | Some (JArr _) | Some (JObj _) => true
  end.

Definition truthy_string (s : string) : bool := negb (bool_decide (s = "")).

Definition truthy_opt_string (s : option string) : bool :=
  match s with
  | None => false
  | Some s => truthy_string s
  end.

Fixpoint join (sep : string) (l : list string) : string :=
  match l with
  | [] => ""
  | [s] => s
  | s :: rest => s +:+ sep +:+ join sep rest
  end.

(** [String(v)]: the conversion [new Error(v)] applies to its argument.
    Inside an array, [null] prints as the empty string. *)
Fixpoint to_string (v : json) : string :=
  match v with
  | JNull => "null"
  | JBool true => "true"
  | JBool false => "false"
  | JNum n => pretty n
  | JStr s => s
  | JArr items =>
      join "," (List.map (fun x => match x with
                                   | JNull => ""
                                   | _ => to_string x
                                   end) items)
  | JObj _ => "[object Object]"
  end.

(** [String(v)] for a value that may be [undefined]: the conversion
    [localStorage.setItem] applies to the value it is given. *)
Definition ToString (v : option json) : string :=
  match v with
  | Some j => to_string j
  | None => "undefined"
  end.

(** [Number.isSafeInteger]: the integers a number holds exactly, each
    of which prints as its decimal digits. *)
Definition safe_integer (n : Z) : Prop := - 2 ^ 53 < n < 2 ^ 53.

(** A template literal [`${n}`] over a number that may be [NaN]. *)
Definition number_to_string (n : option Z) : string :=
  match n with
  | Some z => pretty z
  | None => "NaN"
  end.

End Js.

Import Js.

(** ** services/api.ts: the wire types *)

Record User : Type := MkUser {
  user_id : Z;
  username : string;
  email : string;
  is_admin : bool;
  is_active : bool;
  email_verified : bool;
  profile_picture : option string;
  user_created_at : string
}.

Record ProfileUpdate : Type := MkProfileUpdate {
  pu_username : option string;
  pu_email : option string;
  (* absent, [null], or a string *)
  pu_profile_picture : option (option string)
}.

Record UserCreate : Type := MkUserCreate {
  uc_username : string;
  uc_email : string;
  uc_password : string
}.

Record UserLogin : Type := MkUserLogin {
  ul_username : string;
  ul_password : string
}.

Record TokenResponse : Type := MkTokenResponse {
  access_token : string;
  token_type : string;
  user : User
}.

(** [description] is declared a string, but the server sends [null] for
    a task without one, which is why [todoToTask] defaults it. *)
Record Todo : Type := MkTodo {
  todo_id : Z;
  todo_title : string;
  todo_description : option string;
  todo_completed : bool;
  todo_status : string;
  todo_priority : string;
  start_date : string;
  end_date : string;
  todo_category : string;
  todo_created_at : string;
  todo_user_id : Z
}.

Record TodoCreate : Type := MkTodoCreate {
  tc_title : string;
  tc_description : option string;
  tc_completed : option bool;
  tc_status : option string;
  tc_priority : option string;
  tc_start_date : option string;
  tc_end_date : option string;
  tc_category : option string
}.

Record TodoUpdate : Type := MkTodoUpdate {
  tu_title : option string;
  tu_description : option string;
  tu_completed : option bool;
  tu_status : option string;
  tu_priority : option string;
  tu_start_date : option string;
  tu_end_date : option string;
  tu_category : option string
}.

(** *** Reading a typed value out of a parsed body

    [apiRequest<T>] asserts the interface [T] on whatever the server
    sent.  The readers below give the typed view of a body that fits the
    declared interface, and [None] for one that does not. *)

Definition field (j : json) (k : string) : option json :=
  match j with
  | JObj fields => obj_get fields k
  | _ => None
  end.

Definition as_string (j : json) : option string :=
  match j with JStr s => Some s | _ => None end.

Definition as_number (j : json) : option Z :=
  match j with JNum n => Some n | _ => None end.

Definition as_bool (j : json) : option bool :=
  match j with JBool b => Some b | _ => None end.

Definition as_nullable_string (j : option json) : option (option string) :=
  match j with
  | None | Some JNull => Some None
  | Some (JStr s) => Some (Some s)
  | Some _ => None
  end.

Definition as_list {A} (f : json -> option A) (j : json) : option (list A) :=
  match j with
  | JArr items => mapM f items
  | _ => None
  end.

Definition as_User (j : json) : option User :=
  id ← field j "id" ≫= as_number;
  uname ← field j "username" ≫= as_string;
  mail ← field j "email" ≫= as_string;
  adm ← field j "is_admin" ≫= as_bool;
  act ← field j "is_active" ≫= as_bool;
  ver ← field j "email_verified" ≫= as_bool;
  pic ← as_nullable_string (field j "profile_picture");
  created ← field j "created_at" ≫= as_string;
  Some (MkUser id uname mail adm act ver pic created).

Definition as_TokenResponse (j : json) : option TokenResponse :=
  tok ← field j "access_token" ≫= as_string;
  ty ← field j "token_type" ≫= as_string;
  u ← field j "user" ≫= as_User;
  Some (MkTokenResponse tok ty u).

Definition as_Todo (j : json) : option Todo :=
  id ← field j "id" ≫= as_number;
  title ← field j "title" ≫= as_string;
  descr ← as_nullable_string (field j "description");
  completed ← field j "completed" ≫= as_bool;
  status ← field j "status" ≫= as_string;
  priority ← field j "priority" ≫= as_string;
  sd ← field j "start_date" ≫= as_string;
  ed ← field j "end_date" ≫= as_string;
  category ← field j "category" ≫= as_string;
  created ← field j "created_at" ≫= as_string;
  owner ← field j "user_id" ≫= as_number;
  Some (MkTodo id title descr completed status priority sd ed category created owner).

(** *** [JSON.stringify] of the request payloads

    A request body is kept as the document that [JSON.stringify] prints;
    properties whose value is [undefined] are left out, as it does. *)

Definition opt_field {A} (k : string) (enc : A -> json) (v : option A)
  : list (string * json) :=
  match v with
  | Some a => [(k, enc a)]
  | None => []
  end.

Definition json_of_nullable_string (s : option string) : json :=
  match s with Some s => JStr s | None => JNull end.

Definition json_of_UserCreate (u : UserCreate) : json :=
  JObj [("username", JStr (uc_username u)); ("email", JStr (uc_email u));
        ("password", JStr (uc_password u))].

Definition json_of_UserLogin (c : UserLogin) : json :=
  JObj [("username", JStr (ul_username c)); ("password", JStr (ul_password c))].

Definition json_of_ProfileUpdate (p : ProfileUpdate) : json :=
  JObj (opt_field "username" JStr (pu_username p)
        ++ opt_field "email" JStr (pu_email p)
        ++ opt_field "profile_picture" json_of_nullable_string (pu_profile_picture p)).

Definition json_of_TodoCreate (t : TodoCreate) : json :=
  JObj (("title", JStr (tc_title t))
        :: opt_field "description" JStr (tc_description t)
        ++ opt_field "completed" JBool (tc_completed t)
        ++ opt_field "status" JStr (tc_status t)
        ++ opt_field "priority" JStr (tc_priority t)
        ++ opt_field "start_date" JStr (tc_start_date t)
        ++ opt_field "end_date" JStr (tc_end_date t)
        ++ opt_field "category" JStr (tc_category t)).

Definition json_of_TodoUpdate (t : TodoUpdate) : json :=
  JObj (opt_field "title" JStr (tu_title t)
        ++ opt_field "description" JStr (tu_description t)
        ++ opt_field "completed" JBool (tu_completed t)
        ++ opt_field "status" JStr (tu_status t)
        ++ opt_field "priority" JStr (tu_priority t)
        ++ opt_field "start_date" JStr (tu_start_date t)
        ++ opt_field "end_date" JStr (tu_end_date t)
        ++ opt_field "category" JStr (tu_category t)).

(** ** JavaScript string and number helpers *)

(** White space removed by [String.prototype.trim] among the code units
    below 256: TAB, LF, VT, FF, CR, SPACE and NBSP. *)
Definition is_js_space (a : ascii) : bool :=
  match N_of_ascii a with
  | 9 | 10 | 11 | 12 | 13 | 32 | 160 => true
  | _ => false
  end%N.

Fixpoint trim_start (s : string) : string :=
  match s with
  | String a rest => if is_js_space a then trim_start rest else s
  | EmptyString => EmptyString
  end.

Definition trim_end (s : string) : string :=
  String.rev (trim_start (String.rev s)).

Definition js_trim (s : string) : string := trim_end (trim_start s).

(** [a > b] on strings: lexicographic on code units, a proper prefix
    being smaller. *)
Definition js_string_gt (a b : string) : bool := String.ltb b a.

Definition digit_value (radix : Z) (a : ascii) : option Z :=
  let n := Z.of_N (N_of_ascii a) in
  let v :=
    if (48 <=? n) && (n <=? 57) then Some (n - 48)
    else if (97 <=? n) && (n <=? 122) then Some (n - 87)
    else if (65 <=? n) && (n <=? 90) then Some (n - 55)
    else None in
  match v with
  | Some d => if d <? radix then Some d else None
  | None => None
  end.

(** The longest prefix of digits, accumulated left to right; [None] when
    there is no digit at all. *)
Fixpoint parse_digits (radix : Z) (acc : option Z) (s : string) : option Z :=
  match s with
  | String a rest =>
      match digit_value radix a with
      | Some d => parse_digits radix (Some (default 0 acc * radix + d)) rest
      | None => acc
      end
  | EmptyString => acc
  end.

(** [parseInt(s)] without a radix: leading white space, an optional sign,
    an optional [0x] prefix, then digits; [None] is [NaN].  The value is
    exact (the source's numbers are ids, far below 2^53). *)
Definition parseInt (s : string) : option Z :=
  let s := trim_start s in
  let '(sign, s) :=
    match s with
    | String "-" rest => (-1, rest)
    | String "+" rest => (1, rest)
    | _ => (1, s)
    end in
  let '(radix, s) :=
    match s with
    | String "0" (String "x" rest) | String "0" (String "X" rest) => (16, rest)
    | _ => (10, s)
    end in
  (fun n => sign * n) <$> parse_digits radix None s.

(** IEEE-754 binary64, the arithmetic of JavaScript numbers. *)
Module Num.

Definition number : Type := SpecFloat.spec_float.

Definition prec : Z := 53.
Definition emax : Z := 1024.

Definition of_Z (z : Z) : number := SpecFloat.binary_normalize prec emax z 0 false.
Definition div (x y : number) : number := SpecFloat.SFdiv prec emax x y.
Definition mul (x y : number) : number := SpecFloat.SFmul prec emax x y.

Definition zero : number := SpecFloat.S754_zero false.

(** [Math.round]: the nearest integer, a tie going towards +infinity;
    NaN, the infinities, the zeros and integral values are returned as
    they are, and a result that rounds to zero keeps the sign of the
    argument. *)
Definition Math_round (x : number) : number :=
  match x with
  | SpecFloat.S754_finite s m e =>
      if 0 <=? e then x
      else
        let k := 2 ^ (- e) in
        let q := Z.pos m / k in
        let r := Z.pos m mod k in
        if r =? 0 then x
        else
          let n := if s
                   then (if k <? 2 * r then - (q + 1) else - q)
                   else (if k <=? 2 * r then q + 1 else q) in
          if n =? 0 then SpecFloat.S754_zero s else of_Z n
  | _ => x
  end.

Global Instance number_eq_dec : EqDecision number.
Proof. solve_decision. Defined.

End Num.

(** ** App.tsx: tasks and their conversion *)

(** [TaskStatus] is the union of four string literals; at run time a
    status is a string (the cast [todo.status as TaskStatus] checks
    nothing). *)
Inductive TaskStatus : Type := StTodo | StInProgress | StDone | StBlocked.

Definition status_value (s : TaskStatus) : string :=
  match s with
  | StTodo => "todo"
  | StInProgress => "in-progress"
  | StDone => "done"
  | StBlocked => "blocked"
  end.

Definition is_TaskStatus (s : string) : Prop := exists st, s = status_value st.

Record Task : Type := MkTask {
  id : string;
  title : string;
  description : string;
  status : string;
  priority : string;
  startDate : string;
  endDate : string;
  createdAt : string;
  category : string
}.

(** [Omit<Task, 'id' | 'createdAt'>], the shape of the task form. *)
Record TaskData : Type := MkTaskData {
  td_title : string;
  td_description : string;
  td_status : string;
  td_priority : string;
  td_startDate : string;
  td_endDate : string;
  td_category : string
}.

(** A [Task] used where [Omit<Task, 'id' | 'createdAt'>] is expected. *)
Definition task_data (t : Task) : TaskData :=
  MkTaskData (title t) (description t) (status t) (priority t)
             (startDate t) (endDate t) (category t).

(** [Partial<Task>] *)
Record PartialTask : Type := MkPartialTask {
  pt_id : option string;
  pt_title : option string;
  pt_description : option string;
  pt_status : option string;
  pt_priority : option string;
  pt_startDate : option string;
  pt_endDate : option string;
  pt_createdAt : option string;
  pt_category : option string
}.

(** [todo.description || ''] *)
Definition or_empty (s : option string) : string :=
  if truthy_opt_string s then default "" s else "".

(** [todo.id.toString()] is given as the decimal digits of the id, which
    is what it is for a safe integer; from 2^53 on JavaScript prints
    fewer digits, and from 10^21 on an exponent. *)
Definition todoToTask (todo : Todo) : Task :=
  {| id := pretty (todo_id todo);
     title := todo_title todo;
     description := or_empty (todo_description todo);
     status := todo_status todo;
     priority := todo_priority todo;
     startDate := start_date todo;
     endDate := end_date todo;
     createdAt := todo_created_at todo;
     category := todo_category todo |}.

Definition taskToTodoCreate (task : TaskData) : TodoCreate :=
  {| tc_title := td_title task;
     tc_description := Some (td_description task);
     tc_completed := None;
     tc_status := Some (td_status task);
     tc_priority := Some (td_priority task);
     tc_start_date := Some (td_startDate task);
     tc_end_date := Some (td_endDate task);
     tc_category := Some (td_category task) |}.

Definition taskToTodoUpdate (updates : PartialTask) : TodoUpdate :=
  {| tu_title := pt_title updates;
     tu_description := pt_description updates;
     tu_completed := None;
     tu_status := pt_status updates;
     tu_priority := pt_priority updates;
     tu_start_date := pt_startDate updates;
     tu_end_date := pt_endDate updates;
     tu_category := pt_category updates |}.

(** ** components/HomePage.tsx: the dashboard figures *)

Record StatusCounts : Type := MkStatusCounts {
  count_todo : nat;
  count_in_progress : nat;
  count_done : nat;
  count_blocked : nat
}.

Definition statusCounts (tasks : list Task) : StatusCounts :=
  {| count_todo := length (filter (fun t => status t = "todo") tasks);
     count_in_progress := length (filter (fun t => status t = "in-progress") tasks);
     count_done := length (filter (fun t => status t = "done") tasks);
     count_blocked := length (filter (fun t => status t = "blocked") tasks) |}.

Definition totalTasks (tasks : list Task) : nat := length tasks.

(** [totalTasks > 0 ? Math.round((statusCounts.done / totalTasks) * 100) : 0] *)
Definition completionRate (tasks : list Task) : Num.number :=
  if (0 <? totalTasks tasks)%nat
  then Num.Math_round
         (Num.mul
            (Num.div (Num.of_Z (Z.of_nat (count_done (statusCounts tasks))))
                     (Num.of_Z (Z.of_nat (totalTasks tasks))))
            (Num.of_Z 100))
  else Num.zero.

(** The figure the specification names: [100 * done / total] rounded to
    the nearest integer (a tie going up, as [Math.round] does), computed
    exactly. *)
Definition rounded_percentage (done total : nat) : Z :=
  (200 * Z.of_nat done + Z.of_nat total) / (2 * Z.of_nat total).

(** ** components/StatusBadge.tsx *)

Inductive Icon : Type := Circle | Clock | CheckCircle2 | AlertCircle.

Record StatusConfig : Type := MkStatusConfig {
  icon : Icon;
  label : string;
  className : string
}.

(** The [switch] has no [default]: any other string falls through and
    the function returns [undefined]. *)
Definition getStatusConfig (status : string) : option StatusConfig :=
  if bool_decide (status = "todo") then
    Some (MkStatusConfig Circle "To Do" "bg-gray-100 text-gray-700")
  else if bool_decide (status = "in-progress") then
    Some (MkStatusConfig Clock "In Progress" "bg-blue-100 text-blue-700")
  else if bool_decide (status = "done") then
    Some (MkStatusConfig CheckCircle2 "Done" "bg-green-100 text-green-700")
  else if bool_decide (status = "blocked") then
    Some (MkStatusConfig AlertCircle "Blocked" "bg-red-100 text-red-700")
  else None.

(** What the component renders: the icon and the label of the
    configuration.  Reading [config.icon] of [undefined] throws. *)
Definition StatusBadge (status : string) : result (Icon * string * string) :=
  match getStatusConfig status with
  | Some config => Ok (icon config, label config, className config)
  | None => Throw (TypeError "Cannot read properties of undefined (reading 'icon')")
  end.

(** ** components/TaskFormModal.tsx: validation of the task form *)

Record TaskFormState : Type := MkTaskFormState {
  formData : TaskData;
  errors : gmap string string
}.

(** [validate] builds the error record and reports whether it is empty. *)
Definition validate (formData : TaskData) : gmap string string * bool :=
  let newErrors : gmap string string := ∅ in
  let newErrors :=
    if negb (truthy_string (js_trim (td_title formData)))
    then <["title" := "Title is required"]> newErrors else newErrors in
  let newErrors :=
    if negb (truthy_string (js_trim (td_category formData)))
    then <["category" := "Category is required"]> newErrors else newErrors in
  let newErrors :=
    if negb (truthy_string (td_startDate formData))
    then <["startDate" := "Start date is required"]> newErrors else newErrors in
  let newErrors :=
    if negb (truthy_string (td_endDate formData))
    then <["endDate" := "End date is required"]> newErrors else newErrors in
  let newErrors :=
    if truthy_string (td_startDate formData)
       && truthy_string (td_endDate formData)
       && js_string_gt (td_startDate formData) (td_endDate formData)
    then <["endDate" := "End date must be after start date"]> newErrors
    else newErrors in
  (newErrors, Nat.eqb (size newErrors) 0).

(** [handleSubmit]: the new form state, and the argument of [onSave] when
    it is called. *)
Definition handleSubmit (st : TaskFormState) : TaskFormState * option TaskData :=
  let '(newErrors, valid) := validate (formData st) in
  let st' := MkTaskFormState (formData st) newErrors in
  if valid then (st', Some (formData st)) else (st', None).

(** ** The transport: requests, responses, and the world a call runs in *)

Record request : Type := MkRequest {
  url : string;
  method : option string;
  headers : gmap string string;
  body : option json
}.

(** A [Response]: its status line and what [response.json()] gives
    ([None] when the body is not a JSON document and the promise
    rejects). *)
Record response : Type := MkResponse {
  resp_status : Z;
  statusText : string;
  payload : option json
}.

(** [response.ok] *)
Definition ok (r : response) : bool :=
  (200 <=? resp_status r) && (resp_status r <=? 299).

(** [fetch] either rejects (no connection) or resolves with a response,
    whatever its status. *)
Inductive fetch_outcome : Type :=
| NetworkFailure (e : error)
| Responded (r : response).

(** The second argument of [apiRequest] and of [fetch]. *)
Record RequestInit : Type := MkRequestInit {
  init_method : option string;
  init_body : option json;
  init_headers : option (gmap string string)
}.

Definition no_options : RequestInit := MkRequestInit None None None.

Definition API_BASE_URL : string := "/api".

Section Client.

(** The server: a state and a transition for each request received. *)
Context {server : Type} (serve : server -> request -> server * fetch_outcome).

Record world : Type := MkWorld {
  localStorage : gmap string string;
  backend : server;
  sent : list request;
  console : list string;
  alerts : list string
}.

Definition set_localStorage (f : gmap string string -> gmap string string)
  (w : world) : world :=
  MkWorld (f (localStorage w)) (backend w) (sent w) (console w) (alerts w).

(** *** Computations: state passing with exceptions *)

Definition M (A : Type) : Type := world -> world * result A.

#[global] Instance M_ret : MRet M := fun A a w => (w, Ok a).

#[global] Instance M_bind : MBind M := fun A B k m w =>
  match m w with
  | (w', Ok a) => k a w'
  | (w', Throw e) => (w', Throw e)
  end.

Definition throw {A} (e : error) : M A := fun w => (w, Throw e).

(** [try { m } catch (e) { h e }] *)
Definition try_catch {A} (m : M A) (h : error -> M A) : M A := fun w =>
  match m w with
  | (w', Ok a) => (w', Ok a)
  | (w', Throw e) => h e w'
  end.

(** [Promise.all([a, b])]: both calls are started, in this order; the
    result is the pair of values, or a rejection.  When both calls fail
    the program rejects with the rejection that arrives first; responses
    arrive here in the order of the requests, so it is the first
    call's. *)
Definition promise_all2 {A B} (a : M A) (b : M B) : M (A * B) := fun w =>
  let '(w1, ra) := a w in
  let '(w2, rb) := b w1 in
  (w2, match ra, rb with
       | Ok x, Ok y => Ok (x, y)
       | Throw e, _ => Throw e
       | _, Throw e => Throw e
       end).

Definition console_error (what : string) (e : error) : M unit := fun w =>
  (MkWorld (localStorage w) (backend w) (sent w)
           (console w ++ [what +:+ " " +:+ err_message e]) (alerts w), Ok ()).

Definition alert (msg : string) : M unit := fun w =>
  (MkWorld (localStorage w) (backend w) (sent w) (console w)
           (alerts w ++ [msg]), Ok ()).

(** [fetch(url, init)]: the request leaves the browser and the server
    takes its step. *)
Definition fetch (req : request) : M response := fun w =>
  let '(s', out) := serve (backend w) req in
  let w' := MkWorld (localStorage w) s' (sent w ++ [req]) (console w) (alerts w) in
  match out with
  | NetworkFailure e => (w', Throw e)
  | Responded r => (w', Ok r)
  end.

(** *** Token management *)

Definition getToken : M (option string) := fun w =>
  (w, Ok (localStorage w !! "auth_token")).

Definition setToken (token : string) : M unit := fun w =>
  (set_localStorage (insert "auth_token" token) w, Ok ()).

Definition removeToken : M unit := fun w =>
  (set_localStorage (delete "auth_token") w, Ok ()).

(** *** The API helper *)

(** The headers of the outgoing request: the content type, overridden by
    the caller's headers, then the bearer token when there is one. *)
Definition request_headers (token : option string) (options : RequestInit)
  : gmap string string :=
  let headers : gmap string string :=
    default ∅ (init_headers options) ∪ {["Content-Type" := "application/json"]} in
  match token with
  | Some t =>
      if truthy_string t
      then <["Authorization" := "Bearer " +:+ t]> headers
      else headers
  | None => headers
  end.

(** [error.detail || `HTTP ${response.status}`], converted to the
    message of the [Error]. *)
Definition error_message (detail : option json) (status : Z) : string :=
  if truthy detail
  then match detail with Some d => to_string d | None => "" end
  else "HTTP " +:+ pretty status.

Definition apiRequest (endpoint : string) (options : RequestInit) : M json :=
  token ← getToken;
  let headers := request_headers token options in
  response ← fetch (MkRequest (API_BASE_URL +:+ endpoint) (init_method options)
                              headers (init_body options));
  if negb (ok response) then
    let error :=
      match payload response with
      | Some j => j
      | None => JObj [("detail", JStr (statusText response))]
      end in
    match get_prop error "detail" with
    | inl e => throw e
    | inr detail => throw (Error (error_message detail (resp_status response)))
    end
  else
    match payload response with
    | Some j => mret j
    | None => throw (SyntaxError "Unexpected end of JSON input")
    end.

(** The typed view [apiRequest<T>] promises.  The program checks
    nothing: on a 2xx body outside the interface it carries on with a
    value of another shape, for which the typed methods have no value to
    return.  They stop there with an error; what is stated of their
    values is stated for bodies that fit. *)
Definition expect {T} (read : json -> option T) (j : json) : M T :=
  match read j with
  | Some t => mret t
  | None => throw (TypeError "response does not fit the declared interface")
  end.

(** *** AuthAPI *)

Definition AuthAPI_register (userData : UserCreate) : M TokenResponse :=
  response ← apiRequest "/auth/register"
      (MkRequestInit (Some "POST") (Some (json_of_UserCreate userData)) None)
    ≫= expect as_TokenResponse;
  _ ← setToken (access_token response);
  mret response.

Definition AuthAPI_login (credentials : UserLogin) : M TokenResponse :=
  response ← apiRequest "/auth/login"
      (MkRequestInit (Some "POST") (Some (json_of_UserLogin credentials)) None)
    ≫= expect as_TokenResponse;
  _ ← setToken (access_token response);
  mret response.

Definition AuthAPI_getCurrentUser : M User :=
  apiRequest "/auth/me" no_options ≫= expect as_User.

Definition AuthAPI_updateProfile (profileData : ProfileUpdate) : M User :=
  apiRequest "/auth/profile"
      (MkRequestInit (Some "PUT") (Some (json_of_ProfileUpdate profileData)) None)
    ≫= expect as_User.

Definition AuthAPI_logout : M unit := removeToken.

(** *** TodoAPI *)

Definition TodoAPI_getTodos (completed : option bool) : M (list Todo) :=
  let query :=
    match completed with
    | Some true => "?completed=true"
    | Some false => "?completed=false"
    | None => ""
    end in
  apiRequest ("/todos" +:+ query) no_options ≫= expect (as_list as_Todo).

Definition TodoAPI_getTodo (id : option Z) : M Todo :=
  apiRequest ("/todos/" +:+ number_to_string id) no_options ≫= expect as_Todo.

Definition TodoAPI_createTodo (todo : TodoCreate) : M Todo :=
  apiRequest "/todos"
      (MkRequestInit (Some "POST") (Some (json_of_TodoCreate todo)) None)
    ≫= expect as_Todo.

Definition TodoAPI_updateTodo (id : option Z) (updates : TodoUpdate) : M Todo :=
  apiRequest ("/todos/" +:+ number_to_string id)
      (MkRequestInit (Some "PUT") (Some (json_of_TodoUpdate updates)) None)
    ≫= expect as_Todo.

Definition TodoAPI_deleteTodo (id : option Z) : M unit :=
  _ ← apiRequest ("/todos/" +:+ number_to_string id)
        (MkRequestInit (Some "DELETE") None None);
  mret ().

Definition TodoAPI_getStats : M json := apiRequest "/stats" no_options.

(** *** AdminAPI *)

Definition AdminAPI_getAllUsers : M (list User) :=
  apiRequest "/admin/users" no_options ≫= expect (as_list as_User).

Definition AdminAPI_getUser (userId : Z) : M User :=
  apiRequest ("/admin/users/" +:+ pretty userId) no_options ≫= expect as_User.

Definition AdminAPI_getUserTodos (userId : Z) : M (list Todo) :=
  apiRequest ("/admin/users/" +:+ pretty userId +:+ "/todos") no_options
    ≫= expect (as_list as_Todo).

Definition AdminAPI_deleteUser (userId : Z) : M unit :=
  _ ← apiRequest ("/admin/users/" +:+ pretty userId)
        (MkRequestInit (Some "DELETE") None None);
  mret ().

(** The one caller discards the user returned; it is kept as the
    document received. *)
Definition AdminAPI_toggleAdminRole (userId : Z) : M json :=
  apiRequest ("/admin/users/" +:+ pretty userId +:+ "/role")
      (MkRequestInit (Some "PUT") None None).

(** [AdminStats] is only displayed; it is kept as the document received. *)
Definition AdminAPI_getSystemStats : M json :=
  apiRequest "/admin/stats" no_options.

(** *** Every method of the three exported classes

    [apiRequest] is private to [services/api.ts]; the sixteen methods
    below are its callers. *)
Inductive ApiCall : Type :=
| Call_register (userData : UserCreate)
| Call_login (credentials : UserLogin)
| Call_getCurrentUser
| Call_updateProfile (profileData : ProfileUpdate)
| Call_getTodos (completed : option bool)
| Call_getTodo (id : option Z)
| Call_createTodo (todo : TodoCreate)
| Call_updateTodo (id : option Z) (updates : TodoUpdate)
| Call_deleteTodo (id : option Z)
| Call_getStats
| Call_getAllUsers
| Call_getUser (userId : Z)
| Call_getUserTodos (userId : Z)
| Call_deleteUser (userId : Z)
| Call_toggleAdminRole (userId : Z)
| Call_getSystemStats.

(** Forget the value a call returns. *)
Definition void {A} (m : M A) : M unit := _ ← m; mret ().

Definition perform (c : ApiCall) : M unit :=
  match c with
  | Call_register userData => void (AuthAPI_register userData)
  | Call_login credentials => void (AuthAPI_login credentials)
  | Call_getCurrentUser => void AuthAPI_getCurrentUser
  | Call_updateProfile profileData => void (AuthAPI_updateProfile profileData)
  | Call_getTodos completed => void (TodoAPI_getTodos completed)
  | Call_getTodo id => void (TodoAPI_getTodo id)
  | Call_createTodo todo => void (TodoAPI_createTodo todo)
  | Call_updateTodo id updates => void (TodoAPI_updateTodo id updates)
  | Call_deleteTodo id => TodoAPI_deleteTodo id
  | Call_getStats => void TodoAPI_getStats
  | Call_getAllUsers => void AdminAPI_getAllUsers
  | Call_getUser userId => void (AdminAPI_getUser userId)
  | Call_getUserTodos userId => void (AdminAPI_getUserTodos userId)
  | Call_deleteUser userId => AdminAPI_deleteUser userId
  | Call_toggleAdminRole userId => void (AdminAPI_toggleAdminRole userId)
  | Call_getSystemStats => void AdminAPI_getSystemStats
  end.

(** ** context/AuthContext.tsx *)

Record AuthState : Type := MkAuthState {
  auth_user : option User;
  auth_token : option string;
  loading : bool
}.

Definition AuthState_initial : AuthState := MkAuthState None None true.

(** [!!user && !!token] *)
Definition isAuthenticated (st : AuthState) : bool :=
  bool_decide (is_Some (auth_user st)) && truthy_opt_string (auth_token st).

(** [user?.is_admin || false] *)
Definition isAdmin (st : AuthState) : bool :=
  match auth_user st with
  | Some u => is_admin u
  | None => false
  end.

(** The typed reading of [login], [register] and [logout]: the state
    after a response that fits [TokenResponse]. *)

Definition AuthContext_login (st : AuthState) (credentials : UserLogin)
  : M AuthState :=
  try_catch
    (response ← AuthAPI_login credentials;
     mret (MkAuthState (Some (user response)) (Some (access_token response))
                       (loading st)))
    (fun error =>
       _ ← console_error "Login failed:" error;
       throw error).

Definition AuthContext_register (st : AuthState) (userData : UserCreate)
  : M AuthState :=
  try_catch
    (response ← AuthAPI_register userData;
     mret (MkAuthState (Some (user response)) (Some (access_token response))
                       (loading st)))
    (fun error =>
       _ ← console_error "Registration failed:" error;
       throw error).

Definition AuthContext_logout (st : AuthState) : M AuthState :=
  _ ← AuthAPI_logout;
  mret (MkAuthState None None (loading st)).

(** *** The provider on the response as it is

    At run time the response of an API method is the parsed body,
    whatever its shape: [response.access_token] is a property read and
    [setUser], [setToken] keep the value they are given.  [user] and
    [token] are values here, [null] at the start. *)

(** [v.k] *)
Definition read_prop (v : json) (k : string) : M (option json) :=
  match get_prop v k with
  | inl e => throw e
  | inr x => mret x
  end.

(** [AuthAPI.register], [AuthAPI.login], [AuthAPI.getCurrentUser] *)
Definition AuthAPI_register_body (userData : UserCreate) : M json :=
  response ← apiRequest "/auth/register"
      (MkRequestInit (Some "POST") (Some (json_of_UserCreate userData)) None);
  access_token ← read_prop response "access_token";
  _ ← setToken (ToString access_token);
  mret response.

Definition AuthAPI_login_body (credentials : UserLogin) : M json :=
  response ← apiRequest "/auth/login"
      (MkRequestInit (Some "POST") (Some (json_of_UserLogin credentials)) None);
  access_token ← read_prop response "access_token";
  _ ← setToken (ToString access_token);
  mret response.

Definition AuthAPI_getCurrentUser_body : M json :=
  apiRequest "/auth/me" no_options.

Record ProviderState : Type := MkProviderState {
  user_value : option json;
  token_value : option json;
  provider_loading : bool
}.

Definition ProviderState_initial : ProviderState :=
  MkProviderState (Some JNull) (Some JNull) true.

(** [!!user && !!token] *)
Definition provider_isAuthenticated (st : ProviderState) : bool :=
  truthy (user_value st) && truthy (token_value st).

(** The effect run once on mount. *)
Definition initAuth (st : ProviderState) : M ProviderState :=
  storedToken ← getToken;
  st ← (if truthy_opt_string storedToken then
          let st := MkProviderState (user_value st)
                      (Some (json_of_nullable_string storedToken))
                      (provider_loading st) in
          try_catch
            (currentUser ← AuthAPI_getCurrentUser_body;
             mret (MkProviderState (Some currentUser) (token_value st)
                                   (provider_loading st)))
            (fun error =>
               _ ← console_error "Failed to get user:" error;
               _ ← AuthAPI_logout;
               mret (MkProviderState (user_value st) (Some JNull)
                                     (provider_loading st)))
        else mret st);
  mret (MkProviderState (user_value st) (token_value st) false).

Definition AuthProvider_login (st : ProviderState) (credentials : UserLogin)
  : M ProviderState :=
  try_catch
    (response ← AuthAPI_login_body credentials;
     access_token ← read_prop response "access_token";
     user ← read_prop response "user";
     mret (MkProviderState user access_token (provider_loading st)))
    (fun error =>
       _ ← console_error "Login failed:" error;
       throw error).

Definition AuthProvider_register (st : ProviderState) (userData : UserCreate)
  : M ProviderState :=
  try_catch
    (response ← AuthAPI_register_body userData;
     access_token ← read_prop response "access_token";
     user ← read_prop response "user";
     mret (MkProviderState user access_token (provider_loading st)))
    (fun error =>
       _ ← console_error "Registration failed:" error;
       throw error).

Definition AuthProvider_logout (st : ProviderState) : M ProviderState :=
  _ ← AuthAPI_logout;
  mret (MkProviderState (Some JNull) (Some JNull) (provider_loading st)).

Definition refreshUser (st : ProviderState) : M ProviderState :=
  try_catch
    (currentUser ← AuthAPI_getCurrentUser_body;
     mret (MkProviderState (Some currentUser) (token_value st)
                           (provider_loading st)))
    (fun error =>
       _ ← console_error "Failed to refresh user:" error;
       AuthProvider_logout st).

(** ** App.tsx: the task handlers

    The handlers read the [tasks] of the render they were created in and
    replace the list with [setTasks]; here they take the list and return
    the new one. *)

(** [err.message || fallback] *)
Definition message_or (err : error) (fallback : string) : string :=
  if truthy_string (err_message err) then err_message err else fallback.

Definition loadTasks (auth : AuthState) (tasks : list Task) : M (list Task) :=
  if negb (isAuthenticated auth) || negb (bool_decide (is_Some (auth_user auth)))
  then mret []
  else
    try_catch
      (todos ← TodoAPI_getTodos None;
       mret (List.map todoToTask todos))
      (fun err =>
         _ ← console_error "Failed to load tasks:" err;
         mret tasks).

Definition addTask (tasks : list Task) (task : TaskData) : M (list Task) :=
  try_catch
    (let todoCreate := taskToTodoCreate task in
     newTodo ← TodoAPI_createTodo todoCreate;
     mret (tasks ++ [todoToTask newTodo])%list)
    (fun err =>
       _ ← console_error "Failed to create task:" err;
       _ ← alert ("Failed to create task: " +:+ message_or err "Unknown error");
       mret tasks).

Definition updateTask (tasks : list Task) (taskId : string) (updates : PartialTask)
  : M (list Task) :=
  try_catch
    (let todoUpdate := taskToTodoUpdate updates in
     updatedTodo ← TodoAPI_updateTodo (parseInt taskId) todoUpdate;
     mret (List.map (fun task => if bool_decide (id task = taskId)
                                 then todoToTask updatedTodo else task) tasks))
    (fun err =>
       _ ← console_error "Failed to update task:" err;
       _ ← alert ("Failed to update task: " +:+ message_or err "Unknown error");
       mret tasks).

Definition deleteTask (tasks : list Task) (taskId : string) : M (list Task) :=
  try_catch
    (_ ← TodoAPI_deleteTodo (parseInt taskId);
     mret (filter (fun task => id task <> taskId) tasks))
    (fun err =>
       _ ← console_error "Failed to delete task:" err;
       _ ← alert ("Failed to delete task: " +:+ message_or err "Unknown error");
       mret tasks).

(** ** components/AdminPage.tsx *)

Record AdminState : Type := MkAdminState {
  users : list User;
  stats : option json;
  isLoading : bool;
  error_text : string;
  deletingUserId : option Z
}.

Definition AdminState_initial : AdminState := MkAdminState [] None true "" None.

Definition setError (msg : string) (st : AdminState) : AdminState :=
  MkAdminState (users st) (stats st) (isLoading st) msg (deletingUserId st).

Definition setIsLoading (b : bool) (st : AdminState) : AdminState :=
  MkAdminState (users st) (stats st) b (error_text st) (deletingUserId st).

Definition setDeletingUserId (d : option Z) (st : AdminState) : AdminState :=
  MkAdminState (users st) (stats st) (isLoading st) (error_text st) d.

Definition setUsersAndStats (us : list User) (s : json) (st : AdminState)
  : AdminState :=
  MkAdminState us (Some s) (isLoading st) (error_text st) (deletingUserId st).

Definition loadData (st : AdminState) : M AdminState :=
  let st := setError "" (setIsLoading true st) in
  st ← try_catch
         (data ← promise_all2 AdminAPI_getAllUsers AdminAPI_getSystemStats;
          mret (setUsersAndStats (fst data) (snd data) st))
         (fun err =>
            _ ← console_error "Failed to load admin data:" err;
            mret (setError (message_or err "Failed to load admin data") st));
  mret (setIsLoading false st).

Definition handleToggleAdmin (st : AdminState) (userId : Z) : M AdminState :=
  try_catch
    (_ ← AdminAPI_toggleAdminRole userId;
     loadData st)
    (fun err =>
       _ ← console_error "Failed to toggle admin role:" err;
       mret (setError (message_or err "Failed to update user role") st)).

(** The answer given in the [window.confirm] dialog. *)
Context (window_confirm : string -> bool).

(** The double-quote character, for the text of the dialog. *)
Definition dquote : string := String (ascii_of_N 34) EmptyString.

Definition confirm_text (u : User) : string :=
  "Are you sure you want to delete user " +:+ dquote +:+ username u +:+ dquote
  +:+ "? This will also delete all their todos. This action cannot be undone.".

(** The state [handleDeleteUser] leaves for the renders that happen while
    its DELETE request is in flight; [None] when it returns before
    sending anything. *)
Definition handleDeleteUser_awaiting (st : AdminState) (userId : Z)
  : option AdminState :=
  match List.find (fun u => bool_decide (user_id u = userId)) (users st) with
  | None => None
  | Some u =>
      if negb (window_confirm (confirm_text u)) then None
      else Some (setDeletingUserId (Some userId) st)
  end.

Definition handleDeleteUser (st : AdminState) (userId : Z) : M AdminState :=
  match handleDeleteUser_awaiting st userId with
  | None => mret st
  | Some st =>
      st ← try_catch
             (_ ← AdminAPI_deleteUser userId;
              loadData st)
             (fun err =>
                _ ← console_error "Failed to delete user:" err;
                mret (setError (message_or err "Failed to delete user") st));
      mret (setDeletingUserId None st)
  end.

(** One row of the user table, as far as the two action buttons go. *)
Record UserRow : Type := MkUserRow {
  row_user : User;
  isCurrentUser : bool;
  toggle_disabled : bool;
  toggle_title : string;
  toggle_text : string;
  delete_disabled : bool;
  delete_title : string;
  delete_spinner : bool
}.

Definition render_row (currentUserId : Z) (deleting : option Z) (u : User)
  : UserRow :=
  let isCurrentUser := bool_decide (user_id u = currentUserId) in
  {| row_user := u;
     isCurrentUser := isCurrentUser;
     toggle_disabled := isCurrentUser;
     toggle_title := if isCurrentUser then "Can't modify your own role" else "";
     toggle_text := if is_admin u then "Remove Admin" else "Make Admin";
     delete_disabled := isCurrentUser || bool_decide (deleting = Some (user_id u));
     delete_title := if isCurrentUser then "Can't delete your own account"
                     else "Delete user";
     delete_spinner := bool_decide (deleting = Some (user_id u)) |}.

Inductive AdminView : Type :=
| LoadingView
| DashboardView (banner : option string) (rows : list UserRow).

Definition AdminPage (currentUserId : Z) (st : AdminState) : AdminView :=
  if isLoading st then LoadingView
  else DashboardView
         (if truthy_string (error_text st) then Some (error_text st) else None)
         (List.map (render_row currentUserId (deletingUserId st)) (users st)).

Definition rendered_rows (v : AdminView) : list UserRow :=
  match v with
  | LoadingView => []
  | DashboardView _ rows => rows
  end.

Inductive ActionButton : Type := RoleToggle | DeleteUser.

(** A click on an action button of a rendered row.  A disabled button
    does not dispatch its [onClick]. *)
Definition click (currentUserId : Z) (st : AdminState) (row : UserRow)
  (b : ActionButton) : M AdminState :=
  match b with
  | RoleToggle =>
      if toggle_disabled row then mret st
      else handleToggleAdmin st (user_id (row_user row))
  | DeleteUser =>
      if delete_disabled row then mret st
      else handleDeleteUser st (user_id (row_user row))
  end.

End Client.

(** ** Observations used in the statements *)

Section Observations.

Context {server : Type}.

(** Every request a computation sends satisfies [P], and it only adds to
    the list of requests sent. *)
Definition sends_only {A} (P : request -> Prop) (m : @M server A) : Prop :=
  forall w, exists new,
    sent (fst (m w)) = (sent w ++ new)%list /\ Forall P new.

(** A computation that leaves the network alone: nothing is sent and the
    server does not move. *)
Definition offline {A} (m : @M server A) : Prop :=
  forall w, sent (fst (m w)) = sent w /\ backend (fst (m w)) = backend w.

End Observations.

(** What [apiRequest] does with the answer of [fetch]. *)
Definition settle (out : fetch_outcome) : result json :=
  match out with
  | NetworkFailure e => Throw e
  | Responded r =>
      if ok r then
        match payload r with
        | Some j => Ok j
        | None => Throw (SyntaxError "Unexpected end of JSON input")
        end
      else
        match get_prop (default (JObj [("detail", JStr (statusText r))]) (payload r))
                       "detail" with
        | inl e => Throw e
        | inr detail => Throw (Error (error_message detail (resp_status r)))
        end
  end.

(** The two admin mutations aimed at the account [target]. *)
Definition mutates_account (target : Z) (req : request) : Prop :=
  (method req = Some "DELETE"
   /\ url req = API_BASE_URL +:+ "/admin/users/" +:+ pretty target)
  \/ (method req = Some "PUT"
      /\ url req = API_BASE_URL +:+ "/admin/users/" +:+ pretty target +:+ "/role").

(** The states the admin page is rendered in: between handlers nothing is
    being deleted; while [handleDeleteUser] awaits its request, the state
    is the one it set before sending. *)
Definition rendered_state (st : AdminState) : Prop :=
  deletingUserId st = None
  \/ exists window_confirm st0 userId,
       deletingUserId st0 = None
       /\ handleDeleteUser_awaiting window_confirm st0 userId = Some st.

(** ** The sentences of the specification that the code does not meet,
    written down as they stand *)

(** Self rows have both buttons disabled, every other row has both
    enabled. *)
Definition admin_rows_as_specified : Prop :=
  forall (currentUserId : Z) (st : AdminState) (row : UserRow),
    rendered_state st ->
    In row (rendered_rows (AdminPage currentUserId st)) ->
    (user_id (row_user row) = currentUserId ->
       toggle_disabled row = true /\ delete_disabled row = true)
    /\ (user_id (row_user row) <> currentUserId ->
          toggle_disabled row = false /\ delete_disabled row = false).

(** Whatever string [getToken] returns is sent as a bearer token, and
    nothing is sent when it returns [null]; for the calls made by the API
    classes, which pass no headers of their own. *)
Definition bearer_header_as_specified : Prop :=
  forall (server : Type) (serve : server -> request -> server * fetch_outcome)
         (w : world) (endpoint : string) (options : RequestInit) (req : request),
    init_headers options = None ->
    last (sent (fst (apiRequest serve endpoint options w))) = Some req ->
    (forall t, getToken w = (w, Ok (Some t)) ->
               headers req !! "Authorization" = Some ("Bearer " +:+ t))
    /\ (getToken w = (w, Ok None) -> headers req !! "Authorization" = None).

(** A response that is not ok throws an error whose message is the
    [detail] of the body when the body is JSON, and [HTTP <status>] or
    the status text otherwise.  The reading is the generous one: a JSON
    body without a usable [detail] may also give [HTTP <status>]. *)
Definition error_message_as_specified : Prop :=
  forall (server : Type) (serve : server -> request -> server * fetch_outcome)
         (w w' : world) (endpoint : string) (options : RequestInit)
         (res : result json) (req : request) (r : response),
    apiRequest serve endpoint options w = (w', res) ->
    sent w' = (sent w ++ [req])%list ->
    snd (serve (backend w) req) = Responded r ->
    ok r = false ->
    exists e, res = Throw e /\
      match payload r with
      | Some j =>
          field j "detail" = Some (JStr (err_message e))
          \/ (truthy (field j "detail") = false
              /\ err_message e = "HTTP " +:+ pretty (resp_status r))
      | None =>
          err_message e = "HTTP " +:+ pretty (resp_status r)
          \/ err_message e = statusText r
      end.


Definition status_total (c : StatusCounts) : nat :=
  (count_todo c + count_in_progress c + count_done c + count_blocked c)%nat.

(** The counts add up and the rate is the exactly rounded percentage. *)
Definition dashboard_as_specified : Prop :=
  forall tasks : list Task,
    Forall (fun t => is_TaskStatus (status t)) tasks ->
    status_total (statusCounts tasks) = totalTasks tasks
    /\ completionRate tasks =
         match tasks with
         | [] => Num.zero
         | _ => Num.of_Z (rounded_percentage (count_done (statusCounts tasks))
                                             (totalTasks tasks))
         end.

(** The rate shown for [done] tasks done out of [total]. *)
Definition rate_of (done total : nat) : Num.number :=
  Num.Math_round
    (Num.mul (Num.div (Num.of_Z (Z.of_nat done)) (Num.of_Z (Z.of_nat total)))
             (Num.of_Z 100)).

(** The rate is the exactly rounded percentage for every number of done
    tasks out of [total]. *)
Definition rate_exact_upto (bound : nat) : bool :=
  forallb (fun total =>
             forallb (fun done =>
                        bool_decide (rate_of done total
                                     = Num.of_Z (rounded_percentage done total)))
                     (seq 0 (S total)))
          (seq 1 bound).

(** [100 * done / total] lies exactly halfway between two integers. *)
Definition is_tie (done total : nat) : bool :=
  (200 * Z.of_nat done) mod (2 * Z.of_nat total) =? Z.of_nat total.

(** The real number a mantissa and an exponent stand for. *)
Definition F2R (m e : Z) : R := (IZR m * powerRZ 2 e)%R.

(** The bound on the relative error of one operation: [2^-52]. *)
Definition u52 : R := (/ IZR (2 ^ 52))%R.

(** What [Authorization] header a request carries, given the stored
    token and the header the caller may have supplied. *)
Definition expected_authorization (token : option string)
  (from_caller : option string) : option string :=
  match token with
  | Some t => if bool_decide (t = "") then from_caller else Some ("Bearer " +:+ t)
  | None => from_caller
  end.

(** ** Sample data and a small server, for the worked examples *)

Definition json_of_User (u : User) : json :=
  JObj [("id", JNum (user_id u)); ("username", JStr (username u));
        ("email", JStr (email u)); ("is_admin", JBool (is_admin u));
        ("is_active", JBool (is_active u));
        ("email_verified", JBool (email_verified u));
        ("profile_picture", json_of_nullable_string (profile_picture u));
        ("created_at", JStr (user_created_at u))].

Definition json_of_Todo (t : Todo) : json :=
  JObj [("id", JNum (todo_id t)); ("title", JStr (todo_title t));
        ("description", json_of_nullable_string (todo_description t));
        ("completed", JBool (todo_completed t));
        ("status", JStr (todo_status t)); ("priority", JStr (todo_priority t));
        ("start_date", JStr (start_date t)); ("end_date", JStr (end_date t));
        ("category", JStr (todo_category t));
        ("created_at", JStr (todo_created_at t));
        ("user_id", JNum (todo_user_id t))].

Definition alice : User :=
  MkUser 1 "alice" "alice@example.com" true true true None "2024-01-01T09:00:00".

Definition bob : User :=
  MkUser 2 "bob" "bob@example.com" false true false None "2024-02-01T09:00:00".

Definition report_todo : Todo :=
  MkTodo 7 "Write report" None false "todo" "medium" "2024-03-01" "2024-03-05"
         "Work" "2024-02-28T10:00:00" 1.

Definition report_done : Todo :=
  MkTodo 7 "Write report" None true "done" "medium" "2024-03-01" "2024-03-05"
         "Work" "2024-02-28T10:00:00" 1.

Definition shopping_todo : Todo :=
  MkTodo 8 "Buy milk" (Some "two litres") false "todo" "low" "2024-03-02"
         "2024-03-02" "Home" "2024-03-01T08:00:00" 1.

(** The validation error of the framework: [detail] is a list. *)
Definition validation_detail : json :=
  JArr [JObj [("loc", JArr [JStr "body"; JStr "title"]);
              ("msg", JStr "field required");
              ("type", JStr "value_error.missing")]].

Definition is_call (m : option string) (u : string) (req : request) : bool :=
  bool_decide (method req = m) && bool_decide (url req = u).

(** The server counts the requests it has received. *)
Definition demo_serve (n : nat) (req : request) : nat * fetch_outcome :=
  (S n,
   if is_call (Some "POST") "/api/auth/register" req then
     Responded (MkResponse 200 "OK"
       (Some (JObj [("access_token", JStr "tok-alice");
                    ("token_type", JStr "bearer");
                    ("user", json_of_User alice)])))
   else if is_call (Some "POST") "/api/auth/login" req then
     Responded (MkResponse 401 "Unauthorized"
       (Some (JObj [("detail", JStr "Incorrect username or password")])))
   else if is_call (Some "POST") "/api/todos" req then
     Responded (MkResponse 422 "Unprocessable Entity"
       (Some (JObj [("detail", validation_detail)])))
   else if is_call (Some "PUT") "/api/todos/7" req then
     Responded (MkResponse 200 "OK" (Some (json_of_Todo report_done)))
   else if is_call (Some "DELETE") "/api/todos/7" req then
     Responded (MkResponse 200 "OK"
       (Some (JObj [("message", JStr "Todo deleted successfully")])))
   else if is_call (Some "DELETE") "/api/admin/users/2" req then
     Responded (MkResponse 200 "OK"
       (Some (JObj [("message", JStr "User deleted successfully")])))
   else if is_call (Some "PUT") "/api/admin/users/2/role" req then
     Responded (MkResponse 200 "OK" (Some (json_of_User bob)))
   else if is_call None "/api/admin/users" req then
     Responded (MkResponse 200 "OK"
       (Some (JArr [json_of_User alice; json_of_User bob])))
   else if is_call None "/api/admin/stats" req then
     Responded (MkResponse 200 "OK" (Some (JObj [])))
   else
     Responded (MkResponse 404 "Not Found" None)).

Definition fresh_world : @world nat := MkWorld ∅ 0%nat [] [] [].

Definition signed_in_world : @world nat :=
  MkWorld {["auth_token" := "tok-alice"; "theme" := "dark"]} 0%nat [] [] [].

(** Local storage holding an empty string under the token key. *)
Definition blank_token_world : @world nat :=
  MkWorld {["auth_token" := ""]} 0%nat [] [] [].

Definition always_confirm (msg : string) : bool := true.

Definition admin_loaded : AdminState :=
  MkAdminState [alice; bob] (Some (JObj [])) false "" None.

Definition done_task : Task :=
  MkTask "1" "Ship" "" "done" "high" "2024-03-01" "2024-03-02"
         "2024-02-20T10:00:00" "Work".

Definition open_task : Task :=
  MkTask "2" "Plan" "" "todo" "low" "2024-03-01" "2024-03-02"
         "2024-02-21T10:00:00" "Work".

(** Forty tasks, twenty-three of them done. *)
Definition forty_tasks : list Task :=
  (replicate 23 done_task ++ replicate 17 open_task)%list.

Definition sample_form : TaskData :=
  MkTaskData "Write report" "" "todo" "medium" "2024-03-01" "2024-03-05" "Work".

(** ** Further components *)

(** *** Strings: [toLowerCase] and [includes] *)

(** [toLowerCase] on a code unit below 256: the letters A-Z and the
    accented capitals U+00C0-U+00DE, the multiplication sign apart, move
    up by 32.  Strings here hold no other code units; beyond them the
    lower-casing of JavaScript depends on the neighbouring characters,
    and nothing is stated of the search there. *)
Definition lower_char (a : ascii) : ascii :=
  let n := N_of_ascii a in
  if ((65 <=? n) && (n <=? 90)
      || (192 <=? n) && (n <=? 222) && negb (n =? 215))%N
  then ascii_of_N (n + 32)
  else a.

Fixpoint toLowerCase (s : string) : string :=
  match s with
  | String a rest => String (lower_char a) (toLowerCase rest)
  | EmptyString => EmptyString
  end.

(** [s.includes(sub)] *)
Fixpoint includes (s sub : string) : bool :=
  String.prefix sub s
  || match s with
     | String _ rest => includes rest sub
     | EmptyString => false
     end.

(** *** components/TasksPage.tsx *)

(** [Partial<Task>] made of the form data: every field but [id] and
    [createdAt]. *)
Definition partial_of_data (d : TaskData) : PartialTask :=
  MkPartialTask None (Some (td_title d)) (Some (td_description d))
                (Some (td_status d)) (Some (td_priority d))
                (Some (td_startDate d)) (Some (td_endDate d)) None
                (Some (td_category d)).

(** The object literal [{ status }]. *)
Definition status_only (s : string) : PartialTask :=
  MkPartialTask None None None (Some s) None None None None None.

Record TasksPageState : Type := MkTasksPageState {
  isModalOpen : bool;
  editingTask : option Task;
  searchQuery : string;
  statusFilter : string;
  priorityFilter : string
}.

Definition TasksPageState_initial : TasksPageState :=
  MkTasksPageState false None "" "all" "all".

Definition matchesSearch (st : TasksPageState) (task : Task) : bool :=
  includes (toLowerCase (title task)) (toLowerCase (searchQuery st))
  || includes (toLowerCase (description task)) (toLowerCase (searchQuery st)).

Definition matchesStatus (st : TasksPageState) (task : Task) : bool :=
  bool_decide (statusFilter st = "all")
  || bool_decide (status task = statusFilter st).

Definition matchesPriority (st : TasksPageState) (task : Task) : bool :=
  bool_decide (priorityFilter st = "all")
  || bool_decide (priority task = priorityFilter st).

Definition filteredTasks (st : TasksPageState) (tasks : list Task) : list Task :=
  List.filter (fun task => matchesSearch st task && matchesStatus st task
                           && matchesPriority st task) tasks.

Definition handleAddTask (st : TasksPageState) : TasksPageState :=
  MkTasksPageState true None (searchQuery st) (statusFilter st) (priorityFilter st).

Definition handleEditTask (st : TasksPageState) (task : Task) : TasksPageState :=
  MkTasksPageState true (Some task) (searchQuery st) (statusFilter st)
                   (priorityFilter st).

(** The [onClick] of the button labelled Clear filters. *)
Definition clearFilters (st : TasksPageState) : TasksPageState :=
  MkTasksPageState (isModalOpen st) (editingTask st) "" "all" "all".

(** What the page shows under the filter bar. *)
Inductive TasksView : Type :=
| NoTasksFound (offerClearFilters : bool)
| TaskGrid (cards : list Task).

Definition TasksPage (st : TasksPageState) (tasks : list Task) : TasksView :=
  match filteredTasks st tasks with
  | [] =>
      NoTasksFound (truthy_string (searchQuery st)
                    || negb (bool_decide (statusFilter st = "all"))
                    || negb (bool_decide (priorityFilter st = "all")))
  | cards => TaskGrid cards
  end.

(** *** components/HomePage.tsx: the pie chart *)

Record PieItem : Type := MkPieItem {
  pie_name : string;
  pie_value : nat;
  pie_color : string
}.

Definition pieData (tasks : list Task) : list PieItem :=
  let c := statusCounts tasks in
  List.filter (fun item => (0 <? pie_value item)%nat)
    [MkPieItem "To Do" (count_todo c) "#94a3b8";
     MkPieItem "In Progress" (count_in_progress c) "#3b82f6";
     MkPieItem "Done" (count_done c) "#10b981";
     MkPieItem "Blocked" (count_blocked c) "#ef4444"].

(** *** components/auth/LoginPage.tsx *)

Record LoginState : Type := MkLoginState {
  login_username : string;
  login_password : string;
  login_error : string;
  login_isLoading : bool;
  showPassword : bool
}.

(** *** App.tsx: pages and what is rendered *)

Inductive Page : Type := PageHome | PageTasks | PageCalendar | PageAdmin.
Inductive AuthPage : Type := AuthLogin | AuthRegister.

Record AppState : Type := MkAppState {
  authPage : AuthPage;
  currentPage : Page;
  showProfileDropdown : bool;
  app_tasks : list Task;
  app_loading : bool;
  app_error : option string
}.

Definition AppState_initial : AppState :=
  MkAppState AuthLogin PageTasks false [] true None.

Inductive MainContent : Type :=
| HomeContent (tasks : list Task)
| TasksContent (tasks : list Task)
| CalendarContent (tasks : list Task)
| AdminContent (currentUserId : Z)
| NoContent.

Inductive AppView : Type :=
| AuthLoadingScreen
| RegisterScreen
| LoginScreen
| MainScreen (adminButton : bool) (content : MainContent).

Definition AppContent (auth : AuthState) (app : AppState) : AppView :=
  if loading auth then AuthLoadingScreen
  else if negb (isAuthenticated auth) then
    match authPage app with
    | AuthRegister => RegisterScreen
    | AuthLogin => LoginScreen
    end
  else
    MainScreen (isAdmin auth)
      (match currentPage app with
       | PageHome => HomeContent (app_tasks app)
       | PageTasks => TasksContent (app_tasks app)
       | PageCalendar => CalendarContent (app_tasks app)
       | PageAdmin =>
           match auth_user auth with
           | Some u => if is_admin u then AdminContent (user_id u) else NoContent
           | None => NoContent
           end
       end).

Section Pages.

Context {server : Type} (serve : server -> request -> server * fetch_outcome).

(** [TasksPage.handleSaveTask], with the handlers [App] passes down. *)
Definition handleSaveTask (st : TasksPageState) (tasks : list Task)
  (taskData : TaskData) : M (TasksPageState * list Task) :=
  tasks ← match editingTask st with
          | Some t => updateTask serve tasks (id t) (partial_of_data taskData)
          | None => addTask serve tasks taskData
          end;
  mret (MkTasksPageState false None (searchQuery st) (statusFilter st)
                         (priorityFilter st), tasks).

Definition handleStatusChange (tasks : list Task) (taskId : string)
  (status : string) : M (list Task) :=
  updateTask serve tasks taskId (status_only status).

(** [App.handleLogin] *)
Definition handleLogin (auth : AuthState) (username password : string)
  : M AuthState :=
  AuthContext_login serve auth (MkUserLogin username password).

(** [App.handleLogin] over the provider on the response as it is. *)
Definition handleLogin_body (auth : ProviderState) (username password : string)
  : M ProviderState :=
  AuthProvider_login serve auth (MkUserLogin username password).

(** [LoginPage.handleSubmit]; [onLogin] is the handler [App] passes down.
    The result carries the state of the page and what [onLogin] returned
    when it did. *)
Definition LoginPage_handleSubmit {A} (onLogin : string -> string -> @M server A)
  (st : LoginState) : @M server (LoginState * option A) :=
  let st := MkLoginState (login_username st) (login_password st) ""
                         (login_isLoading st) (showPassword st) in
  if negb (truthy_string (js_trim (login_username st)))
     || negb (truthy_string (js_trim (login_password st)))
  then
    mret (MkLoginState (login_username st) (login_password st)
                       "Please fill in all fields"
                       (login_isLoading st) (showPassword st), None)
  else
    let st := MkLoginState (login_username st) (login_password st)
                           (login_error st) true (showPassword st) in
    r ← try_catch
          (a ← onLogin (login_username st) (login_password st);
           mret (st, Some a))
          (fun err =>
             mret (MkLoginState (login_username st) (login_password st)
                     (message_or err "Login failed. Please check your credentials.")
                     (login_isLoading st) (showPassword st), None));
    mret (MkLoginState (login_username (fst r)) (login_password (fst r))
                       (login_error (fst r)) false (showPassword (fst r)),
          snd r).

(** [App.handleLogout] *)
Definition handleLogout (auth : AuthState) (app : AppState)
  : @M server (AuthState * AppState) :=
  auth ← AuthContext_logout auth;
  mret (auth, MkAppState (authPage app) PageTasks false [] (app_loading app)
                         (app_error app)).

End Pages.

(** ** Further observations *)

(** The method and the address of a request. *)
Definition call_of (req : request) : option string * string :=
  (method req, url req).

(** The requests sent between two worlds. *)
Definition calls_between {server : Type} (w w' : @world server)
  (l : list (option string * string)) : Prop :=
  exists new, sent w' = (sent w ++ new)%list /\ List.map call_of new = l.

(** Nothing but the server and the list of requests sent changes. *)
Definition browser_untouched {server : Type} (w w' : @world server) : Prop :=
  localStorage w' = localStorage w
  /\ console w' = console w
  /\ alerts w' = alerts w.

(** The decimal digits. *)
Definition is_digit (a : ascii) : bool :=
  let n := N_of_ascii a in ((48 <=? n) && (n <=? 57))%N.

Fixpoint all_digits (s : string) : bool :=
  match s with
  | String a rest => is_digit a && all_digits rest
  | EmptyString => true
  end.

(** ** More servers for the worked examples *)

(** No connection: every [fetch] rejects. *)
Definition offline_serve (n : nat) (req : request) : nat * fetch_outcome :=
  (S n, NetworkFailure (TypeError "Failed to fetch")).

(** A server that answers every request with 204 and an empty body. *)
Definition no_content_serve (n : nat) (req : request) : nat * fetch_outcome :=
  (S n, Responded (MkResponse 204 "No Content" None)).

(** A server that knows the token [tok-alice] and nothing else. *)
Definition strict_serve (n : nat) (req : request) : nat * fetch_outcome :=
  (S n,
   if bool_decide (headers req !! "Authorization" = Some "Bearer tok-alice") then
     if is_call None "/api/auth/me" req then
       Responded (MkResponse 200 "OK" (Some (json_of_User alice)))
     else if is_call None "/api/todos" req then
       Responded (MkResponse 200 "OK"
         (Some (JArr [json_of_Todo report_todo; json_of_Todo shopping_todo])))
     else if is_call (Some "POST") "/api/todos" req then
       Responded (MkResponse 200 "OK" (Some (json_of_Todo shopping_todo)))
     else Responded (MkResponse 404 "Not Found" None)
   else if is_call (Some "POST") "/api/auth/login" req then
     Responded (MkResponse 200 "OK"
       (Some (JObj [("access_token", JStr "tok-alice");
                    ("token_type", JStr "bearer");
                    ("user", json_of_User alice)])))
   else
     Responded (MkResponse 401 "Unauthorized"
       (Some (JObj [("detail", JStr "Could not validate credentials")])))).

(** A server that registers everybody and hands out the empty string
    as token. *)
Definition blank_token_serve (n : nat) (req : request) : nat * fetch_outcome :=
  (S n,
   if is_call (Some "POST") "/api/auth/register" req then
     Responded (MkResponse 200 "OK"
       (Some (JObj [("access_token", JStr "");
                    ("token_type", JStr "bearer");
                    ("user", json_of_User alice)])))
   else Responded (MkResponse 404 "Not Found" None)).

(** A server whose 2xx bodies do not have the declared shapes: the
    login is answered without a token, [/auth/me] with an object that is
    no user. *)
Definition shapeless_serve (n : nat) (req : request) : nat * fetch_outcome :=
  (S n,
   if is_call (Some "POST") "/api/auth/login" req then
     Responded (MkResponse 200 "OK" (Some (JObj [("token_type", JStr "bearer")])))
   else if is_call None "/api/auth/me" req then
     Responded (MkResponse 200 "OK" (Some (JObj [("name", JStr "alice")])))
   else Responded (MkResponse 404 "Not Found" None)).

Definition stale_token_world : @world nat :=
  MkWorld {["auth_token" := "tok-expired"]} 0%nat [] [] [].

Definition alice_signed_in : AuthState :=
  MkAuthState (Some alice) (Some "tok-alice") false.

Definition bob_signed_in : AuthState :=
  MkAuthState (Some bob) (Some "tok-bob") false.

(** * Properties *)

(** ** The API helper *)

Section ApiRequestFacts.

Context {server : Type} (serve : server -> request -> server * fetch_outcome).

Implicit Types (w : @world server) (endpoint : string) (options : RequestInit).

Lemma apiRequest_run w endpoint options :
  let req := MkRequest (API_BASE_URL +:+ endpoint) (init_method options)
               (request_headers (localStorage w !! "auth_token") options)
               (init_body options) in
  apiRequest serve endpoint options w =
    (MkWorld (localStorage w) (fst (serve (backend w) req))
             (sent w ++ [req]) (console w) (alerts w),
     settle (snd (serve (backend w) req))).
Proof.
  intros req. unfold apiRequest, getToken, fetch, mbind, M_bind, mret, M_ret, throw.
  fold req. destruct (serve (backend w) req) as [s' [e|r]]; simpl; [done|].
  destruct (ok r); simpl.
  - by destruct (payload r).
  - destruct (payload r) as [j|]; simpl; [|done].
    by destruct (get_prop j "detail").
Qed.

Lemma caller_header (options : RequestInit) (k : string) :
  default (∅ : gmap string string) (init_headers options) !! k
  = init_headers options ≫= (fun h => h !! k).
Proof. destruct (init_headers options); simpl; [done|]. apply lookup_empty. Qed.

Lemma request_headers_authorization (token : option string) options :
  request_headers token options !! "Authorization"
  = expected_authorization token
      (init_headers options ≫= (fun h => h !! "Authorization")).
Proof.
  assert (Hbase : (default (∅ : gmap string string) (init_headers options)
                   ∪ {["Content-Type" := "application/json"]}) !! "Authorization"
                  = init_headers options ≫= (fun h => h !! "Authorization")).
  { rewrite lookup_union_l; [apply caller_header|].
    by apply lookup_singleton_ne. }
  unfold request_headers, expected_authorization.
  destruct token as [t|]; [|exact Hbase].
  unfold truthy_string. destruct (bool_decide (t = "")); simpl; [exact Hbase|].
  apply lookup_insert_eq.
Qed.

Lemma apiRequest_authorization w endpoint options :
  exists req,
    sent (fst (apiRequest serve endpoint options w)) = (sent w ++ [req])%list
    /\ url req = API_BASE_URL +:+ endpoint
    /\ headers req !! "Authorization"
       = expected_authorization (localStorage w !! "auth_token")
           (init_headers options ≫= (fun h => h !! "Authorization")).
Proof.
  rewrite apiRequest_run. simpl. eexists. split; [reflexivity|]. simpl.
  split; [reflexivity|]. apply request_headers_authorization.
Qed.

(** What follows the request in a method of the API classes sends
    nothing more. *)
Lemma sent_bind_quiet {A B} (m : M A) (k : A -> M B) w :
  (forall a w1, sent (fst (k a w1)) = sent w1) ->
  sent (fst ((m ≫= k) w)) = sent (fst (m w)).
Proof.
  intros Hk. unfold mbind, M_bind.
  destruct (m w) as [w1 [a|e]]; simpl; [apply Hk|done].
Qed.

Ltac quiet :=
  intros; unfold expect, setToken, mbind, M_bind, mret, M_ret, throw;
  simpl; repeat case_match; reflexivity.

Lemma perform_authorization w (c : ApiCall) :
  exists req,
    sent (fst (perform serve c w)) = (sent w ++ [req])%list
    /\ headers req !! "Authorization"
       = expected_authorization (localStorage w !! "auth_token") None.
Proof.
  assert (Hone : forall endpoint options, init_headers options = None ->
            exists req,
              sent (fst (apiRequest serve endpoint options w))
              = (sent w ++ [req])%list
              /\ headers req !! "Authorization"
                 = expected_authorization (localStorage w !! "auth_token") None).
  { intros endpoint options Hnone.
    destruct (apiRequest_authorization w endpoint options) as (req & ? & _ & Hh).
    exists req. split; [done|]. by rewrite Hh, Hnone. }
  destruct c; unfold perform, void,
    AuthAPI_register, AuthAPI_login, AuthAPI_getCurrentUser, AuthAPI_updateProfile,
    TodoAPI_getTodos, TodoAPI_getTodo, TodoAPI_createTodo, TodoAPI_updateTodo,
    TodoAPI_deleteTodo, TodoAPI_getStats,
    AdminAPI_getAllUsers, AdminAPI_getUser, AdminAPI_getUserTodos,
    AdminAPI_deleteUser, AdminAPI_toggleAdminRole, AdminAPI_getSystemStats;
    repeat (rewrite sent_bind_quiet by quiet);
    by apply Hone.
Qed.

(** C3, as the code has it.  [apiRequest] sends one request to
    [API_BASE_URL + endpoint].  When [getToken()] gives a non-empty
    string [t], that request carries [Authorization: Bearer t], whatever
    the endpoint and the options, and so does the one request of each of
    the sixteen methods of [AuthAPI], [TodoAPI] and [AdminAPI].  When
    [getToken()] gives [null] or the empty string, [apiRequest] adds no
    [Authorization] header of its own: the request has the one the caller
    put in [options.headers], if any, and the methods of the API classes,
    which pass no headers, send none. *)
Theorem apiRequest_bearer_header w (token : option string) :
  getToken w = (w, Ok token) ->
  (forall t, token = Some t -> t <> "" ->
     (forall endpoint options, exists req,
        sent (fst (apiRequest serve endpoint options w)) = (sent w ++ [req])%list
        /\ url req = API_BASE_URL +:+ endpoint
        /\ headers req !! "Authorization" = Some ("Bearer " +:+ t))
     /\ (forall c : ApiCall, exists req,
          sent (fst (perform serve c w)) = (sent w ++ [req])%list
          /\ headers req !! "Authorization" = Some ("Bearer " +:+ t)))
  /\ (token = None \/ token = Some "" ->
      (forall endpoint options, exists req,
         sent (fst (apiRequest serve endpoint options w)) = (sent w ++ [req])%list
         /\ url req = API_BASE_URL +:+ endpoint
         /\ headers req !! "Authorization"
            = init_headers options ≫= (fun h => h !! "Authorization"))
      /\ (forall c : ApiCall, exists req,
           sent (fst (perform serve c w)) = (sent w ++ [req])%list
           /\ headers req !! "Authorization" = None)).
Proof.
  intros Htok. unfold getToken in Htok. injection Htok as Htok.
  split.
  - intros t -> Ht.
    assert (Hexp : forall o, expected_authorization (Some t) o
                             = Some ("Bearer " +:+ t)).
    { intros o. unfold expected_authorization.
      by rewrite bool_decide_eq_false_2. }
    split.
    + intros endpoint options.
      destruct (apiRequest_authorization w endpoint options) as (req & ? & ? & Hh).
      exists req. by rewrite Hh, Htok, Hexp.
    + intros c. destruct (perform_authorization w c) as (req & ? & Hh).
      exists req. by rewrite Hh, Htok, Hexp.
  - intros Hnone.
    assert (Hexp : forall o, expected_authorization token o = o)
      by (by destruct Hnone as [-> | ->]).
    split.
    + intros endpoint options.
      destruct (apiRequest_authorization w endpoint options) as (req & ? & ? & Hh).
      exists req. by rewrite Hh, Htok, Hexp.
    + intros c. destruct (perform_authorization w c) as (req & ? & Hh).
      exists req. by rewrite Hh, Htok, Hexp.
Qed.

Lemma get_prop_field (j : json) (k : string) :
  j <> JNull -> get_prop j k = inr (field j k).
Proof. by destruct j. Qed.

(** A response that is not ok never settles in a value. *)
Lemma settle_not_ok (r : response) :
  ok r = false -> exists e, settle (Responded r) = Throw e.
Proof.
  intros Hok. simpl. rewrite Hok.
  destruct (get_prop _ _); eauto.
Qed.

(** C4, as the code has it.  A call performs exactly one [fetch]: the
    list of requests sent grows by one and the server takes one step,
    whatever the outcome.  A rejected [fetch] is rethrown.  A response
    whose status is not ok always ends in a thrown error, never in a
    value.  The message of that error is the [detail] of the body when
    the body is JSON and its [detail] is a non-empty string; it is
    [HTTP <status>] when the body is JSON, not [null], and has no
    [detail] or a falsy one; and when the body is not JSON it is the
    status text, or [HTTP <status>] when the status text is empty. *)
Theorem apiRequest_surfaces_errors w w' endpoint options (res : result json) :
  apiRequest serve endpoint options w = (w', res) ->
  exists req,
    sent w' = (sent w ++ [req])%list
    /\ backend w' = fst (serve (backend w) req)
    /\ match snd (serve (backend w) req) with
       | NetworkFailure e => res = Throw e
       | Responded r =>
           ok r = false ->
           exists e, res = Throw e
             /\ (forall j d, payload r = Some j ->
                   field j "detail" = Some (JStr d) -> d <> "" ->
                   e = Error d)
             /\ (forall j, payload r = Some j -> j <> JNull ->
                   truthy (field j "detail") = false ->
                   e = Error ("HTTP " +:+ pretty (resp_status r)))
             /\ (payload r = None ->
                 e = Error (if bool_decide (statusText r = "")
                            then "HTTP " +:+ pretty (resp_status r)
                            else statusText r))
       end.
Proof.
  rewrite apiRequest_run. intros [= <- <-]. simpl. eexists.
  split; [reflexivity|]. split; [reflexivity|].
  destruct (snd (serve _ _)) as [e|r]; [done|].
  intros Hok. destruct (settle_not_ok r Hok) as [e He].
  exists e. split; [exact He|].
  simpl in He. rewrite Hok in He. split; [|split].
  - intros j d Hj Hd Hne. rewrite Hj in He. simpl in He.
    rewrite get_prop_field in He by (by intros ->).
    rewrite Hd in He. injection He as <-.
    unfold error_message. simpl. by rewrite bool_decide_eq_false_2.
  - intros j Hj Hnull Hfalsy. rewrite Hj in He. simpl in He.
    rewrite get_prop_field in He by done.
    injection He as <-. unfold error_message. by rewrite Hfalsy.
  - intros Hnone. rewrite Hnone in He. simpl in He.
    injection He as <-. unfold error_message. simpl.
    by destruct (bool_decide (statusText r = "")).
Qed.

End ApiRequestFacts.

(** With a stored token every request carries it as a bearer credential,
    here the one that lists the todos. *)
Lemma apiRequest_bearer_header_witness :
  getToken signed_in_world = (signed_in_world, Ok (Some "tok-alice"))
  /\ exists req,
       sent (fst (perform demo_serve (Call_getTodos None) signed_in_world))
       = (sent signed_in_world ++ [req])%list
       /\ headers req !! "Authorization" = Some "Bearer tok-alice".
Proof.
  split; [reflexivity|].
  destruct (apiRequest_bearer_header demo_serve signed_in_world
              (Some "tok-alice") eq_refl) as [Hsome _].
  destruct (Hsome "tok-alice" eq_refl ltac:(discriminate)) as [_ Hcalls].
  exact (Hcalls (Call_getTodos None)).
Defined.

(** C3 as the specification words it fails for a stored empty string:
    [getToken()] returns it, [if (token)] takes it for no token, and the
    request leaves without an [Authorization] header. *)
Lemma bearer_header_empty_token : ~ bearer_header_as_specified.
Proof.
  intros H.
  destruct (H nat demo_serve blank_token_world "/todos" no_options
              (MkRequest "/api/todos" None
                 (request_headers (Some "") no_options) None)
              eq_refl eq_refl) as [Hsome _].
  specialize (Hsome "" eq_refl). cbn [headers] in Hsome.
  rewrite request_headers_authorization in Hsome. discriminate Hsome.
Qed.

Example blank_token_sends_no_header :
  getToken blank_token_world = (blank_token_world, Ok (Some ""))
  /\ List.map (fun req => headers req !! "Authorization")
       (sent (fst (perform demo_serve (Call_getTodos None) blank_token_world)))
     = [None].
Proof. split; reflexivity. Qed.

(** A failed login: the server answers 401 with a [detail], and the call
    throws that text after the one request. *)
Lemma apiRequest_surfaces_errors_witness :
  let options := MkRequestInit (Some "POST") None None in
  let run := apiRequest demo_serve "/auth/login" options fresh_world in
  run = (fst run, snd run)
  /\ length (sent (fst run)) = 1%nat
  /\ snd run = Throw (Error "Incorrect username or password").
Proof.
  intros options run. split; [reflexivity|].
  destruct (apiRequest_surfaces_errors demo_serve fresh_world (fst run)
              "/auth/login" options (snd run) eq_refl)
    as (req & Hsent & _ & Hout).
  split; [by rewrite Hsent|].
  assert (Hreq : req = MkRequest "/api/auth/login" (Some "POST")
                         (request_headers None options) None).
  { simpl in Hsent. by injection Hsent as <-. }
  subst req.
  destruct (Hout eq_refl) as (e & He & Hdetail & _).
  transitivity (Throw (A:=json) e); [exact He|].
  f_equal. eapply Hdetail; [reflexivity|reflexivity|discriminate].
Defined.

(** C4 as the specification words it fails on a validation error: the
    body is JSON and its [detail] is a list, so the message is the string
    conversion of that list. *)
Lemma error_message_validation_list : ~ error_message_as_specified.
Proof.
  intros H.
  pose (options := MkRequestInit (Some "POST") None None).
  destruct (H nat demo_serve fresh_world _ "/todos" options _ _ _
              (apiRequest_run demo_serve fresh_world "/todos" options)
              eq_refl eq_refl eq_refl) as (e & He & Hmsg).
  simpl in Hmsg. destruct Hmsg as [Hd | [Ht _]]; discriminate.
Qed.

Example validation_error_message :
  snd (apiRequest demo_serve "/todos" (MkRequestInit (Some "POST") None None)
         fresh_world)
  = Throw (Error "[object Object]").
Proof. reflexivity. Qed.

(** ** Registration and logout *)

Section AuthFacts.

Context {server : Type} (serve : server -> request -> server * fetch_outcome).

Implicit Types (w : @world server) (st : AuthState).

Lemma settle_Ok (out : fetch_outcome) (j : json) :
  settle out = Ok j ->
  exists r, out = Responded r /\ ok r = true /\ payload r = Some j.
Proof.
  destruct out as [e|r]; simpl; [done|].
  destruct (ok r) eqn:Hok; simpl.
  - destruct (payload r) eqn:Hj; [|done]. intros [= ->]. by exists r.
  - by destruct (get_prop _ _).
Qed.

Lemma read_prop_run (j : json) (k : string) w :
  read_prop (server:=server) j k w
  = (w, match get_prop j k with
        | inl e => Throw e
        | inr x => Ok x
        end).
Proof. unfold read_prop. by destruct (get_prop j k). Qed.

(** [register] and [login] of the provider, run: one POST; a body that
    is not [null] is taken over whatever its shape. *)
Lemma provider_sign_in_run (endpoint label : string) (payload_json : json)
  (flag : bool) w :
  try_catch
    (response ← (response ← apiRequest serve endpoint
                     (MkRequestInit (Some "POST") (Some payload_json) None);
                 access_token ← read_prop response "access_token";
                 _ ← setToken (ToString access_token);
                 mret response);
     access_token ← read_prop response "access_token";
     user ← read_prop response "user";
     mret (MkProviderState user access_token flag))
    (fun error => _ ← console_error label error; throw error) w
  = let req := MkRequest (API_BASE_URL +:+ endpoint) (Some "POST")
                 (request_headers (localStorage w !! "auth_token")
                    (MkRequestInit (Some "POST") (Some payload_json) None))
                 (Some payload_json) in
    let w1 := MkWorld (localStorage w) (fst (serve (backend w) req))
                      (sent w ++ [req]) (console w) (alerts w) in
    let failed e := (MkWorld (localStorage w) (backend w1) (sent w1)
                       (console w ++ [label +:+ " " +:+ err_message e]) (alerts w),
                     Throw e) in
    match settle (snd (serve (backend w) req)) with
    | Ok j =>
        match get_prop j "access_token" with
        | inl e => failed e
        | inr _ =>
            (set_localStorage
               (insert "auth_token" (ToString (field j "access_token"))) w1,
             Ok (MkProviderState (field j "user") (field j "access_token") flag))
        end
    | Throw e => failed e
    end.
Proof.
  unfold try_catch, mbind, M_bind.
  rewrite apiRequest_run. simpl.
  destruct (settle _) as [j|e]; simpl; [|done].
  rewrite !read_prop_run.
  destruct j; simpl; try done.
Qed.


(** C5.  Logging out is local.  [AuthAPI.logout] deletes the
    [auth_token] key of local storage and touches no other key;
    [AuthContext.logout] does the same and clears the user and the token
    it holds.  Neither sends a request, so the server is in the state it
    was in: whatever it answered to a request carrying the old token
    before the logout, it answers after it. *)
Theorem logout_is_local st :
  offline (server:=server) AuthAPI_logout
  /\ offline (server:=server) (AuthContext_logout st)
  /\ forall w,
       (let w1 := fst (AuthAPI_logout w) in
        localStorage w1 = delete "auth_token" (localStorage w)
        /\ forall k, k <> "auth_token" ->
                     localStorage w1 !! k = localStorage w !! k)
       /\ (let w2 := fst (AuthContext_logout st w) in
           exists st', snd (AuthContext_logout st w) = Ok st'
           /\ auth_user st' = None /\ auth_token st' = None
           /\ isAuthenticated st' = false
           /\ localStorage w2 = delete "auth_token" (localStorage w)
           /\ getToken w2 = (w2, Ok None)
           /\ forall req, serve (backend w2) req = serve (backend w) req).
Proof.
  split; [by intros w|]. split; [by intros w|].
  intros w. split; simpl.
  - split; [done|]. intros k Hk. by apply lookup_delete_ne.
  - eexists. repeat split; try done.
    unfold getToken. simpl. by rewrite lookup_delete_eq.
Qed.

End AuthFacts.



(** What the provider shows after that registration. *)
Lemma register_blank_token_state :
  let run := AuthProvider_register blank_token_serve ProviderState_initial
               (MkUserCreate "alice" "alice@example.com" "s3cret") fresh_world in
  snd run = Ok (MkProviderState (Some (json_of_User alice)) (Some (JStr "")) true)
  /\ snd (getToken (fst run)) = Ok (Some "")
  /\ provider_isAuthenticated
       (MkProviderState (Some (json_of_User alice)) (Some (JStr "")) true) = false.
Proof. by repeat split. Qed.

(** ** The task list *)

Lemma lookup_map {A B} (f : A -> B) (l : list A) (i : nat) :
  List.map f l !! i = f <$> (l !! i).
Proof. revert i. induction l as [|x l IH]; intros [|i]; simpl; auto. Qed.

Section TaskListFacts.

Context {server : Type} (serve : server -> request -> server * fetch_outcome).

Implicit Types (w : @world server) (tasks : list Task).

(** C10.  When the DELETE of [deleteTask] succeeds, the new list is the
    old one without the entries whose id is the given one: it is a
    sublist of the old list (so the order is kept), it holds exactly the
    old entries with another id, and it has no entry with the given id.
    When the PUT of [updateTask] succeeds, the new list has the length of
    the old one and, position by position, the entry is the conversion of
    the todo the server returned where the id matches and the old entry
    everywhere else. *)
Theorem task_list_frame w tasks (taskId : string) :
  (forall w1,
     TodoAPI_deleteTodo serve (parseInt taskId) w = (w1, Ok ()) ->
     exists tasks',
       deleteTask serve tasks taskId w = (w1, Ok tasks')
       /\ tasks' = filter (fun task => id task <> taskId) tasks
       /\ sublist tasks' tasks
       /\ (forall t, t ∈ tasks' <-> t ∈ tasks /\ id t <> taskId)
       /\ Forall (fun t => id t <> taskId) tasks')
  /\ (forall w2 updates updatedTodo,
        TodoAPI_updateTodo serve (parseInt taskId) (taskToTodoUpdate updates) w
        = (w2, Ok updatedTodo) ->
        exists tasks',
          updateTask serve tasks taskId updates w = (w2, Ok tasks')
          /\ length tasks' = length tasks
          /\ (forall i t, tasks !! i = Some t ->
                tasks' !! i = Some (if bool_decide (id t = taskId)
                                    then todoToTask updatedTodo else t))
          /\ (forall i t, tasks !! i = Some t -> id t <> taskId ->
                tasks' !! i = Some t)).
Proof.
  split.
  - intros w1 Hdel. eexists. split.
    { unfold deleteTask, try_catch, mbind, M_bind at 1. rewrite Hdel. reflexivity. }
    split; [reflexivity|]. split; [apply sublist_filter|]. split.
    + intros t. rewrite list_elem_of_filter. tauto.
    + apply Forall_forall. intros t Ht. by apply list_elem_of_filter in Ht as [? _].
  - intros w2 updates updatedTodo Hupd. eexists. split.
    { unfold updateTask, try_catch, mbind, M_bind at 1. rewrite Hupd. reflexivity. }
    split; [apply length_map|]. split.
    + intros i t Hi. by rewrite lookup_map, Hi.
    + intros i t Hi Hne. rewrite lookup_map, Hi. simpl.
      by rewrite bool_decide_eq_false_2.
Qed.

(** A failed call leaves the list as it was. *)
Lemma deleteTask_failure w w1 tasks (taskId : string) (e : error) :
  TodoAPI_deleteTodo serve (parseInt taskId) w = (w1, Throw e) ->
  snd (deleteTask serve tasks taskId w) = Ok tasks.
Proof.
  intros Hdel. unfold deleteTask, try_catch, mbind, M_bind at 1.
  by rewrite Hdel.
Qed.

End TaskListFacts.

(** Deleting and then marking done task 7 of two tasks on the sample
    server. *)
Lemma task_list_frame_witness :
  let tasks := List.map todoToTask [report_todo; shopping_todo] in
  let updates := MkPartialTask None None None (Some "done") None None None None None in
  let del := TodoAPI_deleteTodo demo_serve (parseInt "7") signed_in_world in
  let upd := TodoAPI_updateTodo demo_serve (parseInt "7") (taskToTodoUpdate updates)
               signed_in_world in
  del = (fst del, Ok ())
  /\ upd = (fst upd, Ok report_done)
  /\ snd (deleteTask demo_serve tasks "7" signed_in_world)
     = Ok [todoToTask shopping_todo]
  /\ exists tasks',
       updateTask demo_serve tasks "7" updates signed_in_world = (fst upd, Ok tasks')
       /\ length tasks' = 2%nat
       /\ tasks' !! 0%nat = Some (todoToTask report_done)
       /\ tasks' !! 1%nat = Some (todoToTask shopping_todo).
Proof.
  intros tasks updates del upd.
  split; [reflexivity|]. split; [reflexivity|].
  destruct (task_list_frame demo_serve signed_in_world tasks "7") as [Hdel Hupd].
  destruct (Hdel (fst del) eq_refl) as (t1 & -> & -> & _).
  split; [reflexivity|].
  destruct (Hupd (fst upd) updates report_done eq_refl)
    as (t2 & Hrun & Hlen & Hmatch & Hother).
  exists t2. split; [exact Hrun|]. split; [exact Hlen|]. split.
  - exact (Hmatch 0%nat (todoToTask report_todo) eq_refl).
  - apply (Hother 1%nat (todoToTask shopping_todo) eq_refl). discriminate.
Defined.

(** ** The admin page *)

Lemma string_length_app (s t : string) :
  String.length (s +:+ t) = (String.length s + String.length t)%nat.
Proof.
  induction s as [|a s IH]; [done|].
  change (S (String.length (s +:+ t))
          = S (String.length s + String.length t)).
  by rewrite IH.
Qed.

Lemma string_app_inv_tail (s1 s2 t : string) :
  s1 +:+ t = s2 +:+ t -> s1 = s2.
Proof.
  revert s2. induction s1 as [|a s1 IH]; intros [|b s2] H.
  - done.
  - apply (f_equal String.length) in H.
    rewrite !string_length_app in H. simpl in H. lia.
  - apply (f_equal String.length) in H.
    rewrite !string_length_app in H. simpl in H. lia.
  - change (String a (s1 +:+ t) = String b (s2 +:+ t)) in H.
    injection H as -> H. f_equal. by apply IH.
Qed.

(** A request without a method is a GET: it is neither mutation. *)
Lemma get_does_not_mutate (target : Z) (req : request) :
  method req = None -> ~ mutates_account target req.
Proof. intros Hm [[H _]|[H _]]; congruence. Qed.

Lemma delete_other_account (target userId : Z) (h : gmap string string)
  (b : option json) :
  userId <> target ->
  ~ mutates_account target
      (MkRequest (API_BASE_URL +:+ "/admin/users/" +:+ pretty userId)
                 (Some "DELETE") h b).
Proof.
  intros Hne [[_ H]|[H _]]; simpl in H; [|done].
  apply (inj (String.app API_BASE_URL)) in H.
  apply (inj (String.app "/admin/users/")) in H.
  by apply (inj pretty) in H.
Qed.

Lemma toggle_other_account (target userId : Z) (h : gmap string string)
  (b : option json) :
  userId <> target ->
  ~ mutates_account target
      (MkRequest (API_BASE_URL +:+ "/admin/users/" +:+ pretty userId +:+ "/role")
                 (Some "PUT") h b).
Proof.
  intros Hne [[H _]|[_ H]]; simpl in H; [done|].
  apply (inj (String.app API_BASE_URL)) in H.
  apply (inj (String.app "/admin/users/")) in H.
  apply string_app_inv_tail in H.
  by apply (inj pretty) in H.
Qed.

Section AdminFacts.

Context {server : Type} (serve : server -> request -> server * fetch_outcome).

Implicit Types (w : @world server) (st : AdminState) (P : request -> Prop).

Lemma sends_only_mret {A} P (a : A) : sends_only (server:=server) P (mret a).
Proof. intros w. exists []. simpl. by rewrite app_nil_r. Qed.

Lemma sends_only_throw {A} P (e : error) :
  sends_only (server:=server) (A:=A) P (throw e).
Proof. intros w. exists []. simpl. by rewrite app_nil_r. Qed.

Lemma sends_only_bind {A B} P (m : M A) (k : A -> M B) :
  sends_only (server:=server) P m -> (forall a, sends_only P (k a)) ->
  sends_only P (m ≫= k).
Proof.
  intros Hm Hk w. destruct (Hm w) as (n1 & H1 & HP1).
  unfold mbind, M_bind. destruct (m w) as [w1 [a|e]]; simpl in *.
  - destruct (Hk a w1) as (n2 & H2 & HP2). exists (n1 ++ n2)%list.
    rewrite H2, H1, app_assoc. split; [done|]. by apply Forall_app.
  - by exists n1.
Qed.

Lemma sends_only_try_catch {A} P (m : M A) (h : error -> M A) :
  sends_only (server:=server) P m -> (forall e, sends_only P (h e)) ->
  sends_only P (try_catch m h).
Proof.
  intros Hm Hh w. destruct (Hm w) as (n1 & H1 & HP1).
  unfold try_catch. destruct (m w) as [w1 [a|e]]; simpl in *.
  - by exists n1.
  - destruct (Hh e w1) as (n2 & H2 & HP2). exists (n1 ++ n2)%list.
    rewrite H2, H1, app_assoc. split; [done|]. by apply Forall_app.
Qed.

Lemma sends_only_promise_all2 {A B} P (a : M A) (b : M B) :
  sends_only (server:=server) P a -> sends_only P b ->
  sends_only P (promise_all2 a b).
Proof.
  intros Ha Hb w. destruct (Ha w) as (n1 & H1 & HP1).
  unfold promise_all2. destruct (a w) as [w1 ra]; simpl in *.
  destruct (Hb w1) as (n2 & H2 & HP2). destruct (b w1) as [w2 rb]; simpl in *.
  exists (n1 ++ n2)%list. rewrite H2, H1, app_assoc.
  split; [done|]. by apply Forall_app.
Qed.

Lemma sends_only_console_error P (what : string) (e : error) :
  sends_only (server:=server) P (console_error what e).
Proof. intros w. exists []. simpl. by rewrite app_nil_r. Qed.

Lemma sends_only_expect {T} P (read : json -> option T) (j : json) :
  sends_only (server:=server) P (expect read j).
Proof.
  unfold expect. destruct (read j); [apply sends_only_mret|apply sends_only_throw].
Qed.

Lemma sends_only_apiRequest P (endpoint : string) (options : RequestInit) :
  (forall h, P (MkRequest (API_BASE_URL +:+ endpoint) (init_method options) h
                          (init_body options))) ->
  sends_only P (apiRequest serve endpoint options).
Proof.
  intros HP w. rewrite apiRequest_run. simpl. eexists. split; [reflexivity|].
  by apply Forall_singleton.
Qed.

(** One step through the structure of a handler. *)
Ltac sends_step :=
  first [ apply sends_only_apiRequest; intros ?
        | apply sends_only_mret
        | apply sends_only_throw
        | apply sends_only_console_error
        | apply sends_only_expect
        | apply sends_only_promise_all2
        | apply sends_only_try_catch; [|intros ?]
        | apply sends_only_bind; [|intros ?] ].

Lemma sends_only_loadData (target : Z) st :
  sends_only (fun req => ~ mutates_account target req) (loadData serve st).
Proof.
  unfold loadData, AdminAPI_getAllUsers, AdminAPI_getSystemStats.
  repeat sends_step; by apply get_does_not_mutate.
Qed.

Lemma sends_only_handleToggleAdmin (target userId : Z) st :
  userId <> target ->
  sends_only (fun req => ~ mutates_account target req)
             (handleToggleAdmin serve st userId).
Proof.
  intros Hne. unfold handleToggleAdmin, AdminAPI_toggleAdminRole.
  repeat sends_step;
    first [ by apply toggle_other_account | by apply get_does_not_mutate ].
Qed.

Lemma sends_only_handleDeleteUser (window_confirm : string -> bool)
  (target userId : Z) st :
  userId <> target ->
  sends_only (fun req => ~ mutates_account target req)
             (handleDeleteUser serve window_confirm st userId).
Proof.
  intros Hne. unfold handleDeleteUser, AdminAPI_deleteUser.
  destruct (handleDeleteUser_awaiting _ _ _); [|by sends_step].
  repeat sends_step;
    first [ by apply delete_other_account | by apply get_does_not_mutate ].
Qed.

(** C1, as the code has it.  For a row of the rendered user table:
    when the row is the requesting admin's own, both buttons are
    disabled; a click on either button of any row, whatever is answered
    in the confirmation dialog, sends only requests that are neither the
    delete-user nor the toggle-role request for the requesting admin;
    and when the row belongs to someone else the role toggle is enabled,
    and the delete button is enabled except while that very user is being
    deleted. *)
Theorem admin_self_actions (currentUserId : Z) st (row : UserRow) :
  In row (rendered_rows (AdminPage currentUserId st)) ->
  (user_id (row_user row) = currentUserId ->
     toggle_disabled row = true /\ delete_disabled row = true)
  /\ (forall (window_confirm : string -> bool) (b : ActionButton),
        sends_only (fun req => ~ mutates_account currentUserId req)
                   (click serve window_confirm currentUserId st row b))
  /\ (user_id (row_user row) <> currentUserId ->
        toggle_disabled row = false
        /\ (delete_disabled row = false
            <-> deletingUserId st <> Some (user_id (row_user row)))).
Proof.
  unfold AdminPage. destruct (isLoading st); simpl; [done|].
  intros (u & <- & _)%in_map_iff. simpl. split; [|split].
  - intros Hself. by rewrite bool_decide_eq_true_2.
  - intros window_confirm [|]; unfold click; simpl.
    + destruct (bool_decide (user_id u = currentUserId)) eqn:Hid;
        [apply sends_only_mret|].
      apply sends_only_handleToggleAdmin. by apply bool_decide_eq_false in Hid.
    + destruct (bool_decide (user_id u = currentUserId)) eqn:Hid; simpl;
        [apply sends_only_mret|].
      destruct (bool_decide (deletingUserId st = Some (user_id u)));
        [apply sends_only_mret|].
      apply sends_only_handleDeleteUser. by apply bool_decide_eq_false in Hid.
  - intros Hother. rewrite (bool_decide_eq_false_2 _ Hother). simpl.
    split; [done|]. apply bool_decide_eq_false.
Qed.

End AdminFacts.

(** Bob's row, seen by alice: both buttons work, and deleting him sends
    the DELETE for account 2 followed by the two reloads. *)
Lemma admin_self_actions_witness :
  let row := render_row 1 None bob in
  In row (rendered_rows (AdminPage 1 admin_loaded))
  /\ toggle_disabled row = false
  /\ delete_disabled row = false
  /\ List.map (fun req => (method req, url req))
       (sent (fst (click demo_serve always_confirm 1 admin_loaded row DeleteUser
                     signed_in_world)))
     = [(Some "DELETE", "/api/admin/users/2"); (None, "/api/admin/users");
        (None, "/api/admin/stats")]
  /\ sends_only (fun req => ~ mutates_account 1 req)
       (click demo_serve always_confirm 1 admin_loaded row DeleteUser).
Proof.
  intros row.
  assert (Hin : In row (rendered_rows (AdminPage 1 admin_loaded)))
    by (right; left; reflexivity).
  destruct (admin_self_actions demo_serve 1 admin_loaded row Hin)
    as (_ & Hclick & Hother).
  destruct (Hother ltac:(discriminate)) as [Htoggle Hdelete].
  split; [exact Hin|]. split; [exact Htoggle|].
  split; [apply Hdelete; discriminate|].
  split; [reflexivity|]. apply Hclick.
Defined.

(** C1 as the specification words it fails while a deletion is in
    flight: alice has confirmed the deletion of bob, the DELETE has not
    been answered yet, and bob's row is rendered with its delete button
    disabled although it is not alice's own row. *)
Lemma admin_rows_delete_in_flight : ~ admin_rows_as_specified.
Proof.
  intros H.
  pose (st := setDeletingUserId (Some 2) admin_loaded).
  assert (Hst : rendered_state st).
  { right. exists always_confirm, admin_loaded, 2. split; reflexivity. }
  destruct (H 1 st (render_row 1 (Some 2) bob) Hst) as [_ Hother].
  { right; left; reflexivity. }
  destruct (Hother ltac:(discriminate)) as [_ Hdelete].
  discriminate Hdelete.
Qed.

(** ** The dashboard figures *)

Lemma count_done_le (tasks : list Task) :
  (count_done (statusCounts tasks) <= totalTasks tasks)%nat.
Proof. apply length_filter. Qed.

Lemma status_counts_partition (tasks : list Task) :
  Forall (fun t => is_TaskStatus (status t)) tasks ->
  status_total (statusCounts tasks) = totalTasks tasks.
Proof.
  unfold status_total, statusCounts, totalTasks. simpl.
  induction 1 as [|t tasks [s Hs] _ IH]; [done|].
  rewrite !filter_cons, Hs. simpl in *.
  destruct s; simpl; repeat case_decide; try done; simpl; lia.
Qed.

(** *** The binary64 operations

    [SpecFloat] gives the operations as functions on mantissas and
    exponents.  What is needed of them here: an operation on 53-digit
    mantissas returns one of the two neighbouring 53-digit numbers of
    the exact result, so its relative error is at most [2^-52]. *)

Module Binary64.

Import SpecFloat.

(** The number of binary digits of a positive number. *)
Lemma digits2_pos_bounds (p : positive) :
  2 ^ (Z.pos (digits2_pos p) - 1) <= Z.pos p < 2 ^ Z.pos (digits2_pos p).
Proof.
  induction p as [p IH|p IH|]; simpl digits2_pos.
  - rewrite Pos2Z.inj_succ. change (Z.pos p~1) with (2 * Z.pos p + 1).
    replace (Z.succ (Z.pos (digits2_pos p)) - 1) with (Z.succ (Z.pos (digits2_pos p) - 1)) by lia.
    rewrite !Z.pow_succ_r by lia.
    revert IH. generalize (2 ^ (Z.pos (digits2_pos p) - 1)) (2 ^ Z.pos (digits2_pos p)).
    lia.
  - rewrite Pos2Z.inj_succ. change (Z.pos p~0) with (2 * Z.pos p).
    replace (Z.succ (Z.pos (digits2_pos p)) - 1) with (Z.succ (Z.pos (digits2_pos p) - 1)) by lia.
    rewrite !Z.pow_succ_r by lia.
    revert IH. generalize (2 ^ (Z.pos (digits2_pos p) - 1)) (2 ^ Z.pos (digits2_pos p)).
    lia.
  - simpl. lia.
Qed.

Lemma digits2_pos_unique (p : positive) (k : Z) :
  2 ^ (k - 1) <= Z.pos p < 2 ^ k -> Z.pos (digits2_pos p) = k.
Proof.
  intros [Hlo Hhi]. pose proof (digits2_pos_bounds p) as [Hlo' Hhi'].
  assert (0 < k).
  { destruct (Z.lt_ge_cases 0 k) as [|Hk]; [done|]. exfalso.
    destruct (Z.eq_dec k 0) as [->|Hne]; [rewrite Z.pow_0_r in Hhi; lia|].
    rewrite Z.pow_neg_r in Hhi by lia. lia. }
  destruct (Z.lt_trichotomy (Z.pos (digits2_pos p)) k) as [Hlt|[Heq|Hgt]]; [|done|].
  - assert (2 ^ Z.pos (digits2_pos p) <= 2 ^ (k - 1)) by (apply Z.pow_le_mono_r; lia).
    lia.
  - assert (2 ^ k <= 2 ^ (Z.pos (digits2_pos p) - 1)) by (apply Z.pow_le_mono_r; lia).
    lia.
Qed.

(** Shifting right. *)
Lemma shr_1_m (mrs : shr_record) :
  0 <= shr_m mrs -> shr_m (shr_1 mrs) = shr_m mrs / 2.
Proof.
  destruct mrs as [m r s]. simpl. intros Hm.
  destruct m as [|[p|p|]|p]; simpl; try lia.
  - done.
  - change (Z.pos p~1) with (2 * Z.pos p + 1). apply Z.div_unique with 1; lia.
  - change (Z.pos p~0) with (2 * Z.pos p). apply Z.div_unique with 0; lia.
  - done.
Qed.

Lemma iter_shr_1_m (p : positive) (mrs : shr_record) :
  0 <= shr_m mrs ->
  shr_m (iter_pos shr_1 p mrs) = shr_m mrs / 2 ^ Z.pos p.
Proof.
  revert mrs. induction p as [p IH|p IH|]; intros mrs Hm; simpl iter_pos.
  - assert (H1 : 0 <= shr_m (shr_1 mrs)).
    { rewrite shr_1_m by done. apply Z.div_pos; lia. }
    assert (H2 : 0 <= shr_m (iter_pos shr_1 p (shr_1 mrs))).
    { rewrite IH by done. apply Z.div_pos; [done|]. apply Z.pow_pos_nonneg; lia. }
    rewrite IH, IH, shr_1_m by done.
    rewrite !Z.div_div by (try apply Z.pow_pos_nonneg; lia).
    f_equal. change (Z.pos p~1) with (2 * Z.pos p + 1).
    replace (2 * Z.pos p + 1) with (1 + Z.pos p + Z.pos p) by lia.
    rewrite !Z.pow_add_r by lia. lia.
  - assert (H2 : 0 <= shr_m (iter_pos shr_1 p mrs)).
    { rewrite IH by done. apply Z.div_pos; [done|]. apply Z.pow_pos_nonneg; lia. }
    rewrite IH, IH by done.
    rewrite !Z.div_div by (try apply Z.pow_pos_nonneg; lia).
    f_equal. change (Z.pos p~0) with (2 * Z.pos p).
    replace (2 * Z.pos p) with (Z.pos p + Z.pos p) by lia.
    rewrite !Z.pow_add_r by lia. lia.
  - by rewrite shr_1_m.
Qed.

Lemma shr_record_of_loc_m (m : Z) (l : location) :
  shr_m (shr_record_of_loc m l) = m.
Proof. by destruct l as [|[]]. Qed.

Lemma round_nearest_even_cases (m : Z) (l : location) :
  round_nearest_even m l = m \/ round_nearest_even m l = m + 1.
Proof. destruct l as [|[]]; simpl; auto. destruct (Z.even m); auto. Qed.

(** The first shift of [binary_round_aux], for a mantissa of at least
    53 digits in the normal range. *)
Lemma shr_fexp_m (m : positive) (e : Z) (l : location) :
  53 <= Z.pos (digits2_pos m) ->
  -1074 <= Z.pos (digits2_pos m) + e - 53 ->
  let n := Z.pos (digits2_pos m) - 53 in
  shr_m (fst (shr_fexp Num.prec Num.emax (Z.pos m) e l)) = Z.pos m / 2 ^ n
  /\ snd (shr_fexp Num.prec Num.emax (Z.pos m) e l) = e + n.
Proof.
  intros Hd Hrange n. unfold shr_fexp, fexp, emin, Num.prec, Num.emax. simpl Zdigits2.
  replace (Z.max (Z.pos (digits2_pos m) + e - 53) (3 - 1024 - 53) - e) with n by lia.
  unfold shr. destruct n as [|p|p] eqn:Hn; simpl.
  - rewrite shr_record_of_loc_m. split; [by rewrite Z.div_1_r|lia].
  - rewrite iter_shr_1_m by (rewrite shr_record_of_loc_m; lia).
    by rewrite shr_record_of_loc_m.
  - lia.
Qed.

Lemma pow2_pos (k : Z) : 0 <= k -> 0 < 2 ^ k.
Proof. intros. apply Z.pow_pos_nonneg; lia. Qed.

Lemma pow2_split (a b : Z) : 0 <= a -> 0 <= b -> 2 ^ (a + b) = 2 ^ a * 2 ^ b.
Proof. intros. by rewrite Z.pow_add_r. Qed.

(** A mantissa of [53 + n] digits, shifted right by [n], has 53. *)
Lemma shifted_mantissa (m : positive) :
  53 <= Z.pos (digits2_pos m) ->
  2 ^ 52 <= Z.pos m / 2 ^ (Z.pos (digits2_pos m) - 53) < 2 ^ 53.
Proof.
  intros Hd. pose proof (digits2_pos_bounds m) as [Hlo Hhi].
  set (n := Z.pos (digits2_pos m) - 53) in *.
  assert (Hn : 0 <= n) by lia.
  pose proof (pow2_pos n Hn) as Hp.
  replace (Z.pos (digits2_pos m) - 1) with (52 + n) in Hlo by lia.
  replace (Z.pos (digits2_pos m)) with (53 + n) in Hhi by lia.
  rewrite pow2_split in Hlo, Hhi by lia.
  split.
  - apply Z.div_le_lower_bound; lia.
  - apply Z.div_lt_upper_bound; lia.
Qed.

(** [binary_round_aux] on a mantissa of at least 53 digits, in the
    normal range: the mantissa is cut to 53 digits and the result is the
    cut mantissa or the next one. *)
Lemma binary_round_aux_cases (sx : bool) (m : positive) (e : Z) (l : location) :
  53 <= Z.pos (digits2_pos m) ->
  -1074 <= Z.pos (digits2_pos m) + e - 53 ->
  Z.pos (digits2_pos m) + e <= 1023 ->
  let n := Z.pos (digits2_pos m) - 53 in
  let m1 := Z.pos m / 2 ^ n in
  exists m' e',
    binary_round_aux Num.prec Num.emax sx (Z.pos m) e l = S754_finite sx m' e'
    /\ 2 ^ 52 <= Z.pos m' < 2 ^ 53
    /\ ((e' = e + n /\ (Z.pos m' = m1 \/ Z.pos m' = m1 + 1))
        \/ (e' = e + n + 1 /\ Z.pos m' = 2 ^ 52 /\ m1 + 1 = 2 ^ 53)).
Proof.
  intros Hd Hlo Hhi n m1.
  pose proof (shifted_mantissa m Hd) as Hm1. fold n in Hm1. fold m1 in Hm1.
  unfold binary_round_aux.
  destruct (shr_fexp_m m e l Hd Hlo) as [H1 H2]. fold n in H1, H2. fold m1 in H1.
  destruct (shr_fexp Num.prec Num.emax (Z.pos m) e l) as [mrs' e1]. simpl in H1, H2.
  rewrite H1. subst e1.
  destruct (round_nearest_even_cases m1 (loc_of_shr_record mrs')) as [-> | ->].
  - (* the cut mantissa *)
    destruct m1 as [|p1|p1] eqn:Hp1; [lia| |lia].
    assert (Hd1 : Z.pos (digits2_pos p1) = 53) by (apply digits2_pos_unique; lia).
    destruct (shr_fexp_m p1 (e + n) loc_Exact) as [H3 H4]; [lia|lia|].
    rewrite Hd1 in H3, H4.
    destruct (shr_fexp Num.prec Num.emax (Z.pos p1) (e + n) loc_Exact) as [mrs2 e2].
    simpl in H3, H4. rewrite H3. change (53 - 53) with 0. rewrite Z.pow_0_r, Z.div_1_r.
    subst e2. replace (e + n + (53 - 53)) with (e + n) by lia.
    unfold Num.emax, Num.prec.
    destruct (Z.leb_spec (e + n) (1024 - 53)); [|lia].
    exists p1, (e + n). split; [done|]. split; [lia|]. left. split; [done|]. by left.
  - (* the next one *)
    destruct (m1 + 1) as [|p1|p1] eqn:Hp1; [lia| |lia].
    destruct (Z.eq_dec (m1 + 1) (2 ^ 53)) as [Hcarry|Hno].
    + assert (Hd1 : Z.pos (digits2_pos p1) = 54).
      { apply digits2_pos_unique. rewrite <- Hp1, Hcarry. change (54 - 1) with 53.
        split; [lia|]. apply Z.pow_lt_mono_r; lia. }
      destruct (shr_fexp_m p1 (e + n) loc_Exact) as [H3 H4]; [lia|lia|].
      rewrite Hd1 in H3, H4.
      destruct (shr_fexp Num.prec Num.emax (Z.pos p1) (e + n) loc_Exact) as [mrs2 e2].
      simpl in H3, H4. rewrite H3. subst e2.
      rewrite <- Hp1, Hcarry. change (54 - 53) with 1.
      change (2 ^ 53 / 2 ^ 1) with (Z.pos (Z.to_pos (2 ^ 52))).
      unfold Num.emax, Num.prec.
      destruct (Z.leb_spec (e + n + 1) (1024 - 53)); [|lia].
      eexists _, _. split; [reflexivity|]. split; [done|]. right. done.
    + assert (Hd1 : Z.pos (digits2_pos p1) = 53) by (apply digits2_pos_unique; lia).
      destruct (shr_fexp_m p1 (e + n) loc_Exact) as [H3 H4]; [lia|lia|].
      rewrite Hd1 in H3, H4.
      destruct (shr_fexp Num.prec Num.emax (Z.pos p1) (e + n) loc_Exact) as [mrs2 e2].
      simpl in H3, H4. rewrite H3. change (53 - 53) with 0. rewrite Z.pow_0_r, Z.div_1_r.
      subst e2. replace (e + n + (53 - 53)) with (e + n) by lia.
      unfold Num.emax, Num.prec.
      destruct (Z.leb_spec (e + n) (1024 - 53)); [|lia].
      exists p1, (e + n). split; [done|]. split; [lia|]. left. split; [done|]. right. lia.
Qed.

(** *** Values *)

Lemma IZR_pow2 (n : Z) : 0 <= n -> IZR (2 ^ n) = powerRZ 2 n.
Proof.
  intros Hn. destruct n as [|p|p]; [done| |lia].
  change (2 ^ Z.pos p) with (Z.pow_pos 2 p). apply Zpower_pos_powerRZ.
Qed.

Lemma powerRZ2_pos (e : Z) : (0 < powerRZ 2 e)%R.
Proof. apply powerRZ_lt. lra. Qed.

Lemma powerRZ2_add (a b : Z) : powerRZ 2 (a + b) = (powerRZ 2 a * powerRZ 2 b)%R.
Proof. apply powerRZ_add. lra. Qed.

Lemma binary_round_aux_error (sx : bool) (m : positive) (e : Z) (l : location) :
  53 <= Z.pos (digits2_pos m) ->
  -1074 <= Z.pos (digits2_pos m) + e - 53 ->
  Z.pos (digits2_pos m) + e <= 1023 ->
  let E := e + (Z.pos (digits2_pos m) - 53) in
  exists m' e',
    binary_round_aux Num.prec Num.emax sx (Z.pos m) e l = S754_finite sx m' e'
    /\ 2 ^ 52 <= Z.pos m' < 2 ^ 53
    /\ (e' = E \/ e' = E + 1)
    /\ forall V : R,
         (F2R (Z.pos m) e <= V < F2R (Z.pos m + 1) e)%R ->
         (V * (1 - u52) <= F2R (Z.pos m') e' <= V * (1 + u52))%R.
Proof.
  intros Hd Hlo Hhi E.
  destruct (binary_round_aux_cases sx m e l Hd Hlo Hhi) as (m' & e' & Hrun & Hm' & Hcases).
  pose proof (shifted_mantissa m Hd) as Hm1.
  set (n := Z.pos (digits2_pos m) - 53) in *.
  set (m1 := Z.pos m / 2 ^ n) in *.
  assert (Hn : 0 <= n) by lia.
  exists m', e'. split; [done|]. split; [done|]. split; [lia|].
  intros V [HV1 HV2]. unfold F2R in *.
  pose proof (powerRZ2_pos e) as HX. set (X := powerRZ 2 e) in *.
  pose proof (powerRZ2_pos n) as HY.
  (* the mantissa, cut *)
  pose proof (Z.div_mod (Z.pos m) (2 ^ n) ltac:(pose proof (pow2_pos n Hn); lia)) as Hdm.
  pose proof (Z.mod_pos_bound (Z.pos m) (2 ^ n) (pow2_pos n Hn)) as Hrem.
  fold m1 in Hdm. set (rem := Z.pos m mod 2 ^ n) in *.
  assert (HmR : IZR (Z.pos m) = (powerRZ 2 n * IZR m1 + IZR rem)%R).
  { rewrite Hdm at 1. rewrite plus_IZR, mult_IZR, IZR_pow2 by done. done. }
  assert (Hrem0 : (0 <= IZR rem)%R) by (apply IZR_le; lia).
  assert (Hrem1 : (IZR rem + 1 <= powerRZ 2 n)%R).
  { rewrite <- IZR_pow2 by done. rewrite <- plus_IZR. apply IZR_le. lia. }
  rewrite plus_IZR, HmR in HV2. rewrite HmR in HV1.
  set (Y := powerRZ 2 n) in *.
  assert (Hm1R : (IZR (2 ^ 52) <= IZR m1)%R) by (apply IZR_le; lia).
  set (M1 := IZR m1) in *.
  assert (Hu : (u52 * IZR (2 ^ 52) = 1)%R).
  { unfold u52. apply Rinv_l. apply not_0_IZR. lia. }
  assert (Hupos : (0 < u52)%R).
  { unfold u52. apply Rinv_0_lt_compat. apply IZR_lt. lia. }
  assert (H252 : (0 < IZR (2 ^ 52))%R) by (apply IZR_lt; lia).
  set (K := IZR (2 ^ 52)) in *.
  (* the result is W or W + U *)
  assert (Hres : (IZR (Z.pos m') * powerRZ 2 e' = M1 * (Y * X)
                  \/ IZR (Z.pos m') * powerRZ 2 e' = (M1 + 1) * (Y * X))%R).
  { destruct Hcases as [[He [Hm|Hm]] | (He & Hm & Hc)]; rewrite He, Hm.
    - left. rewrite powerRZ2_add. fold X Y M1. lra.
    - right. rewrite powerRZ2_add, plus_IZR. fold X Y M1. lra.
    - right. rewrite !powerRZ2_add. fold X Y.
      assert (HM : (M1 + 1 = IZR (2 ^ 53))%R).
      { unfold M1. rewrite <- plus_IZR. by rewrite Hc. }
      rewrite HM. change (2 ^ 53) with (2 ^ 52 * 2). rewrite mult_IZR.
      change (powerRZ 2 1) with (2 * 1)%R. lra. }
  assert (HXY : (0 < Y * X)%R) by nra.
  assert (HUW : (Y * X <= u52 * (M1 * (Y * X)))%R).
  { assert (1 <= u52 * M1)%R by nra. nra. }
  assert (HW1 : (M1 * (Y * X) <= V)%R) by nra.
  assert (HW2 : (V < M1 * (Y * X) + Y * X)%R) by nra.
  destruct Hres as [-> | ->]; split; nra.
Qed.

(** *** Integers as numbers *)

Lemma iter_xO (k d : positive) :
  Z.pos (Pos.iter xO k d) = Z.pos k * 2 ^ Z.pos d.
Proof.
  induction d as [|d IH] using Pos.peano_ind.
  - simpl. lia.
  - rewrite Pos.iter_succ, Pos2Z.inj_succ, Z.pow_succ_r by lia.
    change (Z.pos (Pos.iter xO k d)~0) with (2 * Z.pos (Pos.iter xO k d)).
    rewrite IH. lia.
Qed.

(** A mantissa of exactly 53 digits, in range, is kept as it is. *)
Lemma binary_round_aux_exact (sx : bool) (m : positive) (e : Z) :
  Z.pos (digits2_pos m) = 53 -> -1074 <= e <= 971 ->
  binary_round_aux Num.prec Num.emax sx (Z.pos m) e loc_Exact = S754_finite sx m e.
Proof.
  intros Hd He. unfold binary_round_aux, shr_fexp, fexp, emin, Num.prec, Num.emax.
  simpl Zdigits2. rewrite Hd.
  replace (Z.max (53 + e - 53) (3 - 1024 - 53) - e) with 0 by lia.
  simpl. rewrite Hd.
  replace (Z.max (53 + e - 53) (3 - 1024 - 53) - e) with 0 by lia.
  simpl. destruct (Z.leb_spec e (1024 - 53)); [done|lia].
Qed.

(** The number an integer below [2^53] becomes: the integer itself, its
    mantissa shifted to 53 digits. *)
Lemma of_Z_finite (k : positive) :
  Z.pos k < 2 ^ 53 ->
  let D := Z.pos (digits2_pos k) in
  Num.of_Z (Z.pos k)
  = S754_finite false (Z.to_pos (Z.pos k * 2 ^ (53 - D))) (D - 53)
  /\ D <= 53
  /\ 2 ^ 52 <= Z.pos k * 2 ^ (53 - D) < 2 ^ 53.
Proof.
  intros Hk D. pose proof (digits2_pos_bounds k) as [Hlo Hhi]. fold D in Hlo, Hhi.
  assert (HD : D <= 53).
  { destruct (Z.le_gt_cases D 53) as [|Hgt]; [done|].
    assert (2 ^ 53 <= 2 ^ (D - 1)) by (apply Z.pow_le_mono_r; lia). lia. }
  assert (Hm : 2 ^ 52 <= Z.pos k * 2 ^ (53 - D) < 2 ^ 53).
  { assert (E1 : 2 ^ 52 = 2 ^ (D - 1) * 2 ^ (53 - D)).
    { rewrite <- pow2_split by lia. f_equal. lia. }
    assert (E2 : 2 ^ 53 = 2 ^ D * 2 ^ (53 - D)).
    { rewrite <- pow2_split by lia. f_equal. lia. }
    rewrite E1, E2.
    pose proof (pow2_pos (53 - D) ltac:(lia)). split.
    - apply Z.mul_le_mono_nonneg_r; lia.
    - apply Z.mul_lt_mono_pos_r; lia. }
  split; [|done].
  unfold Num.of_Z, binary_normalize, binary_round, shl_align, fexp, emin,
    Num.prec, Num.emax. fold D.
  replace (Z.max (D + 0 - 53) (3 - 1024 - 53) - 0) with (D - 53) by lia.
  replace (Z.max (D + 0 - 53) (3 - 1024 - 53)) with (D - 53) by lia.
  destruct (D - 53) as [|p|p] eqn:Hp; [|lia|].
  - replace (53 - D) with 0 in * by lia. rewrite Z.mul_1_r in *. simpl Z.to_pos.
    apply binary_round_aux_exact; [lia|lia].
  - replace (53 - D) with (Z.pos p) in * by lia.
    rewrite <- iter_xO in *. simpl Z.to_pos.
    apply binary_round_aux_exact; [|lia].
    apply digits2_pos_unique. lia.
Qed.

Lemma of_Z_value (k : positive) :
  Z.pos k < 2 ^ 53 ->
  exists m e,
    Num.of_Z (Z.pos k) = S754_finite false m e
    /\ 2 ^ 52 <= Z.pos m < 2 ^ 53
    /\ -52 <= e <= 0
    /\ F2R (Z.pos m) e = IZR (Z.pos k).
Proof.
  intros Hk. destruct (of_Z_finite k Hk) as (Hrun & HD & Hm).
  pose proof (Pos2Z.is_pos (digits2_pos k)).
  set (D := Z.pos (digits2_pos k)) in *.
  eexists _, _. split; [exact Hrun|].
  rewrite Z2Pos.id by lia. split; [done|]. split; [lia|].
  unfold F2R. rewrite mult_IZR, IZR_pow2 by lia.
  rewrite Rmult_assoc, <- powerRZ2_add.
  replace (53 - D + (D - 53)) with 0 by lia. simpl. lra.
Qed.

Lemma digits2_pos_ge (p : positive) (k : Z) :
  2 ^ (k - 1) <= Z.pos p -> k <= Z.pos (digits2_pos p).
Proof.
  intros Hlo. pose proof (digits2_pos_bounds p) as [_ Hhi].
  destruct (Z.le_gt_cases k (Z.pos (digits2_pos p))) as [|Hgt]; [done|].
  assert (2 ^ Z.pos (digits2_pos p) <= 2 ^ (k - 1)) by (apply Z.pow_le_mono_r; lia).
  lia.
Qed.

Lemma digits2_pos_le (p : positive) (k : Z) :
  0 <= k -> Z.pos p < 2 ^ k -> Z.pos (digits2_pos p) <= k.
Proof.
  intros Hk Hhi. pose proof (digits2_pos_bounds p) as [Hlo _].
  destruct (Z.le_gt_cases (Z.pos (digits2_pos p)) k) as [|Hgt]; [done|].
  assert (2 ^ k <= 2 ^ (Z.pos (digits2_pos p) - 1)) by (apply Z.pow_le_mono_r; lia).
  lia.
Qed.

(** *** Division and multiplication of two 53-digit numbers *)

Lemma div_error (a b : positive) (ea eb : Z) :
  2 ^ 52 <= Z.pos a < 2 ^ 53 -> 2 ^ 52 <= Z.pos b < 2 ^ 53 ->
  -52 <= ea <= 0 -> -52 <= eb <= 0 ->
  exists m e,
    Num.div (S754_finite false a ea) (S754_finite false b eb)
    = S754_finite false m e
    /\ 2 ^ 52 <= Z.pos m < 2 ^ 53
    /\ -105 <= e <= 1
    /\ (F2R (Z.pos a) ea / F2R (Z.pos b) eb * (1 - u52)
        <= F2R (Z.pos m) e
        <= F2R (Z.pos a) ea / F2R (Z.pos b) eb * (1 + u52))%R.
Proof.
  intros Ha Hb Hea Heb.
  assert (Hda : Z.pos (digits2_pos a) = 53) by (apply digits2_pos_unique; lia).
  assert (Hdb : Z.pos (digits2_pos b) = 53) by (apply digits2_pos_unique; lia).
  unfold Num.div, SFdiv, SFdiv_core_binary, fexp, emin, Num.prec, Num.emax.
  simpl Zdigits2. rewrite Hda, Hdb.
  replace (Z.min (Z.max (53 + ea - (53 + eb) - 53) (3 - 1024 - 53)) (ea - eb))
    with (ea - eb - 53) by lia.
  replace (ea - eb - (ea - eb - 53)) with 53 by lia.
  rewrite Z.shiftl_mul_pow2 by lia.
  pose proof (Z.div_eucl_eq (Z.pos a * 2 ^ 53) (Z.pos b) ltac:(lia)) as Heq.
  pose proof (Z.mod_pos_bound (Z.pos a * 2 ^ 53) (Z.pos b) ltac:(lia)) as Hr.
  unfold Z.modulo in Hr.
  destruct (Z.div_eucl (Z.pos a * 2 ^ 53) (Z.pos b)) as [q r].
  assert (Hq : 2 ^ 52 <= q < 2 ^ 54).
  { change (2 ^ 54) with (2 * 2 ^ 53). change (2 ^ 53) with (2 * 2 ^ 52) in *. nia. }
  destruct q as [|q|q]; [lia| |lia].
  assert (Hdq1 : 53 <= Z.pos (digits2_pos q)) by (apply digits2_pos_ge; lia).
  assert (Hdq2 : Z.pos (digits2_pos q) <= 54) by (apply digits2_pos_le; lia).
  destruct (binary_round_aux_error (xorb false false) q (ea - eb - 53)
              (new_location (Z.pos b) r) Hdq1 ltac:(lia) ltac:(lia))
    as (m & e & Hrun & Hm & He & Hval).
  exists m, e. split; [exact Hrun|]. split; [done|]. split; [lia|].
  apply Hval. unfold F2R.
  pose proof (powerRZ2_pos ea) as HA. pose proof (powerRZ2_pos eb) as HB.
  pose proof (powerRZ2_pos (ea - eb - 53)) as HE.
  assert (Hpow : (powerRZ 2 ea = powerRZ 2 (ea - eb - 53) * powerRZ 2 eb * IZR (2 ^ 53))%R).
  { rewrite IZR_pow2 by lia. rewrite <- !powerRZ2_add. f_equal. lia. }
  assert (HbR : (0 < IZR (Z.pos b))%R) by (apply IZR_lt; lia).
  assert (HeqR : (IZR (Z.pos a) * IZR (2 ^ 53) = IZR (Z.pos b) * IZR (Z.pos q) + IZR r)%R).
  { rewrite <- !mult_IZR, <- plus_IZR. by rewrite Heq. }
  assert (Hr0 : (0 <= IZR r)%R) by (apply IZR_le; lia).
  assert (Hr1 : (IZR r < IZR (Z.pos b))%R) by (apply IZR_lt; lia).
  rewrite plus_IZR.
  set (X := powerRZ 2 (ea - eb - 53)) in *. set (B := powerRZ 2 eb) in *.
  set (K := IZR (2 ^ 53)) in *. set (bb := IZR (Z.pos b)) in *.
  set (aa := IZR (Z.pos a)) in *. set (qq := IZR (Z.pos q)) in *. set (rr := IZR r) in *.
  rewrite Hpow.
  assert (Hquot : (aa * (X * B * K) / (bb * B) = (qq + rr / bb) * X)%R).
  { field_simplify_eq; [|lra]. nra. }
  rewrite Hquot.
  assert (0 <= rr / bb < 1)%R.
  { split.
    - apply Rmult_le_pos; [done|]. apply Rlt_le, Rinv_0_lt_compat. done.
    - apply Rmult_lt_reg_r with bb; [done|]. field_simplify; lra. }
  split; nra.
Qed.

Lemma mul_error (a b : positive) (ea eb : Z) :
  2 ^ 52 <= Z.pos a < 2 ^ 53 -> 2 ^ 52 <= Z.pos b < 2 ^ 53 ->
  -105 <= ea <= 1 -> -52 <= eb <= 0 ->
  exists m e,
    Num.mul (S754_finite false a ea) (S754_finite false b eb)
    = S754_finite false m e
    /\ 2 ^ 52 <= Z.pos m < 2 ^ 53
    /\ (F2R (Z.pos a) ea * F2R (Z.pos b) eb * (1 - u52)
        <= F2R (Z.pos m) e
        <= F2R (Z.pos a) ea * F2R (Z.pos b) eb * (1 + u52))%R.
Proof.
  intros Ha Hb Hea Heb.
  unfold Num.mul, SFmul.
  assert (Hab : 2 ^ 104 <= Z.pos (a * b) < 2 ^ 106).
  { rewrite Pos2Z.inj_mul. change (2 ^ 104) with (2 ^ 52 * 2 ^ 52).
    change (2 ^ 106) with (2 ^ 53 * 2 ^ 53). nia. }
  assert (Hd1 : 105 <= Z.pos (digits2_pos (a * b))) by (apply digits2_pos_ge; lia).
  assert (Hd2 : Z.pos (digits2_pos (a * b)) <= 106) by (apply digits2_pos_le; lia).
  destruct (binary_round_aux_error (xorb false false) (a * b) (ea + eb) loc_Exact
              ltac:(lia) ltac:(lia) ltac:(lia))
    as (m & e & Hrun & Hm & He & Hval).
  exists m, e. split; [exact Hrun|]. split; [done|].
  apply Hval. unfold F2R. rewrite plus_IZR, Pos2Z.inj_mul, mult_IZR, powerRZ2_add.
  pose proof (powerRZ2_pos ea). pose proof (powerRZ2_pos eb).
  split; nra.
Qed.

(** *** [Math.round] *)

Lemma Math_round_nearest (m : positive) (e r : Z) :
  2 ^ 52 <= Z.pos m < 2 ^ 53 ->
  0 <= r < 2 ^ 52 ->
  ((2 * IZR r - 1) / 2 <= F2R (Z.pos m) e < (2 * IZR r + 1) / 2)%R ->
  Num.Math_round (S754_finite false m e) = Num.of_Z r.
Proof.
  intros Hm Hr [Hlo Hhi]. unfold F2R in *.
  assert (HmR : (IZR (2 ^ 52) <= IZR (Z.pos m))%R) by (apply IZR_le; lia).
  assert (HrR : (IZR r + 1 <= IZR (2 ^ 52))%R).
  { rewrite <- plus_IZR. apply IZR_le. lia. }
  assert (H252 : (1 <= IZR (2 ^ 52))%R) by (apply IZR_le; lia).
  assert (He : e < 0).
  { destruct (Z.lt_ge_cases e 0) as [|Hge]; [done|]. exfalso.
    assert (1 <= powerRZ 2 e)%R.
    { rewrite <- IZR_pow2 by lia. apply IZR_le. pose proof (pow2_pos e ltac:(lia)). lia. }
    nra. }
  pose proof (pow2_pos (- e) ltac:(lia)) as Hk.
  assert (HkR : IZR (2 ^ (- e)) = (/ powerRZ 2 e)%R).
  { rewrite IZR_pow2 by lia. apply powerRZ_neg'. }
  pose proof (powerRZ2_pos e) as HX.
  assert (Hint : (2 * r - 1) * 2 ^ (- e) <= 2 * Z.pos m < (2 * r + 1) * 2 ^ (- e)).
  { split.
    - apply le_IZR. rewrite !mult_IZR, minus_IZR, mult_IZR, HkR.
      apply Rmult_le_reg_r with (powerRZ 2 e); [done|].
      field_simplify; lra.
    - apply lt_IZR. rewrite !mult_IZR, plus_IZR, mult_IZR, HkR.
      apply Rmult_lt_reg_r with (powerRZ 2 e); [done|].
      field_simplify; lra. }
  unfold Num.Math_round.
  destruct (Z.leb_spec 0 e); [lia|].
  set (k := 2 ^ (- e)) in *.
  pose proof (Z.div_mod (Z.pos m) k ltac:(lia)) as Hdm.
  pose proof (Z.mod_pos_bound (Z.pos m) k Hk) as Hrem.
  set (q := Z.pos m / k) in *. set (rem := Z.pos m mod k) in *.
  destruct (Z.eqb_spec rem 0) as [Hz|Hnz].
  - (* an integer already *)
    assert (Hq : q = r) by nia. rewrite Hz, Z.add_0_r in Hdm.
    assert (Hrpos : 0 < r) by nia.
    assert (He52 : - e < 53).
    { apply (Z.pow_lt_mono_r_iff 2); [lia|lia|]. fold k. nia. }
    destruct r as [|pr|pr]; [lia| |lia].
    destruct (of_Z_finite pr ltac:(lia)) as (-> & HD & Hmant).
    set (D := Z.pos (digits2_pos pr)) in *.
    assert (HDe : D = 53 + e).
    { apply digits2_pos_unique.
      assert (E1 : 2 ^ 52 = 2 ^ (53 + e - 1) * k).
      { unfold k. rewrite <- pow2_split by lia. f_equal. lia. }
      assert (E2 : 2 ^ 53 = 2 ^ (53 + e) * k).
      { unfold k. rewrite <- pow2_split by lia. f_equal. lia. }
      rewrite E1, E2, Hdm, Hq in Hm. clear E1 E2.
      revert Hm. generalize (2 ^ (53 + e - 1)) (2 ^ (53 + e)). intros A B Hm.
      split; nia. }
    rewrite HDe. replace (53 - (53 + e)) with (- e) by lia.
    replace (53 + e - 53) with e by lia. fold k.
    rewrite Hq in Hdm. rewrite Z.mul_comm, <- Hdm. done.
  - (* a proper fraction *)
    assert (Hn : (if k <=? 2 * rem then q + 1 else q) = r).
    { destruct (Z.leb_spec k (2 * rem)); nia. }
    rewrite Hn. destruct (Z.eqb_spec r 0) as [->|]; done.
Qed.

(** *** The completion rate *)

Lemma rounded_percentage_spec (d n : nat) :
  (0 < n)%nat -> (d <= n)%nat ->
  let r := rounded_percentage d n in
  0 <= r <= 100
  /\ (2 * r - 1) * Z.of_nat n <= 200 * Z.of_nat d < (2 * r + 1) * Z.of_nat n
  /\ (is_tie d n = true <-> 200 * Z.of_nat d = (2 * r - 1) * Z.of_nat n).
Proof.
  intros Hn Hd r. unfold rounded_percentage in r.
  pose proof (Z.div_mod (200 * Z.of_nat d + Z.of_nat n) (2 * Z.of_nat n) ltac:(lia)) as Hdm.
  pose proof (Z.mod_pos_bound (200 * Z.of_nat d + Z.of_nat n) (2 * Z.of_nat n) ltac:(lia))
    as Hrem.
  fold r in Hdm.
  set (rem := (200 * Z.of_nat d + Z.of_nat n) mod (2 * Z.of_nat n)) in *.
  assert (Hr : 0 <= r <= 100) by nia.
  split; [done|]. split; [nia|].
  unfold is_tie. rewrite Z.eqb_eq. split.
  - intros Htie.
    pose proof (Z.div_mod (200 * Z.of_nat d) (2 * Z.of_nat n) ltac:(lia)) as Hdm2.
    rewrite Htie in Hdm2.
    set (q := 200 * Z.of_nat d / (2 * Z.of_nat n)) in *.
    assert (Hrq : rem = 2 * Z.of_nat n * (q + 1 - r)) by lia.
    assert (Hq : q + 1 - r = 0) by nia.
    nia.
  - intros Heq. symmetry. apply (Z.mod_unique_pos _ _ (r - 1)); [lia|nia].
Qed.

Lemma u52_value : u52 = (/ 4503599627370496)%R.
Proof. reflexivity. Qed.

(** The rate of [d] tasks done out of [n], for lists a JavaScript array
    can hold: the percentage rounded to the nearest integer, unless the
    percentage lies exactly half-way between two integers, where it is
    that integer or the one below. *)
Lemma rate_of_rounds (d n : nat) :
  (0 < n)%nat -> (d <= n)%nat -> Z.of_nat n < 2 ^ 32 ->
  let r := rounded_percentage d n in
  if is_tie d n
  then rate_of d n = Num.of_Z r \/ rate_of d n = Num.of_Z (r - 1)
  else rate_of d n = Num.of_Z r.
Proof.
  intros Hn Hd Hbound r.
  destruct (rounded_percentage_spec d n Hn Hd) as (Hr & Hbr & Htie). fold r in Hr, Hbr, Htie.
  unfold rate_of.
  destruct (Z.of_nat n) as [|pn|pn] eqn:Hpn; [lia| |lia].
  destruct (of_Z_value pn ltac:(lia)) as (b & eb & -> & Hb & Heb & Hbv).
  destruct (of_Z_value 100 ltac:(done)) as (c & ec & -> & Hc & Hec & Hcv).
  destruct (Z.of_nat d) as [|pd|pd] eqn:Hpd; [|
    |lia].
  - (* nothing done *)
    simpl. assert (Hr0 : r = 0) by nia.
    destruct (is_tie d n) eqn:Ht.
    + pose proof (proj1 Htie eq_refl). nia.
    + by rewrite Hr0.
  - destruct (of_Z_value pd ltac:(lia)) as (a & ea & -> & Ha & Hea & Hav).
    destruct (div_error a b ea eb Ha Hb Hea Heb) as (mq & eq & -> & Hmq & Heq & Hqv).
    destruct (mul_error mq c eq ec Hmq Hc Heq Hec) as (mp & ep & -> & Hmp & Hpv).
    rewrite Hav, Hbv in Hqv. rewrite Hcv in Hpv.
    set (Qv := F2R (Z.pos mq) eq) in *. set (Pv := F2R (Z.pos mp) ep) in *.
    assert (HN1 : (1 <= IZR (Z.pos pn))%R) by (apply IZR_le; lia).
    assert (HN2 : (IZR (Z.pos pn) <= 4294967296)%R) by (apply IZR_le; lia).
    assert (HD1 : (1 <= IZR (Z.pos pd))%R) by (apply IZR_le; lia).
    assert (HD2 : (IZR (Z.pos pd) <= IZR (Z.pos pn))%R) by (apply IZR_le; lia).
    assert (HT1 : ((2 * IZR r - 1) * IZR (Z.pos pn) <= 200 * IZR (Z.pos pd))%R).
    { replace 200%R with (IZR 200) by done. replace 2%R with (IZR 2) by done.
      replace 1%R with (IZR 1) by done.
      rewrite <- !mult_IZR, <- minus_IZR, <- mult_IZR. apply IZR_le. lia. }
    assert (HT2 : (200 * IZR (Z.pos pd) + 1 <= (2 * IZR r + 1) * IZR (Z.pos pn))%R).
    { replace 200%R with (IZR 200) by done. replace 2%R with (IZR 2) by done.
      replace 1%R with (IZR 1) by done.
      rewrite <- !mult_IZR, <- !plus_IZR, <- mult_IZR. apply IZR_le. lia. }
    set (N := IZR (Z.pos pn)) in *. set (Dd := IZR (Z.pos pd)) in *.
    rewrite u52_value in Hqv, Hpv.
    assert (HQn : (Dd * (1 - / 4503599627370496) <= Qv * N
                   <= Dd * (1 + / 4503599627370496))%R).
    { assert (Hx : (Dd / N * N = Dd)%R) by (field; lra).
      destruct Hqv as [Hq1 Hq2]. split.
      - apply (Rmult_le_compat_r N) in Hq1; [|lra]. lra.
      - apply (Rmult_le_compat_r N) in Hq2; [|lra]. lra. }
    assert (HPn : (Qv * N * 100 * (1 - / 4503599627370496) <= Pv * N
                   <= Qv * N * 100 * (1 + / 4503599627370496))%R).
    { destruct Hpv as [Hp1 Hp2]. split.
      - apply (Rmult_le_compat_r N) in Hp1; [|lra]. lra.
      - apply (Rmult_le_compat_r N) in Hp2; [|lra]. lra. }
    set (Qn := (Qv * N)%R) in *. set (Pn := (Pv * N)%R) in *.
    set (RN := (IZR r * N)%R) in *.
    assert (HT1' : (2 * RN - N <= 200 * Dd)%R) by (unfold RN; lra).
    assert (HT2' : (200 * Dd + 1 <= 2 * RN + N)%R) by (unfold RN; lra).
    assert (Hup : (Pn < RN + N / 2)%R) by lra.
    assert (Hup' : (Pv < (2 * IZR r + 1) / 2)%R).
    { apply (Rmult_lt_reg_r N); [lra|]. unfold Pn, RN in Hup. lra. }
    destruct (is_tie d n) eqn:Ht.
    + (* half-way *)
      pose proof (proj1 Htie eq_refl) as Hhalf.
      assert (HT3 : (200 * Dd = 2 * RN - N)%R).
      { unfold RN, Dd, N. replace 200%R with (IZR 200) by done.
        replace 2%R with (IZR 2) by done.
        rewrite <- !mult_IZR, <- minus_IZR. f_equal. lia. }
      assert (Hlow : (RN - 3 * N / 2 <= Pn)%R) by lra.
      destruct (Rle_dec ((2 * IZR r - 1) / 2) Pv) as [Hge|Hlt].
      * left. apply Math_round_nearest; [done|lia|]. by split.
      * right. apply Math_round_nearest; [done|lia|].
        fold Pv. rewrite minus_IZR. split.
        -- apply (Rmult_le_reg_r N); [lra|]. unfold Pn, RN in Hlow. lra.
        -- lra.
    + (* off the half-way points *)
      assert (HT4 : (2 * RN - N + 1 <= 200 * Dd)%R).
      { unfold RN, Dd, N. replace 200%R with (IZR 200) by done.
        replace 2%R with (IZR 2) by done. replace 1%R with (IZR 1) by done.
        rewrite <- !mult_IZR, <- minus_IZR, <- plus_IZR. apply IZR_le.
        assert (200 * Z.pos pd <> (2 * r - 1) * Z.pos pn).
        { intros Hmid. apply Htie in Hmid. discriminate. }
        lia. }
      assert (Hlow : (RN - N / 2 <= Pn)%R) by lra.
      apply Math_round_nearest; [done|lia|]. fold Pv. split; [|done].
      apply (Rmult_le_reg_r N); [lra|]. unfold Pn, RN in Hlow. lra.
Qed.

End Binary64.

Lemma rate_exact_upto_correct (bound done total : nat) :
  rate_exact_upto bound = true ->
  (0 < total <= bound)%nat -> (done <= total)%nat ->
  rate_of done total = Num.of_Z (rounded_percentage done total).
Proof.
  unfold rate_exact_upto. rewrite forallb_forall.
  intros H Ht Hd.
  assert (Hin : In total (seq 1 bound)) by (apply in_seq; lia).
  specialize (H total Hin). rewrite forallb_forall in H.
  eapply bool_decide_eq_true_1, H. apply in_seq. lia.
Qed.

(** The lists of fewer than forty tasks, by evaluation of the binary64
    operations. *)
Lemma rate_exact_below_40 : rate_exact_upto 39 = true.
Proof. vm_compute. reflexivity. Qed.

Lemma rate_of_small (done total : nat) :
  (0 < total < 40)%nat -> (done <= total)%nat ->
  rate_of done total = Num.of_Z (rounded_percentage done total).
Proof.
  intros Ht Hd.
  apply (rate_exact_upto_correct 39); [apply rate_exact_below_40|lia|done].
Qed.

(** C7, as the code has it.  For tasks whose statuses are among the four
    of the enumeration, the four counts add up to the number of tasks.
    The completion rate of the empty list is exactly 0, the division
    being guarded.  For a list that is not empty, and shorter than 2^32
    as every JavaScript array is, the rate is the percentage
    [100 * done / total] rounded to the nearest integer whenever that
    percentage is not exactly halfway between two integers; at a halfway
    point it is that integer or the one below.  For fewer than 40 tasks
    it is the rounded percentage also at the halfway points. *)
Theorem dashboard_figures (tasks : list Task) :
  Forall (fun t => is_TaskStatus (status t)) tasks ->
  let done := count_done (statusCounts tasks) in
  let total := totalTasks tasks in
  status_total (statusCounts tasks) = total
  /\ (tasks = [] -> completionRate tasks = Num.zero)
  /\ (tasks <> [] -> Z.of_nat total < 2 ^ 32 ->
      (is_tie done total = false ->
         completionRate tasks = Num.of_Z (rounded_percentage done total))
      /\ (is_tie done total = true ->
            completionRate tasks = Num.of_Z (rounded_percentage done total)
            \/ completionRate tasks
               = Num.of_Z (rounded_percentage done total - 1)))
  /\ (tasks <> [] -> (total < 40)%nat ->
      completionRate tasks = Num.of_Z (rounded_percentage done total)).
Proof.
  intros Hvalid done total. split; [by apply status_counts_partition|].
  split; [by intros ->|].
  assert (Hrate : tasks <> [] -> completionRate tasks = rate_of done total).
  { intros Hne. unfold completionRate.
    destruct tasks as [|t tasks]; [done|]. reflexivity. }
  assert (Hpos : tasks <> [] -> (0 < total)%nat).
  { intros Hne. destruct tasks; [done|]. unfold total, totalTasks. simpl. lia. }
  split.
  - intros Hne Hlen. rewrite (Hrate Hne).
    pose proof (Binary64.rate_of_rounds done total (Hpos Hne)
                  (count_done_le tasks) Hlen) as Hround.
    cbv zeta in Hround.
    split; intros Htie; by rewrite Htie in Hround.
  - intros Hne Hlt. rewrite (Hrate Hne). apply rate_of_small.
    + split; [by apply Hpos|done].
    + apply count_done_le.
Qed.

(** Three tasks, one of them done: 33 percent. *)
Lemma dashboard_figures_witness :
  let tasks := [done_task; open_task; open_task] in
  Forall (fun t => is_TaskStatus (status t)) tasks
  /\ status_total (statusCounts tasks) = 3%nat
  /\ completionRate tasks = Num.of_Z 33.
Proof.
  intros tasks.
  assert (Hvalid : Forall (fun t => is_TaskStatus (status t)) tasks).
  { repeat constructor; [by exists StDone|by exists StTodo..]. }
  destruct (dashboard_figures tasks Hvalid) as (Hsum & _ & Hrate & _).
  split; [exact Hvalid|]. split; [exact Hsum|].
  destruct Hrate as [Hoff _]; [discriminate|done|].
  rewrite Hoff; reflexivity.
Defined.

(** C7 as the specification words it fails at forty tasks of which
    twenty-three are done: [23 / 40] is not a binary fraction, the
    product with 100 comes out just below 57.5, and the dashboard shows
    57 where the percentage 57.5 rounds to 58 (under any rule for
    ties). *)
Lemma completion_rate_23_of_40 : ~ dashboard_as_specified.
Proof.
  intros H.
  assert (Hvalid : Forall (fun t => is_TaskStatus (status t)) forty_tasks).
  { apply Forall_app. split; apply Forall_replicate;
      [by exists StDone|by exists StTodo]. }
  destruct (H forty_tasks Hvalid) as [_ Hrate].
  vm_compute in Hrate. discriminate Hrate.
Qed.

Example completion_rate_forty :
  completionRate forty_tasks = Num.of_Z 57
  /\ rounded_percentage 23 40 = 58.
Proof. split; vm_compute; reflexivity. Qed.

(** ** The status badge *)

(** C8.  For each of the four statuses [getStatusConfig] returns a
    configuration, so the badge renders and reads [icon] and [label] of
    a defined value; the labels are To Do, In Progress, Done and Blocked,
    and two statuses with the same label are the same status. *)
Theorem getStatusConfig_total :
  (forall s : TaskStatus,
     exists config,
       getStatusConfig (status_value s) = Some config
       /\ StatusBadge (status_value s)
          = Ok (icon config, label config, className config)
       /\ label config = match s with
                         | StTodo => "To Do"
                         | StInProgress => "In Progress"
                         | StDone => "Done"
                         | StBlocked => "Blocked"
                         end)
  /\ (forall (s1 s2 : TaskStatus) (c1 c2 : StatusConfig),
        getStatusConfig (status_value s1) = Some c1 ->
        getStatusConfig (status_value s2) = Some c2 ->
        label c1 = label c2 -> s1 = s2).
Proof.
  split.
  - intros []; eexists; repeat split; reflexivity.
  - intros [] [] c1 c2 [= <-] [= <-]; simpl; intros Hl;
      first [reflexivity | discriminate Hl].
Qed.

(** A status outside the enumeration has no configuration. *)
Example getStatusConfig_unknown :
  getStatusConfig "archived" = None.
Proof. reflexivity. Qed.

(** ** Conversion between todos and tasks *)

(** C9.  Converting a todo to a task and the task back to a creation
    payload gives back the title, status, priority, start date, end date
    and category of the todo; the description comes back as it was when
    it was a string, and as the empty string when it was [null]. *)
Theorem todo_task_round_trip (t : Todo) :
  let c := taskToTodoCreate (task_data (todoToTask t)) in
  tc_title c = todo_title t
  /\ tc_status c = Some (todo_status t)
  /\ tc_priority c = Some (todo_priority t)
  /\ tc_start_date c = Some (start_date t)
  /\ tc_end_date c = Some (end_date t)
  /\ tc_category c = Some (todo_category t)
  /\ tc_description c = Some (match todo_description t with
                              | Some d => d
                              | None => ""
                              end)
  /\ tc_completed c = None.
Proof.
  simpl. repeat split. unfold or_empty.
  destruct (todo_description t) as [d|]; simpl; [|done].
  unfold truthy_string. by destruct (bool_decide_reflect (d = "")) as [->|].
Qed.

(** ** The task form *)

Lemma validate_verdict (d : TaskData) :
  snd (validate d)
  = truthy_string (js_trim (td_title d))
    && truthy_string (js_trim (td_category d))
    && truthy_string (td_startDate d)
    && truthy_string (td_endDate d)
    && negb (js_string_gt (td_startDate d) (td_endDate d)).
Proof.
  unfold validate.
  destruct (truthy_string (js_trim (td_title d))),
           (truthy_string (js_trim (td_category d))),
           (truthy_string (td_startDate d)),
           (truthy_string (td_endDate d)),
           (js_string_gt (td_startDate d) (td_endDate d));
    vm_compute; reflexivity.
Qed.

Lemma truthy_string_true (s : string) : truthy_string s = true <-> s <> "".
Proof.
  unfold truthy_string. rewrite negb_true_iff. apply bool_decide_eq_false.
Qed.

Lemma js_string_gt_leb (a b : string) :
  negb (js_string_gt a b) = String.leb a b.
Proof.
  unfold js_string_gt, String.ltb, String.leb.
  rewrite (String.compare_antisym a b).
  by destruct (String.compare b a).
Qed.

Lemma js_string_gt_nonempty (a b : string) :
  js_string_gt a b = true -> a <> "".
Proof.
  unfold js_string_gt, String.ltb. intros H ->. by destruct b.
Qed.

Lemma validate_endDate_error (d : TaskData) :
  js_string_gt (td_startDate d) (td_endDate d) = true ->
  is_Some (fst (validate d) !! "endDate").
Proof.
  intros Hgt. pose proof (js_string_gt_nonempty _ _ Hgt) as Hs.
  apply truthy_string_true in Hs.
  unfold validate. rewrite Hgt, Hs.
  destruct (truthy_string (js_trim (td_title d))),
           (truthy_string (js_trim (td_category d))),
           (truthy_string (td_endDate d));
    vm_compute; eauto.
Qed.

(** C6.  [handleSubmit] calls [onSave], with the form data, exactly when
    [validate] passes, that is when the trimmed title and the trimmed
    category are not empty, both dates are not empty, and the start date
    is at most the end date as strings.  A start date strictly after the
    end date is rejected with an error on [endDate] and nothing is saved;
    equal dates pass. *)
Theorem handleSubmit_saves_iff_valid (st : TaskFormState) :
  let d := formData st in
  (snd (handleSubmit st) = Some d <-> snd (validate d) = true)
  /\ (snd (handleSubmit st) = Some d <->
        js_trim (td_title d) <> ""
        /\ js_trim (td_category d) <> ""
        /\ td_startDate d <> ""
        /\ td_endDate d <> ""
        /\ String.leb (td_startDate d) (td_endDate d) = true)
  /\ (snd (handleSubmit st) = Some d \/ snd (handleSubmit st) = None)
  /\ (js_string_gt (td_startDate d) (td_endDate d) = true ->
        snd (handleSubmit st) = None
        /\ is_Some (errors (fst (handleSubmit st)) !! "endDate"))
  /\ (td_startDate d = td_endDate d ->
        js_trim (td_title d) <> "" -> js_trim (td_category d) <> "" ->
        td_startDate d <> "" ->
        snd (handleSubmit st) = Some d).
Proof.
  intros d.
  assert (Hsubmit : handleSubmit st
            = (MkTaskFormState d (fst (validate d)),
               if snd (validate d) then Some d else None)).
  { unfold handleSubmit. fold d. by destruct (validate d) as [e []]. }
  assert (Hvalid : snd (handleSubmit st) = Some d <-> snd (validate d) = true).
  { rewrite Hsubmit. cbn [snd]. destruct (snd (validate d)); split; done. }
  assert (Hcond : snd (validate d) = true <->
            js_trim (td_title d) <> ""
            /\ js_trim (td_category d) <> ""
            /\ td_startDate d <> ""
            /\ td_endDate d <> ""
            /\ String.leb (td_startDate d) (td_endDate d) = true).
  { rewrite validate_verdict, !andb_true_iff, js_string_gt_leb,
      !truthy_string_true. tauto. }
  split; [exact Hvalid|]. split; [by rewrite Hvalid|].
  split; [rewrite Hsubmit; cbn [snd]; destruct (snd (validate d)); auto|].
  split.
  - intros Hgt. rewrite Hsubmit. cbn [snd fst errors]. split.
    + rewrite validate_verdict, Hgt. cbn [negb]. by rewrite andb_false_r.
    + by apply validate_endDate_error.
  - intros Heq Ht Hc Hs. apply Hvalid, Hcond.
    repeat split; try done; [by rewrite <- Heq|].
    rewrite <- Heq. by destruct (String.leb_total (td_startDate d) (td_startDate d)).
Qed.

(** The sample form passes; the same form with the two dates swapped is
    rejected with an error on the end date. *)
Lemma handleSubmit_saves_iff_valid_witness :
  let good := MkTaskFormState sample_form ∅ in
  let bad := MkTaskFormState
               (MkTaskData "Write report" "" "todo" "medium"
                           "2024-03-05" "2024-03-01" "Work") ∅ in
  snd (validate sample_form) = true
  /\ snd (handleSubmit good) = Some sample_form
  /\ js_string_gt "2024-03-05" "2024-03-01" = true
  /\ snd (handleSubmit bad) = None
  /\ is_Some (errors (fst (handleSubmit bad)) !! "endDate").
Proof.
  intros good bad.
  destruct (handleSubmit_saves_iff_valid good) as (Hvalid & _).
  destruct (handleSubmit_saves_iff_valid bad) as (_ & _ & _ & Hgt & _).
  split; [reflexivity|]. split; [apply Hvalid; reflexivity|].
  split; [reflexivity|]. exact (Hgt eq_refl).
Defined.

(** * Further properties *)

(** ** More on the API helper *)

Section MoreApiFacts.

Context {server : Type} (serve : server -> request -> server * fetch_outcome).

Implicit Types (w : @world server) (endpoint : string) (options : RequestInit).

Lemma expect_run {T} (read : json -> option T) (j : json) w :
  expect read j w
  = (w, match read j with
        | Some t => Ok t
        | None => Throw (TypeError "response does not fit the declared interface")
        end).
Proof. unfold expect. by destruct (read j). Qed.

Lemma apiRequest_frame w endpoint options :
  browser_untouched w (fst (apiRequest serve endpoint options w)).
Proof. rewrite apiRequest_run. by repeat split. Qed.

Lemma apiRequest_calls w endpoint options :
  calls_between w (fst (apiRequest serve endpoint options w))
    [(init_method options, API_BASE_URL +:+ endpoint)].
Proof. rewrite apiRequest_run. simpl. eexists. split; reflexivity. Qed.

Lemma request_headers_other (token : option string) options (k : string) :
  k <> "Authorization" ->
  request_headers token options !! k
  = match init_headers options ≫= (fun h => h !! k) with
    | Some v => Some v
    | None => if bool_decide (k = "Content-Type")
              then Some "application/json" else None
    end.
Proof.
  intros Hk.
  assert (Hbase : (default (∅ : gmap string string) (init_headers options)
                   ∪ {["Content-Type" := "application/json"]}) !! k
                  = match init_headers options ≫= (fun h => h !! k) with
                    | Some v => Some v
                    | None => if bool_decide (k = "Content-Type")
                              then Some "application/json" else None
                    end).
  { rewrite lookup_union, caller_header.
    destruct (init_headers options ≫= (fun h => h !! k)) as [v|]; simpl.
    - by destruct (_ !! k).
    - case_bool_decide as Hct.
      + subst k. by rewrite lookup_singleton_eq.
      + by rewrite lookup_singleton_ne. }
  unfold request_headers. destruct token as [t|]; [|exact Hbase].
  destruct (truthy_string t); [|exact Hbase].
  by rewrite lookup_insert_ne.
Qed.

(** X1.  [apiRequest] hands the caller's method and body to [fetch]
    unchanged and sends to [API_BASE_URL + endpoint].  Apart from
    [Authorization], every header the caller supplied goes out as
    supplied, [Content-Type] is [application/json] unless the caller set
    its own, and no other header is added. *)
Theorem apiRequest_passes_options w endpoint options :
  exists req,
    sent (fst (apiRequest serve endpoint options w)) = (sent w ++ [req])%list
    /\ url req = API_BASE_URL +:+ endpoint
    /\ method req = init_method options
    /\ body req = init_body options
    /\ (forall k v, init_headers options = Some v -> k <> "Authorization" ->
          is_Some (v !! k) -> headers req !! k = v !! k)
    /\ (forall k, k <> "Authorization" ->
          init_headers options ≫= (fun h => h !! k) = None ->
          headers req !! k = if bool_decide (k = "Content-Type")
                             then Some "application/json" else None).
Proof.
  rewrite apiRequest_run. simpl. eexists. split; [reflexivity|]. simpl.
  repeat split.
  - intros k v Hv Hk [x Hx]. rewrite request_headers_other by done.
    rewrite Hv. simpl. by rewrite Hx.
  - intros k Hk Hnone. rewrite request_headers_other by done.
    by rewrite Hnone.
Qed.

(** X2.  [apiRequest] returns a value only for a response with a 2xx
    status whose body is JSON, and the value is that body.  A 2xx
    response whose body is not JSON (an empty 204, say) makes it throw a
    [SyntaxError].  Whatever happens, it leaves local storage, the
    console and the alerts alone. *)
Theorem apiRequest_value_iff w endpoint options :
  let run := apiRequest serve endpoint options w in
  browser_untouched w (fst run)
  /\ exists req,
       sent (fst run) = (sent w ++ [req])%list
       /\ (forall j, snd run = Ok j <->
             exists r, snd (serve (backend w) req) = Responded r
                       /\ ok r = true /\ payload r = Some j)
       /\ (forall r, snd (serve (backend w) req) = Responded r ->
             ok r = true -> payload r = None ->
             exists e, snd run = Throw e /\ err_name e = "SyntaxError").
Proof.
  intros run. split; [apply apiRequest_frame|].
  unfold run. rewrite apiRequest_run. simpl. eexists. split; [reflexivity|].
  split.
  - intros j. split.
    + intros H. by apply settle_Ok in H.
    + intros (r & -> & Hok & Hj). simpl. by rewrite Hok, Hj.
  - intros r -> Hok Hnone. simpl. rewrite Hok, Hnone. by eexists.
Qed.

End MoreApiFacts.

(** ** Signing in, start-up and refresh *)

Section MoreAuthFacts.

Context {server : Type} (serve : server -> request -> server * fetch_outcome).

Implicit Types (w : @world server) (st : AuthState).

(** How a call that posts credentials and stores the token runs. *)
Lemma token_call_run (endpoint : string) (payload_json : json) w :
  ((apiRequest serve endpoint (MkRequestInit (Some "POST") (Some payload_json) None)
      ≫= expect as_TokenResponse)
     ≫= (fun response => _ ← setToken (access_token response); mret response)) w
  = let run := apiRequest serve endpoint
                 (MkRequestInit (Some "POST") (Some payload_json) None) w in
    match snd run with
    | Ok j =>
        match as_TokenResponse j with
        | Some response =>
            (set_localStorage (insert "auth_token" (access_token response)) (fst run),
             Ok response)
        | None =>
            (fst run,
             Throw (TypeError "response does not fit the declared interface"))
        end
    | Throw e => (fst run, Throw e)
    end.
Proof.
  unfold mbind, M_bind.
  destruct (apiRequest _ _ _ w) as [w1 [j|e]]; simpl; [|done].
  rewrite expect_run. by destruct (as_TokenResponse j).
Qed.

Lemma token_call_failure (endpoint : string) (payload_json : json) w w1
  (e : error) :
  ((apiRequest serve endpoint (MkRequestInit (Some "POST") (Some payload_json) None)
      ≫= expect as_TokenResponse)
     ≫= (fun response => _ ← setToken (access_token response); mret response)) w
  = (w1, Throw e) ->
  browser_untouched w w1
  /\ calls_between w w1 [(Some "POST", API_BASE_URL +:+ endpoint)].
Proof.
  rewrite token_call_run.
  pose proof (apiRequest_frame serve w endpoint
                (MkRequestInit (Some "POST") (Some payload_json) None)) as Hf.
  pose proof (apiRequest_calls serve w endpoint
                (MkRequestInit (Some "POST") (Some payload_json) None)) as Hc.
  destruct (apiRequest _ _ _ w) as [w2 [j|e2]]; simpl in *.
  - destruct (as_TokenResponse j); [done|]. by intros [= <- _].
  - by intros [= <- _].
Qed.

(** X3.  A login or a registration that fails signs nobody in: the error
    of the API call is rethrown as it is, local storage is what it was
    (no token is stored or removed), one line goes to the console, and
    the one request sent is the POST of the credentials. *)
Theorem failed_sign_in_stores_nothing w w' st (e : error) :
  (forall credentials,
     AuthContext_login serve st credentials w = (w', Throw e) ->
     localStorage w' = localStorage w
     /\ getToken w' = (w', Ok (localStorage w !! "auth_token"))
     /\ console w' = (console w ++ ["Login failed: " +:+ err_message e])%list
     /\ calls_between w w' [(Some "POST", "/api/auth/login")]
     /\ exists w1, AuthAPI_login serve credentials w = (w1, Throw e))
  /\ (forall userData,
        AuthContext_register serve st userData w = (w', Throw e) ->
        localStorage w' = localStorage w
        /\ getToken w' = (w', Ok (localStorage w !! "auth_token"))
        /\ console w' = (console w ++ ["Registration failed: " +:+ err_message e])%list
        /\ calls_between w w' [(Some "POST", "/api/auth/register")]
        /\ exists w1, AuthAPI_register serve userData w = (w1, Throw e)).
Proof.
  split.
  - intros credentials. unfold AuthContext_login, try_catch, mbind, M_bind at 1.
    destruct (AuthAPI_login serve credentials w) as [w1 [r|e1]] eqn:Hapi; [done|].
    simpl. intros [= <- <-].
    apply token_call_failure in Hapi as [(Hls & Hco & _) Hcalls]. simpl.
    repeat split; try done.
    + unfold getToken. simpl. by rewrite Hls.
    + by rewrite Hco.
    + by exists w1.
  - intros userData. unfold AuthContext_register, try_catch, mbind, M_bind at 1.
    destruct (AuthAPI_register serve userData w) as [w1 [r|e1]] eqn:Hapi; [done|].
    simpl. intros [= <- <-].
    apply token_call_failure in Hapi as [(Hls & Hco & _) Hcalls]. simpl.
    repeat split; try done.
    + unfold getToken. simpl. by rewrite Hls.
    + by rewrite Hco.
    + by exists w1.
Qed.


Lemma getCurrentUser_run w :
  AuthAPI_getCurrentUser_body serve w = apiRequest serve "/auth/me" no_options w.
Proof. reflexivity. Qed.

Lemma initAuth_run w (st : ProviderState) :
  initAuth serve st w
  = if truthy_opt_string (localStorage w !! "auth_token") then
      match apiRequest serve "/auth/me" no_options w with
      | (w1, Ok j) =>
          (w1, Ok (MkProviderState (Some j)
                     (Some (json_of_nullable_string (localStorage w !! "auth_token")))
                     false))
      | (w1, Throw e) =>
          (MkWorld (delete "auth_token" (localStorage w1)) (backend w1) (sent w1)
                   (console w1 ++ ["Failed to get user: " +:+ err_message e])
                   (alerts w1),
           Ok (MkProviderState (user_value st) (Some JNull) false))
      end
    else (w, Ok (MkProviderState (user_value st) (token_value st) false)).
Proof.
  unfold initAuth, getToken, mbind, M_bind at 1 2. simpl.
  destruct (truthy_opt_string _); [|done].
  unfold try_catch, mbind, M_bind at 1. rewrite getCurrentUser_run.
  by destruct (apiRequest serve "/auth/me" no_options w) as [w1 [u|e]].
Qed.

(** X5.  The start-up effect never throws and always ends with
    [loading] off.  Without a stored token (none, or the empty string)
    it sends nothing and changes nothing else.  With one it asks
    [/auth/me] once: when that is answered with a 2xx JSON body, the
    provider holds that body as the user, whatever its shape, with the
    stored token, and local storage is as it was; when the request
    fails, the token is removed from local storage and from the
    provider, nobody is authenticated, and the failure goes to the
    console. *)
Theorem initAuth_settles w (st : ProviderState) :
  exists w' (st' : ProviderState),
    initAuth serve st w = (w', Ok st')
    /\ provider_loading st' = false
    /\ (truthy_opt_string (localStorage w !! "auth_token") = false ->
          w' = w /\ user_value st' = user_value st
          /\ token_value st' = token_value st)
    /\ (forall token,
          localStorage w !! "auth_token" = Some token -> token <> "" ->
          calls_between w w' [(None, "/api/auth/me")]
          /\ (forall w1 j,
                apiRequest serve "/auth/me" no_options w = (w1, Ok j) ->
                w' = w1 /\ user_value st' = Some j
                /\ token_value st' = Some (JStr token)
                /\ localStorage w' = localStorage w)
          /\ (forall w1 e,
                apiRequest serve "/auth/me" no_options w = (w1, Throw e) ->
                user_value st' = user_value st
                /\ token_value st' = Some JNull
                /\ provider_isAuthenticated st' = false
                /\ localStorage w' = delete "auth_token" (localStorage w)
                /\ getToken w' = (w', Ok None)
                /\ console w' = (console w
                     ++ ["Failed to get user: " +:+ err_message e])%list)).
Proof.
  rewrite initAuth_run.
  destruct (truthy_opt_string _) eqn:Htok.
  - pose proof (apiRequest_frame serve w "/auth/me" no_options) as (Hls & Hco & _).
    pose proof (apiRequest_calls serve w "/auth/me" no_options) as Hc.
    destruct (apiRequest serve "/auth/me" no_options w) as [w0 [j0|e0]];
      simpl in *.
    + eexists _, _. split; [reflexivity|]. split; [reflexivity|].
      split; [done|]. intros token Htoken _. split; [done|].
      split; [|by intros w1 e]. intros w1 j [= <- <-]. simpl.
      by rewrite Htoken.
    + eexists _, _. split; [reflexivity|]. split; [reflexivity|].
      split; [done|]. intros token Htoken _. split.
      { destruct Hc as (new & ? & ?). by exists new. }
      split; [by intros w1 j|]. intros w1 e [= <- <-]. simpl.
      rewrite Hls, Hco. split; [done|]. split; [done|].
      split; [apply andb_false_r|]. split; [done|].
      split; [|done]. unfold getToken. simpl. by rewrite lookup_delete_eq.
  - eexists _, _. split; [reflexivity|]. split; [reflexivity|].
    split; [done|]. intros token Htoken Hne. rewrite Htoken in Htok.
    simpl in Htok. unfold truthy_string in Htok.
    by rewrite bool_decide_eq_false_2 in Htok.
Qed.

Lemma refreshUser_run w (st : ProviderState) :
  refreshUser serve st w
  = match apiRequest serve "/auth/me" no_options w with
    | (w1, Ok j) =>
        (w1, Ok (MkProviderState (Some j) (token_value st) (provider_loading st)))
    | (w1, Throw e) =>
        (MkWorld (delete "auth_token" (localStorage w1)) (backend w1) (sent w1)
                 (console w1 ++ ["Failed to refresh user: " +:+ err_message e])
                 (alerts w1),
         Ok (MkProviderState (Some JNull) (Some JNull) (provider_loading st)))
    end.
Proof.
  unfold refreshUser, try_catch, mbind, M_bind at 1. rewrite getCurrentUser_run.
  by destruct (apiRequest serve "/auth/me" no_options w) as [w1 [u|e]].
Qed.

(** X6.  [refreshUser] never throws and asks [/auth/me] once.  When that
    is answered with a 2xx JSON body, the body replaces the user,
    whatever its shape, and the token is kept; when the request fails,
    the user is logged out: user and token are cleared and the stored
    token is removed. *)
Theorem refreshUser_settles w (st : ProviderState) :
  exists w' (st' : ProviderState),
    refreshUser serve st w = (w', Ok st')
    /\ calls_between w w' [(None, "/api/auth/me")]
    /\ (forall w1 j,
          apiRequest serve "/auth/me" no_options w = (w1, Ok j) ->
          w' = w1
          /\ st' = MkProviderState (Some j) (token_value st) (provider_loading st)
          /\ localStorage w' = localStorage w)
    /\ (forall w1 e,
          apiRequest serve "/auth/me" no_options w = (w1, Throw e) ->
          st' = MkProviderState (Some JNull) (Some JNull) (provider_loading st)
          /\ provider_isAuthenticated st' = false
          /\ localStorage w' = delete "auth_token" (localStorage w)
          /\ getToken w' = (w', Ok None)).
Proof.
  rewrite refreshUser_run.
  pose proof (apiRequest_frame serve w "/auth/me" no_options) as (Hls & Hco & _).
  pose proof (apiRequest_calls serve w "/auth/me" no_options) as Hc.
  destruct (apiRequest serve "/auth/me" no_options w) as [w0 [j0|e0]]; simpl in *.
  - eexists _, _. split; [reflexivity|]. split; [done|].
    split; [|by intros w1 e]. by intros w1 j [= <- <-].
  - eexists _, _. split; [reflexivity|]. split.
    { destruct Hc as (new & ? & ?). by exists new. }
    split; [by intros w1 j|]. intros w1 e [= <- <-]. simpl. rewrite Hls.
    do 3 (split; [done|]). unfold getToken. simpl. by rewrite lookup_delete_eq.
Qed.

End MoreAuthFacts.

(** ** Task ids and the task handlers *)

Lemma digit_cases (a : ascii) :
  is_digit a = true ->
  exists d, (d < 10)%N /\ a = pretty_N_char d.
Proof.
  intros H.
  destruct a as [[] [] [] [] [] [] [] []]; try discriminate H;
    first [ by exists 0%N | by exists 1%N | by exists 2%N | by exists 3%N
          | by exists 4%N | by exists 5%N | by exists 6%N | by exists 7%N
          | by exists 8%N | by exists 9%N ].
Qed.

Lemma small_cases (d : N) : (d < 10)%N ->
  (d = 0 \/ d = 1 \/ d = 2 \/ d = 3 \/ d = 4 \/ d = 5 \/ d = 6 \/ d = 7 \/ d = 8 \/ d = 9)%N.
Proof. lia. Qed.

Lemma radix_digits (s : string) :
  all_digits s = true ->
  match s with
  | String "0" (String "x" rest) | String "0" (String "X" rest) => (16, rest)
  | _ => (10, s)
  end = (10, s).
Proof.
  destruct s as [|a [|b r]]; [done| |].
  - intros _. by destruct a as [[] [] [] [] [] [] [] []].
  - simpl. intros [_ [Hb _]%andb_true_iff]%andb_true_iff.
    apply digit_cases in Hb as (d & Hd & ->).
    apply small_cases in Hd.
    destruct a as [[] [] [] [] [] [] [] []]; try reflexivity;
    repeat (destruct Hd as [->|Hd]; [reflexivity|]); by subst.
Qed.


Lemma parseInt_digit_first (a : ascii) (r : string) :
  is_digit a = true ->
  parseInt (String a r)
  = (let '(radix, s0) :=
       match String a r with
       | String "0" (String "x" rest) | String "0" (String "X" rest) => (16, rest)
       | _ => (10, String a r)
       end in
     (fun n => 1 * n) <$> parse_digits radix None s0).
Proof.
  intros Ha. apply digit_cases in Ha as (d & Hd & ->).
  apply small_cases in Hd.
  repeat (destruct Hd as [->|Hd]; [reflexivity|]). by subst.
Qed.

Lemma parseInt_minus (r : string) :
  parseInt (String "-" r)
  = (let '(radix, s0) :=
       match r with
       | String "0" (String "x" rest) | String "0" (String "X" rest) => (16, rest)
       | _ => (10, r)
       end in
     (fun n => -1 * n) <$> parse_digits radix None s0).
Proof. reflexivity. Qed.

Lemma parseInt_nonneg (s : string) :
  all_digits s = true -> parseInt s = parse_digits 10 None s.
Proof.
  destruct s as [|a r]; [done|].
  intros H. pose proof H as H'. simpl in H'.
  apply andb_true_iff in H' as [Ha _].
  rewrite parseInt_digit_first by done.
  rewrite (radix_digits _ H).
  by destruct (parse_digits 10 None (String a r)) as [[|n|n]|].
Qed.

Lemma parseInt_neg (s : string) :
  all_digits s = true ->
  parseInt (String "-" s) = Z.opp <$> parse_digits 10 None s.
Proof.
  intros H. rewrite parseInt_minus, (radix_digits _ H).
  by destruct (parse_digits 10 None s) as [[|n|n]|].
Qed.

Lemma digit_value_pretty_char (d : N) :
  (d < 10)%N -> digit_value 10 (pretty_N_char d) = Some (Z.of_N d).
Proof.
  intros Hd. apply small_cases in Hd.
  repeat (destruct Hd as [->|Hd]; [reflexivity|]). by subst.
Qed.

Lemma is_digit_pretty_char (d : N) : is_digit (pretty_N_char d) = true.
Proof.
  destruct d as [|p]; [done|].
  do 4 (destruct p as [p|p|]; try reflexivity).
Qed.

Lemma parse_digits_pretty_go (x : N) :
  (0 < x)%N -> forall s,
  parse_digits 10 None (pretty_N_go x s) = parse_digits 10 (Some (Z.of_N x)) s.
Proof.
  induction (N.lt_wf_0 x) as [x _ IH]. intros Hpos s.
  rewrite pretty_N_go_step by done.
  assert (Hmod : (x `mod` 10 < 10)%N) by (apply N.mod_lt; lia).
  assert (Hx : x = (10 * (x `div` 10) + x `mod` 10)%N) by (apply N.div_mod; lia).
  destruct (decide (x `div` 10 = 0)%N) as [Hz|Hnz].
  - rewrite Hz, pretty_N_go_0. simpl.
    rewrite digit_value_pretty_char by done. f_equal. f_equal. lia.
  - rewrite IH; [| apply N.div_lt; lia | lia].
    simpl. rewrite digit_value_pretty_char by done. f_equal. f_equal. lia.
Qed.

Lemma all_digits_pretty_go (x : N) (s : string) :
  all_digits s = true -> all_digits (pretty_N_go x s) = true.
Proof.
  revert s. induction (N.lt_wf_0 x) as [x _ IH]. intros s Hs.
  destruct (decide (x = 0)%N) as [->|Hx]; [by rewrite pretty_N_go_0|].
  rewrite pretty_N_go_step by lia. apply IH; [apply N.div_lt; lia|].
  simpl. by rewrite is_digit_pretty_char.
Qed.

Lemma parseInt_pretty (z : Z) : parseInt (pretty z) = Some z.
Proof.
  destruct z as [|p|p].
  - reflexivity.
  - change (pretty (Z.pos p)) with (pretty_N_go (N.pos p) "").
    rewrite parseInt_nonneg by (by apply all_digits_pretty_go).
    by rewrite parse_digits_pretty_go.
  - change (pretty (Z.neg p)) with (String "-" (pretty_N_go (N.pos p) "")).
    rewrite parseInt_neg by (by apply all_digits_pretty_go).
    by rewrite parse_digits_pretty_go.
Qed.

Section MoreTaskFacts.

Context {server : Type} (serve : server -> request -> server * fetch_outcome).

Implicit Types (w : @world server) (tasks : list Task).

Lemma api_expect_run {T} (endpoint : string) (options : RequestInit)
  (read : json -> option T) w :
  (apiRequest serve endpoint options ≫= expect read) w
  = let run := apiRequest serve endpoint options w in
    (fst run,
     match snd run with
     | Ok j => match read j with
               | Some t => Ok t
               | None => Throw (TypeError "response does not fit the declared interface")
               end
     | Throw e => Throw e
     end).
Proof.
  unfold mbind, M_bind. destruct (apiRequest _ _ _ w) as [w1 [j|e]]; simpl; [|done].
  by rewrite expect_run.
Qed.

Lemma api_void_run (endpoint : string) (options : RequestInit) w :
  (_ ← apiRequest serve endpoint options; mret ()) w
  = let run := apiRequest serve endpoint options w in
    (fst run, match snd run with Ok _ => Ok () | Throw e => Throw e end).
Proof.
  unfold mbind, M_bind. by destruct (apiRequest _ _ _ w) as [w1 [j|e]].
Qed.

Lemma deleteTodo_frame (n : option Z) w :
  browser_untouched w (fst (TodoAPI_deleteTodo serve n w))
  /\ calls_between w (fst (TodoAPI_deleteTodo serve n w))
       [(Some "DELETE", "/api/todos/" +:+ number_to_string n)].
Proof.
  unfold TodoAPI_deleteTodo. rewrite api_void_run. simpl.
  split; [apply apiRequest_frame|apply apiRequest_calls].
Qed.

Lemma updateTodo_frame (n : option Z) (u : TodoUpdate) w :
  browser_untouched w (fst (TodoAPI_updateTodo serve n u w))
  /\ calls_between w (fst (TodoAPI_updateTodo serve n u w))
       [(Some "PUT", "/api/todos/" +:+ number_to_string n)].
Proof.
  unfold TodoAPI_updateTodo. rewrite api_expect_run. simpl.
  split; [apply apiRequest_frame|apply apiRequest_calls].
Qed.

Lemma createTodo_frame (c : TodoCreate) w :
  browser_untouched w (fst (TodoAPI_createTodo serve c w))
  /\ calls_between w (fst (TodoAPI_createTodo serve c w))
       [(Some "POST", "/api/todos")].
Proof.
  unfold TodoAPI_createTodo. rewrite api_expect_run. simpl.
  split; [apply apiRequest_frame|apply apiRequest_calls].
Qed.

(** The world after a handler has reported a failure. *)
Lemma deleteTask_run w tasks (taskId : string) :
  deleteTask serve tasks taskId w
  = match TodoAPI_deleteTodo serve (parseInt taskId) w with
    | (w1, Ok _) => (w1, Ok (filter (fun task => id task <> taskId) tasks))
    | (w1, Throw e) =>
        (MkWorld (localStorage w1) (backend w1) (sent w1)
           (console w1 ++ ["Failed to delete task: " +:+ err_message e])
           (alerts w1 ++ ["Failed to delete task: " +:+ message_or e "Unknown error"]),
         Ok tasks)
    end.
Proof.
  unfold deleteTask, try_catch, mbind, M_bind at 1.
  by destruct (TodoAPI_deleteTodo _ _ w) as [w1 [[]|e]].
Qed.

Lemma updateTask_run w tasks (taskId : string) (updates : PartialTask) :
  updateTask serve tasks taskId updates w
  = match TodoAPI_updateTodo serve (parseInt taskId) (taskToTodoUpdate updates) w with
    | (w1, Ok updatedTodo) =>
        (w1, Ok (List.map (fun task => if bool_decide (id task = taskId)
                                       then todoToTask updatedTodo else task) tasks))
    | (w1, Throw e) =>
        (MkWorld (localStorage w1) (backend w1) (sent w1)
           (console w1 ++ ["Failed to update task: " +:+ err_message e])
           (alerts w1 ++ ["Failed to update task: " +:+ message_or e "Unknown error"]),
         Ok tasks)
    end.
Proof.
  unfold updateTask, try_catch, mbind, M_bind at 1.
  by destruct (TodoAPI_updateTodo _ _ _ w) as [w1 [t|e]].
Qed.

Lemma addTask_run w tasks (task : TaskData) :
  addTask serve tasks task w
  = match TodoAPI_createTodo serve (taskToTodoCreate task) w with
    | (w1, Ok newTodo) => (w1, Ok (tasks ++ [todoToTask newTodo])%list)
    | (w1, Throw e) =>
        (MkWorld (localStorage w1) (backend w1) (sent w1)
           (console w1 ++ ["Failed to create task: " +:+ err_message e])
           (alerts w1 ++ ["Failed to create task: " +:+ message_or e "Unknown error"]),
         Ok tasks)
    end.
Proof.
  unfold addTask, try_catch, mbind, M_bind at 1.
  by destruct (TodoAPI_createTodo _ _ w) as [w1 [t|e]].
Qed.

(** X7.  For a todo whose id is a safe integer (below 2^53 in absolute
    value), the id of the task made from it reads back as the id of the
    todo: [parseInt(todo.id.toString())] is [todo.id].  So deleting or
    updating such a task sends its one request to [/todos/<todo.id>], as
    a DELETE and as a PUT. *)
Theorem task_id_addresses_todo (todo : Todo) :
  safe_integer (todo_id todo) ->
  parseInt (id (todoToTask todo)) = Some (todo_id todo)
  /\ forall w tasks updates,
       calls_between w (fst (deleteTask serve tasks (id (todoToTask todo)) w))
         [(Some "DELETE", "/api/todos/" +:+ pretty (todo_id todo))]
       /\ calls_between w
            (fst (updateTask serve tasks (id (todoToTask todo)) updates w))
            [(Some "PUT", "/api/todos/" +:+ pretty (todo_id todo))].
Proof.
  intros _.
  assert (Hid : parseInt (id (todoToTask todo)) = Some (todo_id todo))
    by apply parseInt_pretty.
  split; [exact Hid|]. intros w tasks updates. split.
  - rewrite deleteTask_run, Hid.
    destruct (deleteTodo_frame (Some (todo_id todo)) w) as [_ Hc].
    by destruct (TodoAPI_deleteTodo _ _ w) as [w1 [[]|e]].
  - rewrite updateTask_run, Hid.
    destruct (updateTodo_frame (Some (todo_id todo)) (taskToTodoUpdate updates) w)
      as [_ Hc].
    by destruct (TodoAPI_updateTodo _ _ _ w) as [w1 [t|e]].
Qed.

(** X8.  The three task handlers never throw.  When the API call fails
    the list is returned as it was, the user gets one alert, [Failed to
    <verb> task: ] followed by the message of the error (or by [Unknown
    error] when the message is empty), the console gets one line, and
    local storage is not touched. *)
Theorem task_handlers_absorb_failures w tasks :
  (forall taskId,
     (exists tasks', snd (deleteTask serve tasks taskId w) = Ok tasks')
     /\ forall w1 e,
          TodoAPI_deleteTodo serve (parseInt taskId) w = (w1, Throw e) ->
          exists w', deleteTask serve tasks taskId w = (w', Ok tasks)
            /\ alerts w' = (alerts w ++ ["Failed to delete task: "
                                         +:+ message_or e "Unknown error"])%list
            /\ console w' = (console w ++ ["Failed to delete task: "
                                           +:+ err_message e])%list
            /\ localStorage w' = localStorage w /\ sent w' = sent w1)
  /\ (forall taskId updates,
        (exists tasks', snd (updateTask serve tasks taskId updates w) = Ok tasks')
        /\ forall w1 e,
             TodoAPI_updateTodo serve (parseInt taskId) (taskToTodoUpdate updates) w
             = (w1, Throw e) ->
             exists w', updateTask serve tasks taskId updates w = (w', Ok tasks)
               /\ alerts w' = (alerts w ++ ["Failed to update task: "
                                            +:+ message_or e "Unknown error"])%list
               /\ console w' = (console w ++ ["Failed to update task: "
                                              +:+ err_message e])%list
               /\ localStorage w' = localStorage w /\ sent w' = sent w1)
  /\ (forall task,
        (exists tasks', snd (addTask serve tasks task w) = Ok tasks')
        /\ forall w1 e,
             TodoAPI_createTodo serve (taskToTodoCreate task) w = (w1, Throw e) ->
             exists w', addTask serve tasks task w = (w', Ok tasks)
               /\ alerts w' = (alerts w ++ ["Failed to create task: "
                                            +:+ message_or e "Unknown error"])%list
               /\ console w' = (console w ++ ["Failed to create task: "
                                              +:+ err_message e])%list
               /\ localStorage w' = localStorage w /\ sent w' = sent w1).
Proof.
  split; [|split].
  - intros taskId. rewrite deleteTask_run.
    destruct (deleteTodo_frame (parseInt taskId) w) as [(Hls & Hco & Hal) _].
    destruct (TodoAPI_deleteTodo _ _ w) as [w0 [[]|e0]]; simpl in *.
    + split; [by eexists|]. by intros w1 e.
    + split; [by eexists|]. intros w1 e [= <- <-]. eexists. split; [reflexivity|].
      simpl. by rewrite Hls, Hco, Hal.
  - intros taskId updates. rewrite updateTask_run.
    destruct (updateTodo_frame (parseInt taskId) (taskToTodoUpdate updates) w)
      as [(Hls & Hco & Hal) _].
    destruct (TodoAPI_updateTodo _ _ _ w) as [w0 [t|e0]]; simpl in *.
    + split; [by eexists|]. by intros w1 e.
    + split; [by eexists|]. intros w1 e [= <- <-]. eexists. split; [reflexivity|].
      simpl. by rewrite Hls, Hco, Hal.
  - intros task. rewrite addTask_run.
    destruct (createTodo_frame (taskToTodoCreate task) w) as [(Hls & Hco & Hal) _].
    destruct (TodoAPI_createTodo _ _ w) as [w0 [t|e0]]; simpl in *.
    + split; [by eexists|]. by intros w1 e.
    + split; [by eexists|]. intros w1 e [= <- <-]. eexists. split; [reflexivity|].
      simpl. by rewrite Hls, Hco, Hal.
Qed.

End MoreTaskFacts.

Section MoreTaskListFacts.

Context {server : Type} (serve : server -> request -> server * fetch_outcome).

Implicit Types (w : @world server) (tasks : list Task).

Lemma update_body_fields (updates : PartialTask) :
  let b := json_of_TodoUpdate (taskToTodoUpdate updates) in
  field b "title" = JStr <$> pt_title updates
  /\ field b "description" = JStr <$> pt_description updates
  /\ field b "status" = JStr <$> pt_status updates
  /\ field b "priority" = JStr <$> pt_priority updates
  /\ field b "start_date" = JStr <$> pt_startDate updates
  /\ field b "end_date" = JStr <$> pt_endDate updates
  /\ field b "category" = JStr <$> pt_category updates
  /\ field b "id" = None
  /\ field b "created_at" = None
  /\ field b "completed" = None.
Proof.
  destruct updates as [i t d s p sd ed c cat].
  destruct t, d, s, p, sd, ed, cat; repeat split; reflexivity.
Qed.

(** X9.  [updateTask] sends one PUT to the todo of the given id.  Its
    body has each of the seven fields, under its wire name, exactly when
    the update sets it, with the value set, and never an id, a creation
    date or a [completed] flag.  A status change from a card sends the
    body [{status}] and nothing else. *)
Theorem updateTask_sends_set_fields w tasks (taskId : string)
  (updates : PartialTask) :
  exists req b,
    sent (fst (updateTask serve tasks taskId updates w)) = (sent w ++ [req])%list
    /\ method req = Some "PUT"
    /\ url req = "/api/todos/" +:+ number_to_string (parseInt taskId)
    /\ body req = Some b
    /\ field b "title" = JStr <$> pt_title updates
    /\ field b "description" = JStr <$> pt_description updates
    /\ field b "status" = JStr <$> pt_status updates
    /\ field b "priority" = JStr <$> pt_priority updates
    /\ field b "start_date" = JStr <$> pt_startDate updates
    /\ field b "end_date" = JStr <$> pt_endDate updates
    /\ field b "category" = JStr <$> pt_category updates
    /\ field b "id" = None /\ field b "created_at" = None
    /\ field b "completed" = None
    /\ (forall status, exists req',
          sent (fst (handleStatusChange serve tasks taskId status w))
          = (sent w ++ [req'])%list
          /\ method req' = Some "PUT"
          /\ body req' = Some (JObj [("status", JStr status)])).
Proof.
  destruct (update_body_fields updates)
    as (H1 & H2 & H3 & H4 & H5 & H6 & H7 & H8 & H9 & H10).
  assert (Hsent : forall u, exists req,
            sent (fst (updateTask serve tasks taskId u w)) = (sent w ++ [req])%list
            /\ method req = Some "PUT"
            /\ url req = "/api/todos/" +:+ number_to_string (parseInt taskId)
            /\ body req = Some (json_of_TodoUpdate (taskToTodoUpdate u))).
  { intros u. rewrite updateTask_run. unfold TodoAPI_updateTodo.
    rewrite api_expect_run, apiRequest_run. simpl. eexists. split.
    { by destruct (settle _) as [j|e]; [destruct (as_Todo j)|]. }
    by repeat split. }
  destruct (Hsent updates) as (req & Hs & Hm & Hu & Hb).
  exists req, (json_of_TodoUpdate (taskToTodoUpdate updates)).
  repeat split; try done.
  intros status. destruct (Hsent (status_only status)) as (req' & ? & ? & _ & ?).
  by exists req'.
Qed.

(** X10.  When the POST of [addTask] succeeds the new task goes to the
    end of the list, carrying the id the server gave it, and the tasks
    that were there stay where they were.  The body sent is the form
    data under the wire names, with no id and no [completed] flag. *)
Theorem addTask_appends w w1 tasks (task : TaskData) (newTodo : Todo) :
  TodoAPI_createTodo serve (taskToTodoCreate task) w = (w1, Ok newTodo) ->
  addTask serve tasks task w = (w1, Ok (tasks ++ [todoToTask newTodo])%list)
  /\ (forall i t, tasks !! i = Some t ->
        (tasks ++ [todoToTask newTodo])%list !! i = Some t)
  /\ (tasks ++ [todoToTask newTodo])%list !! length tasks
     = Some (todoToTask newTodo)
  /\ id (todoToTask newTodo) = pretty (todo_id newTodo)
  /\ exists req b,
       sent w1 = (sent w ++ [req])%list
       /\ method req = Some "POST" /\ url req = "/api/todos"
       /\ body req = Some b
       /\ field b "title" = Some (JStr (td_title task))
       /\ field b "description" = Some (JStr (td_description task))
       /\ field b "status" = Some (JStr (td_status task))
       /\ field b "priority" = Some (JStr (td_priority task))
       /\ field b "start_date" = Some (JStr (td_startDate task))
       /\ field b "end_date" = Some (JStr (td_endDate task))
       /\ field b "category" = Some (JStr (td_category task))
       /\ field b "id" = None /\ field b "completed" = None.
Proof.
  intros Hapi. rewrite addTask_run, Hapi. split; [done|].
  split; [intros i t Hi; by apply lookup_app_l_Some|].
  split; [by rewrite list_lookup_middle|]. split; [done|].
  unfold TodoAPI_createTodo in Hapi.
  rewrite api_expect_run, apiRequest_run in Hapi. simpl in Hapi.
  injection Hapi as <- _. simpl. eexists _, _. split; [reflexivity|].
  simpl. repeat split; reflexivity.
Qed.

Lemma getTodos_frame (completed : option bool) w :
  browser_untouched w (fst (TodoAPI_getTodos serve completed w)).
Proof.
  unfold TodoAPI_getTodos. rewrite api_expect_run. apply apiRequest_frame.
Qed.

Lemma loadTasks_run w (auth : AuthState) tasks :
  loadTasks serve auth tasks w
  = if isAuthenticated auth then
      match TodoAPI_getTodos serve None w with
      | (w1, Ok todos) => (w1, Ok (List.map todoToTask todos))
      | (w1, Throw e) =>
          (MkWorld (localStorage w1) (backend w1) (sent w1)
                   (console w1 ++ ["Failed to load tasks: " +:+ err_message e])
                   (alerts w1),
           Ok tasks)
      end
    else (w, Ok []).
Proof.
  unfold loadTasks. destruct (isAuthenticated auth) eqn:Hauth; [|done].
  assert (Huser : bool_decide (is_Some (auth_user auth)) = true).
  { unfold isAuthenticated in Hauth. by apply andb_true_iff in Hauth as [? _]. }
  rewrite Huser. simpl. unfold try_catch, mbind, M_bind at 1.
  by destruct (TodoAPI_getTodos serve None w) as [w1 [todos|e]].
Qed.

(** X11.  [loadTasks] asks for nothing and empties the list when nobody
    is signed in.  For a signed-in user it sends one GET to [/todos] and
    does not throw.  When the answer is a list of todos, the list
    becomes their conversion, one task per todo and in the order
    received; when the request fails, the list is left as it was and
    local storage is untouched. *)
Theorem loadTasks_outcomes w (auth : AuthState) tasks :
  (isAuthenticated auth = false -> loadTasks serve auth tasks w = (w, Ok []))
  /\ (isAuthenticated auth = true ->
      (exists tasks', snd (loadTasks serve auth tasks w) = Ok tasks')
      /\ calls_between w (fst (loadTasks serve auth tasks w)) [(None, "/api/todos")]
      /\ (forall w1 j todos,
            apiRequest serve "/todos" no_options w = (w1, Ok j) ->
            as_list as_Todo j = Some todos ->
            loadTasks serve auth tasks w = (w1, Ok (List.map todoToTask todos))
            /\ length (List.map todoToTask todos) = length todos
            /\ forall i todo, todos !! i = Some todo ->
                 List.map todoToTask todos !! i = Some (todoToTask todo))
      /\ (forall w1 e,
            apiRequest serve "/todos" no_options w = (w1, Throw e) ->
            snd (loadTasks serve auth tasks w) = Ok tasks
            /\ localStorage (fst (loadTasks serve auth tasks w)) = localStorage w)).
Proof.
  rewrite loadTasks_run. split; [by intros ->|]. intros ->.
  unfold TodoAPI_getTodos. rewrite api_expect_run.
  change ("/todos" +:+ "") with "/todos".
  pose proof (apiRequest_frame serve w "/todos" no_options) as (Hls & _).
  pose proof (apiRequest_calls serve w "/todos" no_options) as Hc.
  destruct (apiRequest serve "/todos" no_options w) as [w0 [j0|e0]]; simpl in *.
  - destruct (as_list as_Todo j0) as [todos0|] eqn:Hfit; simpl.
    + split; [by eexists|]. split; [done|]. split; [|by intros w1 e].
      intros w1 j todos [= <- <-] Hj. rewrite Hfit in Hj. injection Hj as <-.
      split; [done|]. split; [apply length_map|].
      intros i todo Hi. by rewrite lookup_map, Hi.
    + split; [by eexists|]. split.
      { destruct Hc as (new & ? & ?). by exists new. }
      split; [|by intros w1 e].
      intros w1 j todos [= <- <-] Hj. by rewrite Hfit in Hj.
  - split; [by eexists|]. split.
    { destruct Hc as (new & ? & ?). by exists new. }
    split; [by intros w1 j todos|].
    intros w1 e [= <- <-]. by split.
Qed.

Lemma todo_id_unique (todos : list Todo) (t t' : Todo) :
  NoDup (List.map todo_id todos) -> In t todos -> In t' todos ->
  todo_id t' = todo_id t -> t' = t.
Proof.
  induction todos as [|x todos IH]; [done|].
  simpl. rewrite NoDup_cons. intros [Hx Hnd] [->|Ht] [->|Ht'] Heq; try done.
  - exfalso. apply Hx. rewrite <- Heq. apply list_elem_of_In.
    by apply in_map.
  - exfalso. apply Hx. rewrite Heq. apply list_elem_of_In. by apply in_map.
  - by apply IH.
Qed.

Lemma filter_out_one (todos : list Todo) (t : Todo) :
  NoDup (List.map todo_id todos) -> In t todos ->
  S (length (filter (fun task => id task <> id (todoToTask t))
                    (List.map todoToTask todos)))
  = length todos.
Proof.
  induction todos as [|x todos IH]; [done|].
  simpl. rewrite NoDup_cons. intros [Hx Hnd] Hin.
  rewrite filter_cons. destruct (decide (todo_id x = todo_id t)) as [Heq|Hne].
  - rewrite decide_False by (simpl; rewrite Heq; tauto).
    f_equal. clear IH Hin.
    assert (Hall : Forall (fun task => id task <> id (todoToTask t))
                     (List.map todoToTask todos)).
    { apply Forall_forall. intros task Htask.
      apply list_elem_of_In, in_map_iff in Htask as (t' & <- & Ht').
      simpl. intros Hp. apply (inj pretty) in Hp.
      apply Hx. rewrite Heq, <- Hp. apply list_elem_of_In. by apply in_map. }
    rewrite <- (length_map todoToTask todos). f_equal.
    induction Hall as [|y l Hy _ IHl]; [done|].
    rewrite filter_cons, decide_True by done. by rewrite IHl.
  - rewrite decide_True by (simpl; intros Hp; by apply (inj pretty) in Hp).
    simpl. f_equal. apply IH; [done|].
    destruct Hin as [->|]; [done|done].
Qed.

(** X12.  When the todos shown have pairwise distinct ids, all of them
    safe integers, and the DELETE to [/todos/<id>] succeeds, deleting
    the task of one of them removes exactly that one: the list gets one
    shorter, the deleted task is gone, and the task of every other todo
    is still there. *)
Theorem deleteTask_removes_exactly_one w w1 (todos : list Todo) (t : Todo) :
  Forall (fun t => safe_integer (todo_id t)) todos ->
  NoDup (List.map todo_id todos) ->
  In t todos ->
  TodoAPI_deleteTodo serve (Some (todo_id t)) w = (w1, Ok ()) ->
  exists tasks',
    deleteTask serve (List.map todoToTask todos) (id (todoToTask t)) w
    = (w1, Ok tasks')
    /\ S (length tasks') = length todos
    /\ ~ In (todoToTask t) tasks'
    /\ forall t', In t' todos -> t' <> t -> In (todoToTask t') tasks'.
Proof.
  intros _ Hnd Hin Hapi. rewrite deleteTask_run.
  change (parseInt (id (todoToTask t))) with (parseInt (pretty (todo_id t))).
  rewrite parseInt_pretty, Hapi.
  eexists. split; [reflexivity|]. split; [by apply filter_out_one|]. split.
  - rewrite <- list_elem_of_In, list_elem_of_filter. tauto.
  - intros t' Hin' Hne. apply list_elem_of_In, list_elem_of_filter. split.
    + simpl. intros Hp. apply (inj pretty) in Hp.
      apply Hne. by apply (todo_id_unique todos).
    + apply list_elem_of_In. by apply in_map.
Qed.

(** X13.  When the server answers a DELETE with a 2xx status and an
    empty body (a bare 204), [deleteTask] still reports a failure:
    [response.json()] rejects, the list keeps the task and the user gets
    the alert.  The one request has gone out and the server has taken
    its step. *)
Theorem deleteTask_empty_reply w tasks (taskId : string) :
  (forall req, method req = Some "DELETE" ->
     exists r, snd (serve (backend w) req) = Responded r
               /\ ok r = true /\ payload r = None) ->
  exists w' req msg,
    deleteTask serve tasks taskId w = (w', Ok tasks)
    /\ sent w' = (sent w ++ [req])%list
    /\ method req = Some "DELETE"
    /\ backend w' = fst (serve (backend w) req)
    /\ alerts w' = (alerts w ++ ["Failed to delete task: " +:+ msg])%list.
Proof.
  intros Hserve. rewrite deleteTask_run. unfold TodoAPI_deleteTodo.
  rewrite api_void_run, apiRequest_run. simpl.
  set (req := MkRequest _ _ _ _).
  destruct (Hserve req eq_refl) as (r & Hr & Hok & Hnone).
  rewrite Hr. simpl. rewrite Hok, Hnone. simpl.
  eexists _, req, _. repeat split; reflexivity.
Qed.

End MoreTaskListFacts.

(** ** The admin page: loading, toggling, deleting *)

Section MoreAdminFacts.

Context {server : Type} (serve : server -> request -> server * fetch_outcome).

Implicit Types (w : @world server) (st : AdminState).

Lemma message_or_nonempty (e : error) (fallback : string) :
  fallback <> "" -> message_or e fallback <> "".
Proof.
  intros Hf. unfold message_or.
  destruct (truthy_string (err_message e)) eqn:Ht; [|done].
  by apply truthy_string_true.
Qed.

Lemma admin_reads_frame w :
  let run := promise_all2 (AdminAPI_getAllUsers serve)
                          (AdminAPI_getSystemStats serve) w in
  browser_untouched w (fst run)
  /\ calls_between w (fst run)
       [(None, "/api/admin/users"); (None, "/api/admin/stats")].
Proof.
  unfold promise_all2, AdminAPI_getAllUsers, AdminAPI_getSystemStats.
  rewrite api_expect_run.
  pose proof (apiRequest_frame serve w "/admin/users" no_options) as (L1 & C1 & A1).
  pose proof (apiRequest_calls serve w "/admin/users" no_options) as (n1 & S1 & M1).
  destruct (apiRequest serve "/admin/users" no_options w) as [w1 r1]; simpl in *.
  pose proof (apiRequest_frame serve w1 "/admin/stats" no_options) as (L2 & C2 & A2).
  pose proof (apiRequest_calls serve w1 "/admin/stats" no_options) as (n2 & S2 & M2).
  destruct (apiRequest serve "/admin/stats" no_options w1) as [w2 r2]; simpl in *.
  split.
  - repeat split; congruence.
  - exists (n1 ++ n2)%list. split.
    + by rewrite S2, S1, app_assoc.
    + by rewrite map_app, M1, M2.
Qed.

Lemma loadData_run w st :
  loadData serve st w
  = match promise_all2 (AdminAPI_getAllUsers serve)
                       (AdminAPI_getSystemStats serve) w with
    | (w1, Ok data) =>
        (w1, Ok (MkAdminState (fst data) (Some (snd data)) false ""
                              (deletingUserId st)))
    | (w1, Throw e) =>
        (MkWorld (localStorage w1) (backend w1) (sent w1)
                 (console w1 ++ ["Failed to load admin data: " +:+ err_message e])
                 (alerts w1),
         Ok (MkAdminState (users st) (stats st) false
                          (message_or e "Failed to load admin data")
                          (deletingUserId st)))
    end.
Proof.
  unfold loadData, try_catch, mbind, M_bind at 1 2.
  by destruct (promise_all2 _ _ w) as [w1 [data|e]].
Qed.

(** [loadData] always returns, with the two reads sent. *)
Lemma loadData_ok w st :
  exists w' st',
    loadData serve st w = (w', Ok st')
    /\ isLoading st' = false
    /\ deletingUserId st' = deletingUserId st
    /\ localStorage w' = localStorage w
    /\ calls_between w w'
         [(None, "/api/admin/users"); (None, "/api/admin/stats")].
Proof.
  rewrite loadData_run.
  destruct (admin_reads_frame w) as [(Hls & _) Hc].
  destruct (promise_all2 _ _ w) as [w1 [[us s]|e]]; simpl in *.
  - eexists _, _. split; [reflexivity|]. simpl. by do 3 (split; [done|]).
  - eexists _, _. split; [reflexivity|]. simpl. do 3 (split; [done|]).
    destruct Hc as (new & ? & ?). by exists new.
Qed.


Lemma toggle_frame (userId : Z) w :
  browser_untouched w (fst (AdminAPI_toggleAdminRole serve userId w))
  /\ calls_between w (fst (AdminAPI_toggleAdminRole serve userId w))
       [(Some "PUT", "/api/admin/users/" +:+ pretty userId +:+ "/role")].
Proof.
  unfold AdminAPI_toggleAdminRole.
  split; [apply apiRequest_frame|apply apiRequest_calls].
Qed.

Lemma deleteUser_frame (userId : Z) w :
  browser_untouched w (fst (AdminAPI_deleteUser serve userId w))
  /\ calls_between w (fst (AdminAPI_deleteUser serve userId w))
       [(Some "DELETE", "/api/admin/users/" +:+ pretty userId)].
Proof.
  unfold AdminAPI_deleteUser. rewrite api_void_run. simpl.
  split; [apply apiRequest_frame|apply apiRequest_calls].
Qed.

Lemma calls_between_trans (w1 w2 w3 : @world server)
  (l1 l2 : list (option string * string)) :
  calls_between w1 w2 l1 -> calls_between w2 w3 l2 ->
  calls_between w1 w3 (l1 ++ l2).
Proof.
  intros (n1 & S1 & M1) (n2 & S2 & M2). exists (n1 ++ n2)%list. split.
  - by rewrite S2, S1, app_assoc.
  - by rewrite map_app, M1, M2.
Qed.

Lemma handleToggleAdmin_run w st (userId : Z) :
  handleToggleAdmin serve st userId w
  = match AdminAPI_toggleAdminRole serve userId w with
    | (w1, Ok _) => loadData serve st w1
    | (w1, Throw e) =>
        (MkWorld (localStorage w1) (backend w1) (sent w1)
                 (console w1 ++ ["Failed to toggle admin role: " +:+ err_message e])
                 (alerts w1),
         Ok (setError (message_or e "Failed to update user role") st))
    end.
Proof.
  unfold handleToggleAdmin, try_catch, mbind, M_bind at 1.
  destruct (AdminAPI_toggleAdminRole serve userId w) as [w1 [u|e]]; [|done].
  destruct (loadData_ok w1 st) as (w2 & st2 & -> & _). done.
Qed.

(** X15.  [handleToggleAdmin] never throws.  When the PUT fails nothing
    is reloaded: that request is the only one sent, the users shown stay
    as they are and a non-empty error text is set.  When it succeeds,
    whatever the body of the answer, that body is not used: the table
    changes only through the reload that follows, so three requests are
    sent in all. *)
Theorem handleToggleAdmin_outcomes w st (userId : Z) :
  exists w' st',
    handleToggleAdmin serve st userId w = (w', Ok st')
    /\ (forall w1 e,
          AdminAPI_toggleAdminRole serve userId w = (w1, Throw e) ->
          calls_between w w'
            [(Some "PUT", "/api/admin/users/" +:+ pretty userId +:+ "/role")]
          /\ users st' = users st /\ stats st' = stats st
          /\ isLoading st' = isLoading st
          /\ error_text st' = message_or e "Failed to update user role"
          /\ error_text st' <> "")
    /\ (forall w1 u,
          AdminAPI_toggleAdminRole serve userId w = (w1, Ok u) ->
          loadData serve st w1 = (w', Ok st')
          /\ calls_between w w'
               [(Some "PUT", "/api/admin/users/" +:+ pretty userId +:+ "/role");
                (None, "/api/admin/users"); (None, "/api/admin/stats")]).
Proof.
  rewrite handleToggleAdmin_run.
  destruct (toggle_frame userId w) as [_ Hc].
  destruct (AdminAPI_toggleAdminRole serve userId w) as [w0 [u0|e0]]; simpl in *.
  - destruct (loadData_ok w0 st) as (w2 & st2 & Hrun & _ & _ & _ & Hc2).
    exists w2, st2. split; [done|]. split; [by intros w1 e|].
    intros w1 u [= <- _]. split; [done|].
    by apply (calls_between_trans _ _ _ _ _ Hc Hc2).
  - eexists _, _. split; [reflexivity|]. split; [|by intros w1 u].
    intros w1 e [= <- <-]. simpl. split.
    { destruct Hc as (new & ? & ?). by exists new. }
    do 4 (split; [done|]). by apply message_or_nonempty.
Qed.

Lemma handleDeleteUser_run (window_confirm : string -> bool) w st (userId : Z) :
  handleDeleteUser serve window_confirm st userId w
  = match handleDeleteUser_awaiting window_confirm st userId with
    | None => (w, Ok st)
    | Some st1 =>
        match AdminAPI_deleteUser serve userId w with
        | (w1, Ok _) =>
            (fst (loadData serve st1 w1),
             match snd (loadData serve st1 w1) with
             | Ok st2 => Ok (setDeletingUserId None st2)
             | Throw e => Throw e
             end)
        | (w1, Throw e) =>
            (MkWorld (localStorage w1) (backend w1) (sent w1)
                     (console w1 ++ ["Failed to delete user: " +:+ err_message e])
                     (alerts w1),
             Ok (setDeletingUserId None
                   (setError (message_or e "Failed to delete user") st1)))
        end
    end.
Proof.
  unfold handleDeleteUser.
  destruct (handleDeleteUser_awaiting _ _ _) as [st1|]; [|done].
  unfold try_catch, mbind, M_bind at 1 2.
  destruct (AdminAPI_deleteUser serve userId w) as [w1 [[]|e]]; [|done].
  destruct (loadData_ok w1 st1) as (w2 & st2 & -> & _). done.
Qed.

Lemma find_user_none (us : list User) (userId : Z) :
  Forall (fun u => user_id u <> userId) us ->
  List.find (fun u => bool_decide (user_id u = userId)) us = None.
Proof.
  induction 1 as [|u us Hu _ IH]; [done|].
  simpl. by rewrite bool_decide_eq_false_2.
Qed.

(** X16.  [handleDeleteUser] sends nothing and changes nothing when the
    user is not in the list or when the confirmation dialog, which names
    the user, is declined.  Once confirmed it never throws and always
    ends with no deletion marked as in flight.  When the DELETE fails it
    is the only request sent, the users shown stay as they are and a
    non-empty error text is set; when it succeeds the table is reloaded,
    three requests in all. *)
Theorem handleDeleteUser_outcomes (window_confirm : string -> bool) w st
  (userId : Z) :
  (Forall (fun u => user_id u <> userId) (users st) ->
     handleDeleteUser serve window_confirm st userId w = (w, Ok st))
  /\ (forall u,
        List.find (fun u => bool_decide (user_id u = userId)) (users st) = Some u ->
        user_id u = userId
        /\ (window_confirm (confirm_text u) = false ->
              handleDeleteUser serve window_confirm st userId w = (w, Ok st))
        /\ (window_confirm (confirm_text u) = true ->
              exists w' st',
                handleDeleteUser serve window_confirm st userId w = (w', Ok st')
                /\ deletingUserId st' = None
                /\ (forall w1 e,
                      AdminAPI_deleteUser serve userId w = (w1, Throw e) ->
                      calls_between w w'
                        [(Some "DELETE", "/api/admin/users/" +:+ pretty userId)]
                      /\ users st' = users st
                      /\ error_text st' = message_or e "Failed to delete user"
                      /\ error_text st' <> "")
                /\ (forall w1,
                      AdminAPI_deleteUser serve userId w = (w1, Ok ()) ->
                      isLoading st' = false
                      /\ calls_between w w'
                           [(Some "DELETE", "/api/admin/users/" +:+ pretty userId);
                            (None, "/api/admin/users");
                            (None, "/api/admin/stats")]))).
Proof.
  rewrite handleDeleteUser_run. unfold handleDeleteUser_awaiting. split.
  - intros Hnone. by rewrite find_user_none.
  - intros u Hfind. rewrite Hfind.
    split.
    { apply find_some in Hfind as [_ Hu]. by apply bool_decide_eq_true in Hu. }
    split; [by intros ->|]. intros ->. simpl.
    destruct (deleteUser_frame userId w) as [_ Hc].
    destruct (AdminAPI_deleteUser serve userId w) as [w0 [[]|e0]]; simpl in *.
    + destruct (loadData_ok w0 (setDeletingUserId (Some userId) st))
        as (w2 & st2 & Hrun & Hload & _ & _ & Hc2).
      rewrite Hrun. simpl. eexists _, _. split; [reflexivity|].
      split; [done|]. split; [by intros w1 e|].
      intros w1 [= <-]. split; [done|].
      by apply (calls_between_trans _ _ _ _ _ Hc Hc2).
    + eexists _, _. split; [reflexivity|]. split; [done|].
      split; [|by intros w1]. intros w1 e [= <- <-]. simpl. split.
      { destruct Hc as (new & ? & ?). by exists new. }
      do 2 (split; [done|]). by apply message_or_nonempty.
Qed.

End MoreAdminFacts.

(** ** Searching and filtering the task list *)

Lemma includes_empty (s : string) : includes s "" = true.
Proof. by destruct s. Qed.

Lemma filter_sublist {A} (f : A -> bool) (l : list A) :
  sublist (List.filter f l) l.
Proof.
  induction l as [|x l IH]; simpl; [constructor|].
  destruct (f x); by constructor.
Qed.

Lemma filter_all {A} (f : A -> bool) (l : list A) :
  (forall x, f x = true) -> List.filter f l = l.
Proof.
  intros Hf. induction l as [|x l IH]; simpl; [done|]. by rewrite Hf, IH.
Qed.

(** X17.  The tasks shown on the tasks page are a selection of the
    tasks, in their order.  With a status or a priority chosen, every
    task shown has it.  With the filters cleared (no status, no
    priority, an empty search) all tasks are shown; so when the page
    offers to create a first task instead of clearing the filters, there
    are no tasks at all. *)
Theorem filteredTasks_selects (st : TasksPageState) (tasks : list Task) :
  sublist (filteredTasks st tasks) tasks
  /\ (statusFilter st <> "all" ->
        Forall (fun t => status t = statusFilter st) (filteredTasks st tasks))
  /\ (priorityFilter st <> "all" ->
        Forall (fun t => priority t = priorityFilter st) (filteredTasks st tasks))
  /\ filteredTasks (clearFilters st) tasks = tasks
  /\ (TasksPage st tasks = NoTasksFound false -> tasks = []).
Proof.
  assert (Hclear : forall st0, searchQuery st0 = "" -> statusFilter st0 = "all" ->
            priorityFilter st0 = "all" -> filteredTasks st0 tasks = tasks).
  { intros st0 Hq Hs Hp. apply filter_all. intros t.
    unfold matchesSearch, matchesStatus, matchesPriority.
    rewrite Hq, Hs, Hp. simpl. by rewrite includes_empty. }
  split; [apply filter_sublist|]. split; [|split; [|split]].
  - intros Hs. apply Forall_forall. intros t Ht.
    apply list_elem_of_In, filter_In in Ht as [_ Ht].
    apply andb_true_iff in Ht as [[_ Hm]%andb_true_iff _].
    unfold matchesStatus in Hm. rewrite bool_decide_eq_false_2 in Hm by done.
    by apply bool_decide_eq_true in Hm.
  - intros Hp. apply Forall_forall. intros t Ht.
    apply list_elem_of_In, filter_In in Ht as [_ Ht].
    apply andb_true_iff in Ht as [_ Hm].
    unfold matchesPriority in Hm. rewrite bool_decide_eq_false_2 in Hm by done.
    by apply bool_decide_eq_true in Hm.
  - by apply Hclear.
  - unfold TasksPage. destruct (filteredTasks st tasks) eqn:Hf; [|done].
    intros [= Hoffer].
    apply orb_false_iff in Hoffer as [[Hq Hs]%orb_false_iff Hp].
    rewrite <- Hf. symmetry. apply Hclear.
    + unfold truthy_string in Hq. apply negb_false_iff in Hq.
      by apply bool_decide_eq_true in Hq.
    + apply negb_false_iff in Hs. by apply bool_decide_eq_true in Hs.
    + apply negb_false_iff in Hp. by apply bool_decide_eq_true in Hp.
Qed.

(** ** The pie chart *)

(** X18.  The pie chart has a slice for exactly the statuses that occur,
    in the order To Do, In Progress, Done, Blocked, each with its count;
    the slices add up to the four counts, so, for tasks whose statuses
    are among the four, to the number of tasks, and the chart is empty
    only for the empty list. *)
Theorem pieData_slices (tasks : list Task) :
  Forall (fun item => (0 < pie_value item)%nat) (pieData tasks)
  /\ sublist (List.map pie_name (pieData tasks))
             ["To Do"; "In Progress"; "Done"; "Blocked"]
  /\ (forall item, In item (pieData tasks) ->
        (pie_name item = "To Do" /\ pie_value item = count_todo (statusCounts tasks))
        \/ (pie_name item = "In Progress"
            /\ pie_value item = count_in_progress (statusCounts tasks))
        \/ (pie_name item = "Done" /\ pie_value item = count_done (statusCounts tasks))
        \/ (pie_name item = "Blocked"
            /\ pie_value item = count_blocked (statusCounts tasks)))
  /\ list_sum (List.map pie_value (pieData tasks)) = status_total (statusCounts tasks)
  /\ (Forall (fun t => is_TaskStatus (status t)) tasks ->
        list_sum (List.map pie_value (pieData tasks)) = totalTasks tasks
        /\ (pieData tasks = [] <-> tasks = [])).
Proof.
  assert (Hsum : list_sum (List.map pie_value (pieData tasks))
                 = status_total (statusCounts tasks)).
  { unfold pieData, status_total.
    destruct (count_todo _), (count_in_progress _), (count_done _),
             (count_blocked _); simpl; lia. }
  split; [|split; [|split; [|split; [exact Hsum|]]]].
  - apply Forall_forall. intros item Hitem.
    apply list_elem_of_In, filter_In in Hitem as [_ H].
    by apply Nat.ltb_lt.
  - unfold pieData.
    destruct (count_todo _), (count_in_progress _), (count_done _),
             (count_blocked _); simpl; repeat constructor.
  - intros item Hitem. apply filter_In in Hitem as [Hin _].
    simpl in Hin. destruct Hin as [<-|[<-|[<-|[<-|[]]]]]; simpl; tauto.
  - intros Hvalid. pose proof (status_counts_partition tasks Hvalid) as Hpart.
    split; [by rewrite Hsum|]. split.
    + intros Hnil. rewrite Hnil in Hsum. simpl in Hsum.
      rewrite <- Hsum in Hpart. unfold totalTasks in Hpart.
      by destruct tasks.
    + by intros ->.
Qed.

(** ** The errors of the task form *)

(** X19.  [validate] reports the fields at fault and no other: [title]
    and [category] when blank, [startDate] when empty, and [endDate]
    when empty (it is required) or, both dates being there, when the
    start date comes after it. *)
Theorem validate_reports (d : TaskData) :
  let e := fst (validate d) in
  e !! "title" = (if truthy_string (js_trim (td_title d)) then None
                  else Some "Title is required")
  /\ e !! "category" = (if truthy_string (js_trim (td_category d)) then None
                        else Some "Category is required")
  /\ e !! "startDate" = (if truthy_string (td_startDate d) then None
                         else Some "Start date is required")
  /\ e !! "endDate" =
       (if negb (truthy_string (td_endDate d)) then Some "End date is required"
        else if truthy_string (td_startDate d)
                && js_string_gt (td_startDate d) (td_endDate d)
        then Some "End date must be after start date"
        else None)
  /\ forall k, is_Some (e !! k) ->
       k = "title" \/ k = "category" \/ k = "startDate" \/ k = "endDate".
Proof.
  unfold validate.
  destruct (truthy_string (js_trim (td_title d))),
           (truthy_string (js_trim (td_category d))),
           (truthy_string (td_startDate d)),
           (truthy_string (td_endDate d)),
           (js_string_gt (td_startDate d) (td_endDate d)); simpl;
    (do 4 (split; [reflexivity|]));
    intros k [v Hk];
    repeat (apply lookup_insert_Some in Hk as [[<- _]|[_ Hk]]; [tauto|]);
    by rewrite lookup_empty in Hk.
Qed.

(** ** The status badge outside the enumeration *)

(** X20.  The badge renders exactly for the four statuses.  For any
    other string, and the status of a task is whatever string the server
    sent, [getStatusConfig] returns [undefined] and the component throws
    a [TypeError] when it reads [config.icon]. *)
Theorem StatusBadge_renders_iff (s : string) :
  ((exists v, StatusBadge s = Ok v) <-> is_TaskStatus s)
  /\ (~ is_TaskStatus s ->
        getStatusConfig s = None
        /\ exists e, StatusBadge s = Throw e /\ err_name e = "TypeError").
Proof.
  assert (Hnone : ~ is_TaskStatus s -> getStatusConfig s = None).
  { intros Hs. unfold getStatusConfig.
    repeat case_bool_decide; try done; exfalso; apply Hs;
      [by exists StTodo|by exists StInProgress|by exists StDone
      |by exists StBlocked]. }
  split.
  - split.
    + intros [v Hv]. unfold StatusBadge, getStatusConfig in Hv.
      repeat case_bool_decide; try done;
        [by exists StTodo|by exists StInProgress|by exists StDone
        |by exists StBlocked].
    + intros [st ->]. destruct st; by eexists.
  - intros Hs. split; [by apply Hnone|].
    unfold StatusBadge. rewrite (Hnone Hs). by eexists.
Qed.

(** ** The pages *)

Section MorePageFacts.

Context {server : Type} (serve : server -> request -> server * fetch_outcome).

Implicit Types (w : @world server).

Lemma LoginPage_handleSubmit_run {A} (onLogin : string -> string -> @M server A)
  (st : LoginState) w :
  LoginPage_handleSubmit onLogin st w
  = if negb (truthy_string (js_trim (login_username st)))
       || negb (truthy_string (js_trim (login_password st)))
    then (w, Ok (MkLoginState (login_username st) (login_password st)
                   "Please fill in all fields" (login_isLoading st)
                   (showPassword st), None))
    else match onLogin (login_username st) (login_password st) w with
         | (w1, Ok a) =>
             (w1, Ok (MkLoginState (login_username st) (login_password st) ""
                        false (showPassword st), Some a))
         | (w1, Throw e) =>
             (w1, Ok (MkLoginState (login_username st) (login_password st)
                        (message_or e "Login failed. Please check your credentials.")
                        false (showPassword st), None))
         end.
Proof.
  unfold LoginPage_handleSubmit. simpl.
  destruct (negb _ || negb _); [done|].
  unfold try_catch, mbind, M_bind.
  by destruct (onLogin _ _ w) as [w1 [a|e]].
Qed.

Lemma AuthContext_login_run (auth : AuthState) (credentials : UserLogin) w :
  AuthContext_login serve auth credentials w
  = let req := MkRequest "/api/auth/login" (Some "POST")
                 (request_headers (localStorage w !! "auth_token")
                    (MkRequestInit (Some "POST")
                       (Some (json_of_UserLogin credentials)) None))
                 (Some (json_of_UserLogin credentials)) in
    let w1 := MkWorld (localStorage w) (fst (serve (backend w) req))
                      (sent w ++ [req]) (console w) (alerts w) in
    match settle (snd (serve (backend w) req)) with
    | Ok j =>
        match as_TokenResponse j with
        | Some response =>
            (set_localStorage (insert "auth_token" (access_token response)) w1,
             Ok (MkAuthState (Some (user response)) (Some (access_token response))
                             (loading auth)))
        | None =>
            let e := TypeError "response does not fit the declared interface" in
            (MkWorld (localStorage w) (backend w1) (sent w1)
                     (console w ++ ["Login failed: " +:+ err_message e]) (alerts w),
             Throw e)
        end
    | Throw e =>
        (MkWorld (localStorage w) (backend w1) (sent w1)
                 (console w ++ ["Login failed: " +:+ err_message e]) (alerts w),
         Throw e)
    end.
Proof.
  unfold AuthContext_login, try_catch, mbind, M_bind at 1.
  unfold AuthAPI_login. rewrite token_call_run, apiRequest_run. simpl.
  destruct (settle _) as [j|e]; simpl; [|done].
  by destruct (as_TokenResponse j).
Qed.

(** X21.  The login page sends nothing while the user name or the
    password is blank: it shows [Please fill in all fields] and local
    storage is as it was.  Otherwise it sends one request, the POST to
    [/auth/login] with the user name and the password as typed, not
    trimmed; the page never throws and is no longer loading at the end.
    After a success no error is shown and local storage holds the
    [access_token] of the answer, converted to a string; after a
    failure an error is shown, never an empty one, and local storage is
    as it was. *)
Theorem LoginPage_submits (auth : ProviderState) (st : LoginState) w :
  let username := login_username st in
  let password := login_password st in
  (js_trim username = "" \/ js_trim password = "" ->
     LoginPage_handleSubmit (handleLogin_body serve auth) st w
     = (w, Ok (MkLoginState username password "Please fill in all fields"
                 (login_isLoading st) (showPassword st), None)))
  /\ (js_trim username <> "" -> js_trim password <> "" ->
        exists w' st' outcome req,
          LoginPage_handleSubmit (handleLogin_body serve auth) st w
          = (w', Ok (st', outcome))
          /\ sent w' = (sent w ++ [req])%list
          /\ method req = Some "POST" /\ url req = "/api/auth/login"
          /\ body req = Some (JObj [("username", JStr username);
                                    ("password", JStr password)])
          /\ login_isLoading st' = false
          /\ login_username st' = username /\ login_password st' = password
          /\ match outcome with
             | Some auth' =>
                 login_error st' = ""
                 /\ AuthProvider_login serve auth (MkUserLogin username password) w
                    = (w', Ok auth')
                 /\ localStorage w' !! "auth_token"
                    = Some (ToString (token_value auth'))
             | None =>
                 login_error st' <> "" /\ localStorage w' = localStorage w
             end).
Proof.
  intros username password. subst username password. split.
  - intros Hblank. rewrite LoginPage_handleSubmit_run.
    unfold truthy_string. destruct Hblank as [-> | ->]; simpl; [done|].
    by rewrite orb_true_r.
  - intros Hu Hp. rewrite LoginPage_handleSubmit_run.
    unfold truthy_string at 1 2.
    rewrite !bool_decide_eq_false_2 by done. simpl.
    unfold handleLogin_body, AuthProvider_login, AuthAPI_login_body.
    rewrite provider_sign_in_run. cbv zeta.
    destruct (settle _) as [j|e]; simpl;
      [destruct (get_prop j "access_token") as [e|v]|];
      do 4 eexists; (split; [reflexivity|]); simpl;
      (do 7 (split; [reflexivity|])).
    + split; [|done]. by apply message_or_nonempty.
    + split; [reflexivity|]. split; [reflexivity|]. apply lookup_insert_eq.
    + split; [|done]. by apply message_or_nonempty.
Qed.

(** X22.  When the server turns the login down with a JSON body whose
    [detail] is a non-empty string (the [401] of wrong credentials), the
    login page shows exactly that [detail]; nothing is stored. *)
Theorem LoginPage_shows_detail (auth : AuthState) (st : LoginState) w
  (r : response) (j : json) (d : string) :
  js_trim (login_username st) <> "" ->
  js_trim (login_password st) <> "" ->
  (forall req, method req = Some "POST" -> url req = "/api/auth/login" ->
               snd (serve (backend w) req) = Responded r) ->
  ok r = false ->
  payload r = Some j ->
  field j "detail" = Some (JStr d) ->
  d <> "" ->
  exists w',
    LoginPage_handleSubmit (handleLogin serve auth) st w
    = (w', Ok (MkLoginState (login_username st) (login_password st) d false
                            (showPassword st), None))
    /\ localStorage w' = localStorage w.
Proof.
  intros Hu Hp Hserve Hok Hpay Hdetail Hd.
  rewrite LoginPage_handleSubmit_run. unfold truthy_string at 1 2.
  rewrite !bool_decide_eq_false_2 by done. simpl.
  unfold handleLogin. rewrite AuthContext_login_run. simpl.
  rewrite Hserve by done. simpl. rewrite Hok, Hpay. simpl.
  rewrite get_prop_field by (by destruct j).
  rewrite Hdetail. simpl.
  assert (Hmsg : message_or (Error (error_message (Some (JStr d)) (resp_status r)))
                    "Login failed. Please check your credentials." = d).
  { unfold message_or, error_message, truthy_string. simpl.
    rewrite (bool_decide_eq_false_2 (d = "")) by done. simpl.
    by rewrite (bool_decide_eq_false_2 (d = "")) by done. }
  rewrite Hmsg. by eexists.
Qed.

(** X23.  Saving the task form closes the modal and forgets the task
    being edited whether or not the server took the change; the filters
    stay.  With a task being edited the one request is a PUT to that
    task, with all seven fields of the form in the body; without, it is
    a POST to [/todos].  The handler does not throw. *)
Theorem handleSaveTask_routes (st : TasksPageState) (tasks : list Task)
  (taskData : TaskData) w :
  exists w' tasks' req,
    handleSaveTask serve st tasks taskData w
    = (w', Ok (MkTasksPageState false None (searchQuery st) (statusFilter st)
                                (priorityFilter st), tasks'))
    /\ sent w' = (sent w ++ [req])%list
    /\ localStorage w' = localStorage w
    /\ match editingTask st with
       | Some t =>
           method req = Some "PUT"
           /\ url req = "/api/todos/" +:+ number_to_string (parseInt (id t))
           /\ body req = Some (JObj [("title", JStr (td_title taskData));
                                     ("description", JStr (td_description taskData));
                                     ("status", JStr (td_status taskData));
                                     ("priority", JStr (td_priority taskData));
                                     ("start_date", JStr (td_startDate taskData));
                                     ("end_date", JStr (td_endDate taskData));
                                     ("category", JStr (td_category taskData))])
           /\ length tasks' = length tasks
       | None =>
           method req = Some "POST"
           /\ url req = "/api/todos"
           /\ body req = Some (json_of_TodoCreate (taskToTodoCreate taskData))
           /\ (tasks' = tasks \/ exists task, tasks' = (tasks ++ [task])%list)
       end.
Proof.
  unfold handleSaveTask, mbind, M_bind at 1.
  destruct (editingTask st) as [t|].
  - rewrite updateTask_run. unfold TodoAPI_updateTodo.
    rewrite api_expect_run, apiRequest_run. simpl.
    destruct (settle _) as [j|e]; simpl; [destruct (as_Todo j) as [todo|]|];
      simpl; do 3 eexists; (split; [reflexivity|]); simpl;
      do 5 (split; [reflexivity|]); try done.
    by rewrite length_map.
  - rewrite addTask_run. unfold TodoAPI_createTodo.
    rewrite api_expect_run, apiRequest_run. simpl.
    destruct (settle _) as [j|e]; simpl; [destruct (as_Todo j) as [todo|]|];
      simpl; do 3 eexists; (split; [reflexivity|]); simpl;
      do 5 (split; [reflexivity|]); eauto.
Qed.

(** X24.  Signing out from the menu sends no request, removes the token
    from local storage, empties the task list, closes the menu and goes
    back to the tasks page.  What is rendered next is the login or the
    register screen, whichever was last shown, and reloading the tasks
    then asks the server for nothing. *)
Theorem handleLogout_signs_out (auth : AuthState) (app : AppState) w :
  exists w' auth' app',
    handleLogout auth app w = (w', Ok (auth', app'))
    /\ sent w' = sent w
    /\ backend w' = backend w
    /\ localStorage w' = delete "auth_token" (localStorage w)
    /\ app_tasks app' = []
    /\ currentPage app' = PageTasks
    /\ showProfileDropdown app' = false
    /\ isAuthenticated auth' = false
    /\ (loading auth = false ->
          AppContent auth' app'
          = match authPage app with
            | AuthRegister => RegisterScreen
            | AuthLogin => LoginScreen
            end)
    /\ loadTasks serve auth' (app_tasks app) w' = (w', Ok []).
Proof.
  do 3 eexists. split; [reflexivity|]. simpl.
  do 7 (split; [reflexivity|]). split.
  - intros Hl. unfold AppContent. simpl. by rewrite Hl.
  - by rewrite loadTasks_run.
Qed.

End MorePageFacts.

(** X25.  The main screen is rendered only for a user who is
    authenticated, once the session has been looked up.  The admin page
    is rendered only on the admin tab and only for a user whose
    [is_admin] is set, and the [currentUserId] it gets is the id of that
    user; for anybody else the admin tab shows nothing and the
    navigation has no admin button. *)
Theorem AppContent_gates (auth : AuthState) (app : AppState) :
  (forall adminButton content,
     AppContent auth app = MainScreen adminButton content ->
     loading auth = false /\ isAuthenticated auth = true
     /\ adminButton = isAdmin auth)
  /\ (forall adminButton currentUserId,
        AppContent auth app = MainScreen adminButton (AdminContent currentUserId) ->
        currentPage app = PageAdmin /\ adminButton = true
        /\ exists u, auth_user auth = Some u /\ is_admin u = true
                     /\ user_id u = currentUserId)
  /\ (loading auth = false -> isAuthenticated auth = true ->
      isAdmin auth = false -> currentPage app = PageAdmin ->
      AppContent auth app = MainScreen false NoContent).
Proof.
  unfold AppContent, isAdmin. split; [|split].
  - intros b c. destruct (loading auth); [done|].
    destruct (isAuthenticated auth); simpl.
    + by intros [= <- _].
    + by destruct (authPage app).
  - intros b uid. destruct (loading auth); [done|].
    destruct (isAuthenticated auth); simpl; [|by destruct (authPage app)].
    destruct (currentPage app); try done.
    destruct (auth_user auth) as [u|]; [|done].
    destruct (is_admin u) eqn:Hadm; [|done].
    intros [= <- <-]. repeat split; try done. by exists u.
  - intros -> -> Hadm ->. simpl.
    destruct (auth_user auth) as [u|]; [|done]. by rewrite Hadm.
Qed.

(** ** Worked examples *)


(** A login answered with a body that has no token: the call succeeds,
    the string [undefined] is stored, and nobody is authenticated. *)
Lemma login_without_token :
  let run := AuthProvider_login shapeless_serve ProviderState_initial
               (MkUserLogin "alice" "s3cret") fresh_world in
  snd run = Ok (MkProviderState None None true)
  /\ snd (getToken (fst run)) = Ok (Some "undefined")
  /\ provider_isAuthenticated (MkProviderState None None true) = false.
Proof. by repeat split. Qed.

(** Starting up when [/auth/me] answers with an object that is no user:
    the object becomes the user and the token stays. *)
Lemma initAuth_keeps_any_body :
  let run := initAuth shapeless_serve ProviderState_initial signed_in_world in
  snd run = Ok (MkProviderState (Some (JObj [("name", JStr "alice")]))
                                (Some (JStr "tok-alice")) false)
  /\ snd (getToken (fst run)) = Ok (Some "tok-alice").
Proof. by repeat split. Qed.

(** Starting with a token the server no longer accepts. *)
Lemma initAuth_settles_witness :
  localStorage stale_token_world !! "auth_token" = Some "tok-expired"
  /\ exists w' st',
       initAuth strict_serve ProviderState_initial stale_token_world = (w', Ok st')
       /\ provider_loading st' = false
       /\ token_value st' = Some JNull
       /\ localStorage w' !! "auth_token" = None
       /\ calls_between stale_token_world w' [(None, "/api/auth/me")].
Proof.
  split; [reflexivity|].
  destruct (initAuth_settles strict_serve stale_token_world ProviderState_initial)
    as (w' & st' & Hrun & Hl & _ & Hsome).
  destruct (Hsome "tok-expired" eq_refl ltac:(discriminate))
    as (Hcalls & _ & Hfail).
  destruct (Hfail _ _ eq_refl) as (_ & Htoken & _ & Hls & _).
  exists w', st'. split; [exact Hrun|]. split; [exact Hl|].
  split; [exact Htoken|]. split; [|exact Hcalls].
  rewrite Hls. reflexivity.
Defined.

(** Deleting a task without a connection. *)
Lemma task_handlers_absorb_failures_witness :
  exists w',
    deleteTask offline_serve [open_task] "2" signed_in_world = (w', Ok [open_task])
    /\ alerts w' = ["Failed to delete task: Failed to fetch"].
Proof.
  destruct (task_handlers_absorb_failures offline_serve signed_in_world [open_task])
    as [Hdel _].
  destruct (Hdel "2") as [_ Hfail].
  destruct (Hfail _ _ eq_refl) as (w' & Hrun & Hal & _).
  exists w'. split; [exact Hrun|exact Hal].
Defined.

(** Adding a task for a signed-in user. *)
Lemma addTask_appends_witness :
  let create := TodoAPI_createTodo strict_serve (taskToTodoCreate sample_form)
                  signed_in_world in
  create = (fst create, Ok shopping_todo)
  /\ addTask strict_serve [todoToTask report_todo] sample_form signed_in_world
     = (fst create, Ok [todoToTask report_todo; todoToTask shopping_todo]).
Proof.
  intros create. split; [reflexivity|].
  exact (proj1 (addTask_appends strict_serve signed_in_world (fst create)
                  [todoToTask report_todo] sample_form shopping_todo eq_refl)).
Defined.

(** The task of todo 7. *)
Lemma task_id_addresses_todo_witness :
  safe_integer (todo_id report_todo)
  /\ parseInt (id (todoToTask report_todo)) = Some 7.
Proof.
  assert (Hsafe : safe_integer (todo_id report_todo)) by done.
  split; [exact Hsafe|].
  exact (proj1 (task_id_addresses_todo demo_serve report_todo Hsafe)).
Defined.

(** Deleting the first of two tasks on the sample server. *)
Lemma deleteTask_removes_exactly_one_witness :
  let del := TodoAPI_deleteTodo demo_serve (Some 7) signed_in_world in
  del = (fst del, Ok ())
  /\ exists tasks',
       deleteTask demo_serve (List.map todoToTask [report_todo; shopping_todo])
         (id (todoToTask report_todo)) signed_in_world
       = (fst del, Ok tasks')
       /\ S (length tasks') = 2%nat
       /\ In (todoToTask shopping_todo) tasks'.
Proof.
  intros del. split; [reflexivity|].
  assert (Hids : NoDup (List.map todo_id [report_todo; shopping_todo])).
  { apply (bool_decide_unpack _). vm_compute. exact I. }
  assert (Hsafe : Forall (fun t => safe_integer (todo_id t))
                     [report_todo; shopping_todo]).
  { repeat constructor. }
  destruct (deleteTask_removes_exactly_one demo_serve signed_in_world (fst del)
              [report_todo; shopping_todo] report_todo Hsafe Hids
              (or_introl eq_refl) eq_refl)
    as (tasks' & Hrun & Hlen & _ & Hrest).
  exists tasks'. split; [exact Hrun|]. split; [exact Hlen|].
  apply Hrest; [right; left; reflexivity|discriminate].
Defined.

(** Deleting on a server that answers 204 with no body. *)
Lemma deleteTask_empty_reply_witness :
  exists w' req msg,
    deleteTask no_content_serve [open_task] "2" signed_in_world
    = (w', Ok [open_task])
    /\ sent w' = (sent signed_in_world ++ [req])%list
    /\ method req = Some "DELETE"
    /\ backend w' = fst (no_content_serve (backend signed_in_world) req)
    /\ alerts w' = (alerts signed_in_world ++ ["Failed to delete task: " +:+ msg])%list.
Proof.
  apply (deleteTask_empty_reply no_content_serve signed_in_world [open_task] "2").
  intros req _. eexists. split; [reflexivity|]. split; reflexivity.
Defined.

(** A wrong password on the sample server. *)
Lemma LoginPage_shows_detail_witness :
  exists w',
    LoginPage_handleSubmit (handleLogin demo_serve AuthState_initial)
      (MkLoginState "alice" "wrong" "" false false) fresh_world
    = (w', Ok (MkLoginState "alice" "wrong" "Incorrect username or password"
                 false false, None))
    /\ localStorage w' = localStorage fresh_world.
Proof.
  apply (LoginPage_shows_detail demo_serve AuthState_initial
           (MkLoginState "alice" "wrong" "" false false) fresh_world
           (MkResponse 401 "Unauthorized"
              (Some (JObj [("detail", JStr "Incorrect username or password")])))
           (JObj [("detail", JStr "Incorrect username or password")])
           "Incorrect username or password").
  - vm_compute. discriminate.
  - vm_compute. discriminate.
  - intros [u m h b] Hm Hu. simpl in Hm, Hu. subst m u. reflexivity.
  - reflexivity.
  - reflexivity.
  - reflexivity.
  - discriminate.
Defined.

(** Saving the form opened on task 7, and the form opened for a new
    task. *)
Lemma handleSaveTask_routes_witness :
  (exists w' tasks' req,
     handleSaveTask demo_serve
       (handleEditTask TasksPageState_initial (todoToTask report_todo))
       [todoToTask report_todo] sample_form signed_in_world
     = (w', Ok (TasksPageState_initial, tasks'))
     /\ sent w' = [req]
     /\ method req = Some "PUT" /\ url req = "/api/todos/7")
  /\ (exists w' tasks' req,
        handleSaveTask demo_serve (handleAddTask TasksPageState_initial)
          [todoToTask report_todo] sample_form signed_in_world
        = (w', Ok (TasksPageState_initial, tasks'))
        /\ sent w' = [req]
        /\ method req = Some "POST" /\ url req = "/api/todos").
Proof.
  split.
  - destruct (handleSaveTask_routes demo_serve
                (handleEditTask TasksPageState_initial (todoToTask report_todo))
                [todoToTask report_todo] sample_form signed_in_world)
      as (w' & tasks' & req & Hrun & Hsent & _ & Hm & Hu & _).
    exists w', tasks', req. split; [exact Hrun|]. split; [exact Hsent|].
    split; [exact Hm|exact Hu].
  - destruct (handleSaveTask_routes demo_serve (handleAddTask TasksPageState_initial)
                [todoToTask report_todo] sample_form signed_in_world)
      as (w' & tasks' & req & Hrun & Hsent & _ & Hm & Hu & _).
    exists w', tasks', req. split; [exact Hrun|]. split; [exact Hsent|].
    split; [exact Hm|exact Hu].
Defined.

(** Alice signs out. *)
Lemma handleLogout_signs_out_witness :
  exists w' auth' app',
    handleLogout alice_signed_in
      (MkAppState AuthLogin PageAdmin true [done_task] false None) signed_in_world
    = (w', Ok (auth', app'))
    /\ localStorage w' !! "auth_token" = None
    /\ app_tasks app' = []
    /\ AppContent auth' app' = LoginScreen.
Proof.
  destruct (handleLogout_signs_out demo_serve alice_signed_in
              (MkAppState AuthLogin PageAdmin true [done_task] false None)
              signed_in_world)
    as (w' & auth' & app' & Hrun & _ & _ & Hls & Htasks & _ & _ & _ & Hview & _).
  exists w', auth', app'. split; [exact Hrun|]. split.
  - rewrite Hls. reflexivity.
  - split; [exact Htasks|exact (Hview eq_refl)].
Defined.

(** Bob, who is no admin, on the admin tab. *)
Lemma AppContent_gates_witness :
  AppContent bob_signed_in (MkAppState AuthLogin PageAdmin false [] false None)
  = MainScreen false NoContent.
Proof.
  apply (AppContent_gates bob_signed_in
           (MkAppState AuthLogin PageAdmin false [] false None));
    reflexivity.
Defined.
